(** * screw.nvim collaboration server: a shallow embedding of
      [screw_server.py] and the properties of its note store.

    The server is a set of FastAPI handlers, each of which runs a few SQL
    statements on an autocommit PostgreSQL connection.  The embedding has
    four layers:

    - Python values ([value]), dictionaries as association lists, text
      rendering of datetimes ([isoformat]) and UUIDs ([uuid_str]), and the
      store's reading of a UUID ([uuid_in]);
    - the relational store: three tables of rows with nullable columns;
    - the SQL statements the handlers issue, one definition per statement;
    - the handlers themselves, in a state-and-exception monad whose state
      survives a raised exception (every statement is committed on its
      own, so a failing handler keeps what it has written so far). *)

From Stdlib Require Import ZArith List String Ascii Bool Lia.
From Stdlib Require Import Sorting.Sorted Sorting.Permutation.
Import ListNotations.

Local Open Scope string_scope.
Local Open Scope Z_scope.
Local Open Scope list_scope.

Infix "+++" := String.append (right associativity, at level 60).

(* ================================================================== *)
(** ** Sequencing *)

(** The handlers thread failure (and, further down, the store) through
    every statement; one interface serves both. *)
Class Monad (M : Type -> Type) : Type := {
  ret : forall {A}, A -> M A;
  bind : forall {A B}, M A -> (A -> M B) -> M B
}.

Declare Scope monad_scope.
Delimit Scope monad_scope with monad.
Notation "x <- c1 ;; c2" := (bind c1 (fun x => c2))
  (at level 61, c1 at next level, right associativity) : monad_scope.
Notation "' pat <- c1 ;; c2" := (bind c1 (fun pat => c2))
  (at level 61, pat pattern, c1 at next level, right associativity) : monad_scope.
Notation "c1 ;; c2" := (bind c1 (fun _ => c2))
  (at level 61, right associativity) : monad_scope.
Local Open Scope monad_scope.

#[global] Instance Monad_option : Monad option := {
  ret := @Some;
  bind := fun A B o f => match o with Some a => f a | None => None end
}.

(* ================================================================== *)
(** ** Fixed-width numerals *)

(** One digit in a base up to 16, lower case as Python prints it. *)
Definition digit_char (d : Z) : ascii :=
  match d with
  | 0 => "0" | 1 => "1" | 2 => "2" | 3 => "3" | 4 => "4"
  | 5 => "5" | 6 => "6" | 7 => "7" | 8 => "8" | 9 => "9"
  | 10 => "a" | 11 => "b" | 12 => "c" | 13 => "d" | 14 => "e"
  | _ => "f"
  end%char.

(** The value of a decimal digit, from its character code (["0"] is 48). *)
Definition digit_val (c : ascii) : option Z :=
  let code := Z.of_N (N_of_ascii c) in
  if (48 <=? code) && (code <=? 57) then Some (code - 48) else None.

(** [digits b k n]: the [k] low digits of [n] in base [b], most significant
    first, zero padded (Python's ["%0kd"] and ["%0kx"] on a number that
    fits). *)
Fixpoint digits (b : Z) (k : nat) (n : Z) : string :=
  match k with
  | O => EmptyString
  | S k' => String (digit_char ((n / b ^ Z.of_nat k') mod b)) (digits b k' n)
  end.

(** Reads exactly [k] decimal digits from the front of [s]. *)
Fixpoint read_digits (k : nat) (s : string) (acc : Z) : option (Z * string) :=
  match k with
  | O => Some (acc, s)
  | S k' =>
      match s with
      | String c s' =>
          match digit_val c with
          | Some d => read_digits k' s' (acc * 10 + d)
          | None => None
          end
      | EmptyString => None
      end
  end.

Definition expect (c : ascii) (s : string) : option string :=
  match s with
  | String c' s' => if Ascii.eqb c c' then Some s' else None
  | EmptyString => None
  end.

(* ================================================================== *)
(** ** Datetimes and UUIDs *)

(** A naive [datetime.datetime], field by field. *)
Record datetime : Type := mkDatetime {
  year : Z; month : Z; day : Z;
  hour : Z; minute : Z; second : Z; microsecond : Z
}.

Definition is_leap (y : Z) : bool :=
  ((y mod 4 =? 0) && negb (y mod 100 =? 0)) || (y mod 400 =? 0).

Definition days_in_month (y m : Z) : Z :=
  match m with
  | 2 => if is_leap y then 29 else 28
  | 4 | 6 | 9 | 11 => 30
  | _ => 31
  end.

(** The values a [datetime] object can hold. *)
Definition valid_datetime (d : datetime) : bool :=
  (1 <=? year d) && (year d <=? 9999) &&
  (1 <=? month d) && (month d <=? 12) &&
  (1 <=? day d) && (day d <=? days_in_month (year d) (month d)) &&
  (0 <=? hour d) && (hour d <=? 23) &&
  (0 <=? minute d) && (minute d <=? 59) &&
  (0 <=? second d) && (second d <=? 59) &&
  (0 <=? microsecond d) && (microsecond d <=? 999999).

(** [datetime.isoformat()]: [YYYY-MM-DDTHH:MM:SS], followed by [.ffffff]
    when the microsecond field is not zero. *)
Definition isoformat (d : datetime) : string :=
  digits 10 4 (year d) +++ "-" +++ digits 10 2 (month d) +++ "-" +++
  digits 10 2 (day d) +++ "T" +++ digits 10 2 (hour d) +++ ":" +++
  digits 10 2 (minute d) +++ ":" +++ digits 10 2 (second d) +++
  (if microsecond d =? 0 then EmptyString else "." +++ digits 10 6 (microsecond d)).

(** Up to [k] decimal digits from the front of [s]: their value after
    [acc], how many there were after [n], and the text left over. *)
Fixpoint read_upto (k : nat) (s : string) (acc : Z) (n : nat) : Z * nat * string :=
  match k with
  | O => (acc, n, s)
  | S k' =>
      match s with
      | String c s' =>
          match digit_val c with
          | Some d => read_upto k' s' (acc * 10 + d) (S n)
          | None => (acc, n, s)
          end
      | EmptyString => (acc, n, s)
      end
  end.

(** The fraction of a second, in microseconds: nothing, or a point and
    one to six digits. *)
Definition read_fraction (s : string) : option (Z * string) :=
  match s with
  | String c s' =>
      if Ascii.eqb c "." then
        let '(v, n, rest) := read_upto 6 s' 0 0 in
        match n with
        | O => None
        | S _ => Some (v * 10 ^ Z.of_nat (6 - n), rest)
        end
      else Some (0, s)
  | EmptyString => Some (0, s)
  end.

(** A time zone after the time: none, [Z], or a sign and two digits,
    optionally followed by a colon and two more. *)
Definition read_zone (s : string) : option string :=
  match s with
  | EmptyString => Some s
  | String c s' =>
      if Ascii.eqb c "Z" then Some s'
      else if Ascii.eqb c "+" || Ascii.eqb c "-" then
        '(_, s) <- read_digits 2 s' 0 ;;
        match s with
        | String c' s'' =>
            if Ascii.eqb c' ":" then '(_, s) <- read_digits 2 s'' 0 ;; Some s
            else Some s
        | EmptyString => Some s
        end
      else None
  end.

(** A reading of text as a timestamp without time zone: the date as
    [YYYY-MM-DD], a [T] or a space, the time as [HH:MM:SS] with an
    optional fraction, and an optional time zone, which is dropped; the
    whole must name a valid date and time.  This is the layout [isoformat]
    writes and its nearest variants.  (The store reads these and others;
    which ones is left to the environment a handler runs in, see
    [read_timestamp] below.) *)
Definition timestamp_in (s : string) : option datetime :=
  '(y, s) <- read_digits 4 s 0 ;;
  s <- expect "-" s ;;
  '(mo, s) <- read_digits 2 s 0 ;;
  s <- expect "-" s ;;
  '(dd, s) <- read_digits 2 s 0 ;;
  s <- match expect "T" s with Some s' => Some s' | None => expect " " s end ;;
  '(h, s) <- read_digits 2 s 0 ;;
  s <- expect ":" s ;;
  '(mi, s) <- read_digits 2 s 0 ;;
  s <- expect ":" s ;;
  '(se, s) <- read_digits 2 s 0 ;;
  '(us, s) <- read_fraction s ;;
  s <- read_zone s ;;
  match s with
  | EmptyString =>
      let d := mkDatetime y mo dd h mi se us in
      if valid_datetime d then Some d else None
  | String _ _ => None
  end.

(** Chronological order, as the lexicographic order of the fields. *)
Fixpoint lex_leb (a b : list Z) : bool :=
  match a, b with
  | [], _ => true
  | _ :: _, [] => false
  | x :: a', y :: b' => (x <? y) || ((x =? y) && lex_leb a' b')
  end.

Definition dt_fields (d : datetime) : list Z :=
  [year d; month d; day d; hour d; minute d; second d; microsecond d].

Definition dt_leb (a b : datetime) : bool := lex_leb (dt_fields a) (dt_fields b).
Definition dt_ltb (a b : datetime) : bool := negb (dt_leb b a).

(** [str(u)] for a [uuid.UUID] holding the 128-bit number [u]: 32 hex
    digits grouped 8-4-4-4-12. *)
Definition uuid_str (u : Z) : string :=
  digits 16 8 (u / 2 ^ 96) +++ "-" +++ digits 16 4 (u / 2 ^ 80) +++ "-" +++
  digits 16 4 (u / 2 ^ 64) +++ "-" +++ digits 16 4 (u / 2 ^ 48) +++ "-" +++
  digits 16 12 u.

(** A hexadecimal digit, in lower case; [None] for any other character. *)
Definition hex_lower (c : ascii) : option ascii :=
  let code := N_of_ascii c in
  if ((48 <=? code) && (code <=? 57))%N then Some c
  else if ((97 <=? code) && (code <=? 102))%N then Some c
  else if ((65 <=? code) && (code <=? 70))%N then Some (ascii_of_N (code + 32))
  else None.

(** The store's reading of the bytes of a UUID, two hexadecimal digits
    each, of either case; a hyphen may follow every second byte but the
    last.  [i] counts the bytes read so far; the result is the digits in
    lower case and the text left over. *)
Fixpoint read_uuid_bytes (n i : nat) (s : string) : option (string * string) :=
  match n with
  | O => Some (EmptyString, s)
  | S n' =>
      match s with
      | String a (String b s') =>
          a' <- hex_lower a ;;
          b' <- hex_lower b ;;
          let s' := match s' with
                    | String c t =>
                        if Ascii.eqb c "-" && Nat.odd i && (i <? 15)%nat then t else s'
                    | EmptyString => s'
                    end in
          '(hex, rest) <- read_uuid_bytes n' (S i) s' ;;
          Some (String a' (String b' hex), rest)
      | _ => None
      end
  end.

(** The text the store prints for a UUID of 32 hexadecimal digits. *)
Definition uuid_out (hex : string) : string :=
  substring 0 8 hex +++ "-" +++ substring 8 4 hex +++ "-" +++
  substring 12 4 hex +++ "-" +++ substring 16 4 hex +++ "-" +++
  substring 20 12 hex.

(** The store's conversion of text to a UUID, given as the text the store
    prints for it: 16 bytes as [read_uuid_bytes] reads them, the whole
    optionally in braces, and nothing else.  [None]: the text is no
    UUID. *)
Definition uuid_in (s : string) : option string :=
  let braces := match s with String c _ => Ascii.eqb c "{" | EmptyString => false end in
  let src := match s with String _ t => if braces then t else s | EmptyString => s end in
  '(hex, rest) <- read_uuid_bytes 16 0 src ;;
  rest <- (if braces then expect "}" rest else Some rest) ;;
  match rest with
  | EmptyString => Some (uuid_out hex)
  | String _ _ => None
  end.

(* ================================================================== *)
(** ** Python values and dictionaries *)

(** The Python objects that travel through the handlers: JSON data from
    request bodies and from [json_agg], and the column values psycopg
    returns (a TIMESTAMP column comes back as a native [datetime]). *)
#[warnings="-register-all"]
Inductive value : Type :=
| VNone
| VBool (b : bool)
| VInt (z : Z)
| VStr (s : string)
| VDatetime (d : datetime)
| VList (l : list value)
| VDict (kv : list (string * value)).

Definition dict : Type := list (string * value).

(** [d.get(k)]; [None] stands for an absent key. *)
Fixpoint dict_get (k : string) (d : dict) : option value :=
  match d with
  | [] => None
  | (k', v) :: d' => if String.eqb k k' then Some v else dict_get k d'
  end.

(** [d.get(k, default)]. *)
Definition dict_get_default (k : string) (default : value) (d : dict) : value :=
  match dict_get k d with Some v => v | None => default end.

(** [d[k] = v]: an existing key keeps its position. *)
Fixpoint dict_set (k : string) (v : value) (d : dict) : dict :=
  match d with
  | [] => [(k, v)]
  | (k', v') :: d' =>
      if String.eqb k k' then (k', v) :: d' else (k', v') :: dict_set k v d'
  end.

(** The dictionary [dict_row] builds from a result row: columns in order,
    a repeated column name keeping the last value. *)
Definition dict_of_columns (cols : list (string * value)) : dict :=
  fold_left (fun d kv => dict_set (fst kv) (snd kv) d) cols [].

(** Python truthiness of the values tested by the handlers. *)
Definition truthy (v : value) : bool :=
  match v with
  | VNone => false
  | VBool b => b
  | VInt z => negb (z =? 0)
  | VStr s => negb (String.eqb s EmptyString)
  | VDatetime _ => true
  | VList l => match l with [] => false | _ => true end
  | VDict kv => match kv with [] => false | _ => true end
  end.

Definition is_native_datetime (v : value) : bool :=
  match v with VDatetime _ => true | _ => false end.

Definition of_opt_str (o : option string) : value :=
  match o with Some s => VStr s | None => VNone end.
Definition of_opt_int (o : option Z) : value :=
  match o with Some z => VInt z | None => VNone end.
Definition of_opt_dt (o : option datetime) : value :=
  match o with Some d => VDatetime d | None => VNone end.
Definition of_opt_value (o : option value) : value :=
  match o with Some v => v | None => VNone end.

(* ================================================================== *)
(** ** Exceptions *)

Inductive exn : Type :=
| HTTPException (status_code : Z) (detail : string)
| KeyError (key : string)
| AttributeError (msg : string)
| DatabaseError (msg : string).

(** [str(e)].  Starlette prints an [HTTPException] as
    ["<status>: <detail>"]; a [KeyError] prints the quoted key. *)
Definition exn_str (e : exn) : string :=
  match e with
  | HTTPException status_code detail => digits 10 3 status_code +++ ": " +++ detail
  | KeyError key => "'" +++ key +++ "'"
  | AttributeError msg => msg
  | DatabaseError msg => msg
  end.

(** [needle in hay] on strings. *)
Definition str_in (needle hay : string) : bool :=
  match String.index 0 needle hay with Some _ => true | None => false end.

Definition Result (A : Type) : Type := (exn + A)%type.

#[global] Instance Monad_Result : Monad Result := {
  ret := fun A a => inr a;
  bind := fun A B r f => match r with inl e => inl e | inr a => f a end
}.

Fixpoint mapM {M : Type -> Type} `{Monad M} {A B : Type}
    (f : A -> M B) (l : list A) : M (list B) :=
  match l with
  | [] => ret []
  | a :: l' => b <- f a ;; bs <- mapM f l' ;; ret (b :: bs)
  end.

(** [d[k]]. *)
Definition dict_getitem (k : string) (d : dict) : Result value :=
  match dict_get k d with Some v => inr v | None => inl (KeyError k) end.

(* ================================================================== *)
(** ** The relational store *)

(** Modelled from the spec: the table declarations are not part of the
    server's source.  The columns and their order are those of the
    persisted schema ([projects(id, name unique, path)], [notes(id,
    project_id -> projects.id, project_name, ...)], [replies(id, parent_id
    -> notes.id, ...)]); the statements of the source add that [notes.id]
    is the key of [notes] (the read queries select [n.*] grouped by [n.id]
    alone), that [projects.name] is unique (the upsert names it as its
    conflict target), that [notes.timestamp], [created_at] and
    [updated_at] are TIMESTAMP columns, and that [updated_at] and [source]
    default to the current time and to ['native'].  [notes.id] is a UUID
    column (the handlers say so where they convert the key with [str]),
    and so is [replies.parent_id], which the queries compare with it; a
    UUID is held as the text the store prints for it, and text sent for
    such a column is read as the store reads it ([uuid_in]).  [cwe],
    [severity] and [source] have the widths [init_database] declares for
    them, and [line_number] is an INTEGER column.  A column no statement
    is known to constrain is nullable and defaults to NULL, except
    [created_at], taken to default to the current time.  [replies] has no
    other constraint and holds the identifier and the timestamp of a reply
    as the text it is given; deleting a note leaves its replies where they
    are. *)
Module Projects.
Record row : Type := mk {
  id : Z;
  name : string;
  path : option string
}.
End Projects.

Module Notes.
Record row : Type := mk {
  id : string;
  project_id : option Z;
  project_name : option string;
  file_path : option string;
  line_number : option Z;
  author : option string;
  user_id : option string;
  timestamp : option datetime;
  comment : option string;
  description : option string;
  cwe : option string;
  state : option string;
  severity : option string;
  source : option string;
  import_metadata : option value;
  created_at : option datetime;
  updated_at : option datetime
}.

(** The columns of [SELECT n.*], as psycopg hands them over. *)
Definition columns (n : row) : list (string * value) :=
  [ ("id", VStr (id n));
    ("project_id", of_opt_int (project_id n));
    ("project_name", of_opt_str (project_name n));
    ("file_path", of_opt_str (file_path n));
    ("line_number", of_opt_int (line_number n));
    ("author", of_opt_str (author n));
    ("user_id", of_opt_str (user_id n));
    ("timestamp", of_opt_dt (timestamp n));
    ("comment", of_opt_str (comment n));
    ("description", of_opt_str (description n));
    ("cwe", of_opt_str (cwe n));
    ("state", of_opt_str (state n));
    ("severity", of_opt_str (severity n));
    ("source", of_opt_str (source n));
    ("import_metadata", of_opt_value (import_metadata n));
    ("created_at", of_opt_dt (created_at n));
    ("updated_at", of_opt_dt (updated_at n)) ].
End Notes.

Module Replies.
Record row : Type := mk {
  id : string;
  parent_id : string;
  author : string;
  user_id : string;
  timestamp : string;
  comment : string
}.
End Replies.

Record Database : Type := mkDatabase {
  projects : list Projects.row;
  notes : list Notes.row;
  replies : list Replies.row;
  projects_id_seq : Z
}.

Definition empty_database : Database := mkDatabase [] [] [] 1.

Definition opt_eqb {A} (eqb : A -> A -> bool) (o : option A) (x : A) : bool :=
  match o with Some y => eqb y x | None => false end.

(** SQL comparison with a NULL is never true. *)
Definition sql_str_eq (col : option string) (param : string) : bool :=
  opt_eqb String.eqb col param.
Definition sql_int_eq (col : option Z) (param : Z) : bool :=
  opt_eqb Z.eqb col param.

(** The order ORDER BY puts on a nullable column: NULL sorts as larger
    than every value (last ascending, first descending). *)
Definition nulls_last_leb {A} (leb : A -> A -> bool) (a b : option A) : bool :=
  match a, b with
  | _, None => true
  | None, Some _ => false
  | Some x, Some y => leb x y
  end.

Section Sort.
Context {A : Type} (leb : A -> A -> bool).

Fixpoint insert_sorted (x : A) (l : list A) : list A :=
  match l with
  | [] => [x]
  | y :: l' => if leb x y then x :: l else y :: insert_sorted x l'
  end.

(** ORDER BY: rows that compare equal keep the order of the table. *)
Definition order_by (l : list A) : list A :=
  fold_right insert_sorted [] l.
End Sort.

(** What the adapter and the store make of a Python value sent for a
    column: [None] is NULL, a string serves a text column, an integer an
    integer column, a string the store reads as a timestamp or a
    [datetime] a TIMESTAMP column, a string the store reads as a UUID a
    UUID column.  Anything else is refused (the store's further
    conversions are not modelled). *)
Definition to_text (v : value) : Result (option string) :=
  match v with
  | VNone => inr None
  | VStr s => inr (Some s)
  | _ => inl (DatabaseError "cannot adapt value to text")
  end.

Definition to_integer (v : value) : Result (option Z) :=
  match v with
  | VNone => inr None
  | VInt z => inr (Some z)
  | _ => inl (DatabaseError "cannot adapt value to integer")
  end.

(** [read_timestamp] is the store's conversion of text to a timestamp. *)
Definition to_timestamp (read_timestamp : string -> option datetime) (v : value)
  : Result (option datetime) :=
  match v with
  | VNone => inr None
  | VDatetime d => inr (Some d)
  | VStr s =>
      match read_timestamp s with
      | Some d => inr (Some d)
      | None => inl (DatabaseError "invalid input syntax for type timestamp")
      end
  | _ => inl (DatabaseError "cannot adapt value to timestamp")
  end.

(** The double quote, for the messages that quote a value. *)
Definition dquote : string := String (ascii_of_nat 34) EmptyString.

Definition uuid_syntax_error (text : string) : exn :=
  DatabaseError ("invalid input syntax for type uuid: " +++ dquote +++ text +++ dquote).

Definition to_uuid (v : value) : Result (option string) :=
  match v with
  | VNone => inr None
  | VStr s =>
      match uuid_in s with
      | Some i => inr (Some i)
      | None => inl (uuid_syntax_error s)
      end
  | _ => inl (DatabaseError "cannot adapt value to uuid")
  end.

(** A statement with a text parameter for a UUID column: it runs on the
    UUID the text denotes and is refused for text that denotes none. *)
Definition with_uuid {A} (text : string) (stmt : string -> A) : Result A :=
  match uuid_in text with
  | Some i => inr (stmt i)
  | None => inl (uuid_syntax_error text)
  end.

(** The length of UTF-8 text in characters: its bytes but the
    continuation bytes. *)
Definition utf8_length (s : string) : nat :=
  List.length (filter (fun c => negb ((128 <=? N_of_ascii c) && (N_of_ascii c <? 192))%N)
                      (list_ascii_of_string s)).

(** A value for a VARCHAR(n) column, [n] of two digits: text of more than
    [n] characters is refused.  (The store cuts text whose excess is made
    of spaces only instead of refusing it; that is not modelled, such text
    is refused here as well.) *)
Definition varchar (n : nat) (o : option string) : Result unit :=
  match o with
  | Some s =>
      if (utf8_length s <=? n)%nat then inr tt
      else inl (DatabaseError ("value too long for type character varying("
                               +++ digits 10 2 (Z.of_nat n) +++ ")"))
  | None => inr tt
  end.

(** A value for an INTEGER column. *)
Definition int4 (o : option Z) : Result unit :=
  match o with
  | Some z =>
      if (-2147483648 <=? z) && (z <=? 2147483647) then inr tt
      else inl (DatabaseError "integer out of range")
  | None => inr tt
  end.

(** The values a statement sends for the sized columns of [notes]:
    [line_number] INTEGER, [cwe] VARCHAR(20), [severity] VARCHAR(10) and
    [source] VARCHAR(20). *)
Definition check_note_columns (line_number : option Z) (cwe severity source : option string)
  : Result unit :=
  int4 line_number ;; varchar 20 cwe ;; varchar 10 severity ;; varchar 20 source.

Definition not_null {A} (column : string) (o : option A) : Result A :=
  match o with
  | Some a => inr a
  | None => inl (DatabaseError ("null value in column " +++ column))
  end.

(* ================================================================== *)
(** ** The SQL statements of the handlers *)

Definition set_notes (d : Database) (ns : list Notes.row) : Database :=
  mkDatabase (projects d) ns (replies d) (projects_id_seq d).

Definition project_named (name : string) (p : Projects.row) : bool :=
  String.eqb (Projects.name p) name.

(** [id = i], for a UUID [i] in the text the store prints for it. *)
Definition note_has_id (i : string) (n : Notes.row) : bool :=
  String.eqb (Notes.id n) i.

(** [SELECT id FROM projects WHERE name = %s AND path = %s], then
    [fetchone()]. *)
Definition select_project_id (name path : string) (d : Database) : option Z :=
  match filter (fun p => project_named name p && sql_str_eq (Projects.path p) path)
               (projects d) with
  | p :: _ => Some (Projects.id p)
  | [] => None
  end.

(** [INSERT INTO projects (name, path) VALUES (%s, %s) RETURNING id]. *)
Definition insert_project (name : string) (path : option string) (d : Database)
  : Result (Database * Z) :=
  if existsb (project_named name) (projects d) then
    inl (DatabaseError "duplicate key value violates unique constraint on projects.name")
  else
    let i := projects_id_seq d in
    inr (mkDatabase (projects d ++ [Projects.mk i name path])
                    (notes d) (replies d) (i + 1), i).

(** [INSERT INTO projects (name) VALUES (%s) ON CONFLICT (name) DO
    NOTHING]: on a conflict no row is written, but the key drawn for it
    from the sequence is spent. *)
Definition insert_project_do_nothing (name : string) (d : Database) : Database :=
  match insert_project name None d with
  | inr (d', _) => d'
  | inl _ => mkDatabase (projects d) (notes d) (replies d) (projects_id_seq d + 1)
  end.

(** [INSERT INTO notes (...) VALUES (...)] of one complete row: the key
    must be new and a project reference, when there is one, must name a
    project row. *)
Definition insert_note (n : Notes.row) (d : Database) : Result Database :=
  if existsb (note_has_id (Notes.id n)) (notes d) then
    inl (DatabaseError "duplicate key value violates unique constraint on notes.id")
  else
    match Notes.project_id n with
    | Some i =>
        if existsb (fun p => Projects.id p =? i) (projects d) then
          inr (set_notes d (notes d ++ [n]))
        else
          inl (DatabaseError "insert on notes violates foreign key constraint on project_id")
    | None => inr (set_notes d (notes d ++ [n]))
    end.

(** The assignment list of [UPDATE notes SET file_path = %s, ...,
    updated_at = CURRENT_TIMESTAMP]. *)
Definition update_set (file_path : string) (line_number : Z) (author comment : string)
    (description cwe : option string) (state : string) (severity : option string)
    (source : string) (current_timestamp : datetime) (n : Notes.row) : Notes.row :=
  Notes.mk (Notes.id n) (Notes.project_id n) (Notes.project_name n)
    (Some file_path) (Some line_number) (Some author) (Notes.user_id n)
    (Notes.timestamp n) (Some comment) description cwe (Some state) severity
    (Some source) (Notes.import_metadata n) (Notes.created_at n)
    (Some current_timestamp).

(** [UPDATE notes SET ... WHERE id = %s], on the UUID the parameter
    denotes; the second component is [rowcount]. *)
Definition update_notes_where_id (set : Notes.row -> Notes.row) (note_id : string)
    (d : Database) : Database * Z :=
  (set_notes d (map (fun n => if note_has_id note_id n then set n else n) (notes d)),
   Z.of_nat (List.length (filter (note_has_id note_id) (notes d)))).

(** [DELETE FROM notes WHERE project_name = %s]; the second component is
    [rowcount].  Replies of a deleted note stay in their table. *)
Definition delete_notes_where_project_name (project_name : string) (d : Database)
  : Database * Z :=
  (set_notes d (filter (fun n => negb (sql_str_eq (Notes.project_name n) project_name))
                       (notes d)),
   Z.of_nat (List.length (filter (fun n => sql_str_eq (Notes.project_name n) project_name)
                            (notes d)))).

(** [SELECT id FROM notes WHERE id = %s], on the UUID the parameter
    denotes, then [fetchone()]. *)
Definition select_note_id (note_id : string) (d : Database) : option string :=
  match filter (note_has_id note_id) (notes d) with
  | n :: _ => Some (Notes.id n)
  | [] => None
  end.

(** [INSERT INTO replies (id, parent_id, author, user_id, timestamp,
    comment) VALUES (...)]. *)
Definition insert_reply (r : Replies.row) (d : Database) : Database :=
  mkDatabase (projects d) (notes d) (replies d ++ [r]) (projects_id_seq d).

(** *** The read queries *)

(** [notes n LEFT JOIN replies r ON n.id = r.parent_id], for one note: a
    note without replies is kept once, with an all-NULL reply. *)
Definition left_join_replies (d : Database) (n : Notes.row) : list (option Replies.row) :=
  match filter (fun r => String.eqb (Notes.id n) (Replies.parent_id r)) (replies d) with
  | [] => [None]
  | rs => map Some rs
  end.

(** [json_agg(build r) FILTER (WHERE r.id IS NOT NULL)] over one group:
    NULL when no row of the group passes the filter. *)
Definition json_agg_filter (build : Replies.row -> value)
    (group : list (option Replies.row)) : option value :=
  match flat_map (fun o => match o with Some r => [build r] | None => [] end) group with
  | [] => None
  | vs => Some (VList vs)
  end.

Definition coalesce (o : option value) (default : value) : value :=
  match o with Some v => v | None => default end.

(** [json_build_object('id', r.id, 'parent_id', r.parent_id, 'author',
    r.author, 'timestamp', r.timestamp, 'comment', r.comment)]. *)
Definition reply_object (r : Replies.row) : value :=
  VDict [ ("id", VStr (Replies.id r)); ("parent_id", VStr (Replies.parent_id r));
          ("author", VStr (Replies.author r));
          ("timestamp", VStr (Replies.timestamp r));
          ("comment", VStr (Replies.comment r)) ].

(** The same with ['user_id', r.user_id] after the author. *)
Definition reply_object_with_user (r : Replies.row) : value :=
  VDict [ ("id", VStr (Replies.id r)); ("parent_id", VStr (Replies.parent_id r));
          ("author", VStr (Replies.author r)); ("user_id", VStr (Replies.user_id r));
          ("timestamp", VStr (Replies.timestamp r));
          ("comment", VStr (Replies.comment r)) ].

(** [COALESCE(json_agg(...) FILTER (...), '[]'::json) as replies]. *)
Definition replies_column (build : Replies.row -> value) (d : Database) (n : Notes.row)
  : string * value :=
  ("replies", coalesce (json_agg_filter build (left_join_replies d n)) (VList [])).

(** [notes n JOIN projects p ON n.project_id = p.id WHERE p.name = %s]. *)
Definition join_projects (project_name : string) (d : Database)
  : list (Notes.row * Projects.row) :=
  flat_map (fun n =>
              map (fun p => (n, p))
                  (filter (fun p => sql_int_eq (Notes.project_id n) (Projects.id p)
                                    && project_named project_name p)
                          (projects d)))
           (notes d).

(** The query of [get_project_notes]: one row per note and project,
    [ORDER BY n.timestamp DESC]. *)
Definition select_project_notes (project_name : string) (d : Database) : list dict :=
  map (fun np =>
         dict_of_columns (Notes.columns (fst np)
                          ++ [ ("project_name", VStr (Projects.name (snd np)));
                               replies_column reply_object d (fst np) ]))
      (order_by (fun a b => nulls_last_leb dt_leb (Notes.timestamp (fst b))
                                                  (Notes.timestamp (fst a)))
                (join_projects project_name d)).

Definition note_row_dict (build : Replies.row -> value) (d : Database) (n : Notes.row)
  : dict :=
  dict_of_columns (Notes.columns n ++ [replies_column build d n]).

(** The query of [get_file_notes]: [WHERE n.project_name = %s AND
    n.file_path = %s ... ORDER BY n.line_number]. *)
Definition select_file_notes (project_name path : string) (d : Database) : list dict :=
  map (note_row_dict reply_object_with_user d)
      (order_by (fun a b => nulls_last_leb Z.leb (Notes.line_number a) (Notes.line_number b))
                (filter (fun n => sql_str_eq (Notes.project_name n) project_name
                                  && sql_str_eq (Notes.file_path n) path)
                        (notes d))).

(** The query of [get_line_notes]: [WHERE n.project_name = %s AND
    n.file_path = %s AND n.line_number = %s ... ORDER BY n.created_at]. *)
Definition select_line_notes (project_name path : string) (line : Z) (d : Database)
  : list dict :=
  map (note_row_dict reply_object_with_user d)
      (order_by (fun a b => nulls_last_leb dt_leb (Notes.created_at a) (Notes.created_at b))
                (filter (fun n => sql_str_eq (Notes.project_name n) project_name
                                  && sql_str_eq (Notes.file_path n) path
                                  && sql_int_eq (Notes.line_number n) line)
                        (notes d))).

(** The query of [get_note_by_id]: [WHERE n.id = %s], on the UUID the
    parameter denotes, then [fetchone()]. *)
Definition select_note_by_id (note_id : string) (d : Database) : option dict :=
  match filter (note_has_id note_id) (notes d) with
  | n :: _ => Some (note_row_dict reply_object d n)
  | [] => None
  end.

(* ================================================================== *)
(** ** Requests: the world a handler runs in *)

(** What a handler cannot decide by itself: what the clock shows at the
    [k]-th reading, which 128-bit number the [k]-th UUID draw yields, and
    which text the store reads as which timestamp ([None]: it refuses the
    text).  The readings of [datetime.now()] and of the store's
    CURRENT_TIMESTAMP are taken from one sequence, in the order they are
    made; [uuid.uuid4()] and the store's default for [notes.id] draw from
    the same source. *)
Record Env : Type := mkEnv {
  clock : nat -> datetime;
  uuid_source : nat -> Z;
  read_timestamp : string -> option datetime
}.

Record World : Type := mkWorld {
  db : Database;
  clock_reads : nat;
  uuid_draws : nat
}.

(** A handler body.  The connection is opened with [autocommit=True]:
    what a statement wrote stays written when a later step raises, so the
    world is returned on both outcomes.  Opening and closing the
    connection (the [finally] blocks) leave the store as it is and are
    left out; the store is taken to be reachable. *)
Definition M (A : Type) : Type := Env -> World -> World * Result A.

#[global] Instance Monad_M : Monad M := {
  ret := fun A a _ w => (w, inr a);
  bind := fun A B m f E w =>
            match m E w with
            | (w', inr a) => f a E w'
            | (w', inl e) => (w', inl e)
            end
}.

Definition raise {A} (e : exn) : M A := fun _ w => (w, inl e).

Definition lift {A} (r : Result A) : M A := fun _ w => (w, r).

Definition ask : M Env := fun E w => (w, inr E).

(** [try: body except Exception as e: handler e]. *)
Definition try_except {A} (body : M A) (handler : exn -> M A) : M A :=
  fun E w =>
    match body E w with
    | (w', inl e) => handler e E w'
    | (w', inr a) => (w', inr a)
    end.

Definition datetime_now : M datetime :=
  fun E w => (mkWorld (db w) (S (clock_reads w)) (uuid_draws w),
              inr (clock E (clock_reads w))).

Definition current_timestamp : M datetime := datetime_now.

Definition uuid4 : M Z :=
  fun E w => (mkWorld (db w) (clock_reads w) (S (uuid_draws w)),
              inr (uuid_source E (uuid_draws w))).

(** A SELECT. *)
Definition query {A} (q : Database -> A) : M A :=
  fun _ w => (w, inr (q (db w))).

(** A SELECT that answers or is refused. *)
Definition query_checked {A} (q : Database -> Result A) : M A :=
  fun _ w => (w, q (db w)).

(** A statement that writes, and its result. *)
Definition execute {A} (stmt : Database -> Database * A) : M A :=
  fun _ w => let (d, a) := stmt (db w) in
             (mkWorld d (clock_reads w) (uuid_draws w), inr a).

(** A statement that writes or is refused; a refused statement writes
    nothing. *)
Definition execute_checked {A} (stmt : Database -> Result (Database * A)) : M A :=
  fun _ w => match stmt (db w) with
             | inr (d, a) => (mkWorld d (clock_reads w) (uuid_draws w), inr a)
             | inl e => (w, inl e)
             end.

Fixpoint for_each {A} (l : list A) (body : A -> M unit) : M unit :=
  match l with
  | [] => ret tt
  | a :: l' => body a ;; for_each l' body
  end.

(* ================================================================== *)
(** ** The Pydantic models *)

Definition field_str (k : string) (body : dict) : option string :=
  match dict_get k body with Some (VStr s) => Some s | _ => None end.

Definition field_int (k : string) (body : dict) : option Z :=
  match dict_get k body with Some (VInt z) => Some z | _ => None end.

(** [k: Optional[str] = None]. *)
Definition field_opt_str (k : string) (body : dict) : option (option string) :=
  match dict_get k body with
  | None | Some VNone => Some None
  | Some (VStr s) => Some (Some s)
  | _ => None
  end.

(** [k: str = default]. *)
Definition field_str_default (k default : string) (body : dict) : option string :=
  match dict_get k body with
  | None => Some default
  | Some (VStr s) => Some s
  | _ => None
  end.

Definition as_dict (v : value) : option dict :=
  match v with VDict kv => Some kv | _ => None end.

Module ScrewNote.
Record t : Type := mk {
  id : option string;
  file_path : string;
  line_number : Z;
  author : string;
  timestamp : option string;
  comment : string;
  description : option string;
  cwe : option string;
  state : string;
  severity : option string;
  source : string;
  import_metadata : option dict;
  project_name : string;
  user_id : string;
  replies : option (list dict)
}.

(** Validation of a request body against the model (exact types only;
    Pydantic's lenient conversions are left out).  [None]: the request
    is refused before the handler runs. *)
Definition of_body (body : dict) : option t :=
  id <- field_opt_str "id" body ;;
  file_path <- field_str "file_path" body ;;
  line_number <- field_int "line_number" body ;;
  author <- field_str "author" body ;;
  timestamp <- field_opt_str "timestamp" body ;;
  comment <- field_str "comment" body ;;
  description <- field_opt_str "description" body ;;
  cwe <- field_opt_str "cwe" body ;;
  state <- field_str_default "state" "todo" body ;;
  severity <- field_opt_str "severity" body ;;
  source <- field_str_default "source" "native" body ;;
  import_metadata <- match dict_get "import_metadata" body with
                     | None | Some VNone => Some None
                     | Some (VDict kv) => Some (Some kv)
                     | _ => None
                     end ;;
  project_name <- field_str "project_name" body ;;
  user_id <- field_str "user_id" body ;;
  replies <- match dict_get "replies" body with
             | None => Some (Some [])
             | Some VNone => Some None
             | Some (VList l) => rs <- mapM as_dict l ;; Some (Some rs)
             | _ => None
             end ;;
  Some (mk id file_path line_number author timestamp comment description cwe
           state severity source import_metadata project_name user_id replies).

(** [note.id = i]. *)
Definition set_id (i : string) (note : t) : t :=
  mk (Some i) (file_path note) (line_number note) (author note) (timestamp note)
     (comment note) (description note) (cwe note) (state note) (severity note)
     (source note) (import_metadata note) (project_name note) (user_id note)
     (replies note).

(** [note.dict()]. *)
Definition dict (note : t) : dict :=
        [ ("id", of_opt_str (id note));
          ("file_path", VStr (file_path note));
          ("line_number", VInt (line_number note));
          ("author", VStr (author note));
          ("timestamp", of_opt_str (timestamp note));
          ("comment", VStr (comment note));
          ("description", of_opt_str (description note));
          ("cwe", of_opt_str (cwe note));
          ("state", VStr (state note));
          ("severity", of_opt_str (severity note));
          ("source", VStr (source note));
          ("import_metadata",
           match import_metadata note with Some kv => VDict kv | None => VNone end);
          ("project_name", VStr (project_name note));
          ("user_id", VStr (user_id note));
          ("replies",
           match replies note with Some l => VList (map VDict l) | None => VNone end) ].
End ScrewNote.

Module ScrewReply.
Record t : Type := mk {
  id : option string;
  parent_id : string;
  author : string;
  timestamp : option string;
  comment : string;
  user_id : string
}.

Definition dict (reply : t) : dict :=
        [ ("id", of_opt_str (id reply));
          ("parent_id", VStr (parent_id reply));
          ("author", VStr (author reply));
          ("timestamp", of_opt_str (timestamp reply));
          ("comment", VStr (comment reply));
          ("user_id", VStr (user_id reply)) ].
End ScrewReply.

Module NotesResponse.
Record t : Type := mk { notes : list dict }.
End NotesResponse.

(** [not o] for an [Optional[str]]: true of [None] and of the empty
    string. *)
Definition falsy_opt_str (o : option string) : bool :=
  negb (truthy (of_opt_str o)).

(* ================================================================== *)
(** ** The handlers *)

Definition internal_error {A} (e : exn) : M A :=
  raise (HTTPException 500 (exn_str e)).

(** [except Exception as e: if marker in str(e): raise e; raise
    HTTPException(500, str(e))]. *)
Definition reraise_if {A} (marker : string) (e : exn) : M A :=
  if str_in marker (exn_str e) then raise e else internal_error e.

(** [if d.get(k): d[k] = d[k].isoformat()]. *)
Definition isoformat_key (k : string) (note_dict : dict) : Result dict :=
  match dict_get k note_dict with
  | Some v =>
      if truthy v then
        match v with
        | VDatetime t => inr (dict_set k (VStr (isoformat t)) note_dict)
        | _ => inl (AttributeError "object has no attribute 'isoformat'")
        end
      else inr note_dict
  | None => inr note_dict
  end.

(** [str(v)] where the handlers use it: on the key column, which is never
    NULL; a UUID is held as the text [str] gives for it. *)
Definition py_str (v : value) : value := v.

(** The loop body of [get_project_notes]. *)
Definition format_project_note (note : dict) : Result dict :=
  let note_dict := note in
  i <- dict_getitem "id" note_dict ;;
  let note_dict := dict_set "id" (py_str i) note_dict in
  note_dict <- isoformat_key "timestamp" note_dict ;;
  note_dict <- isoformat_key "updated_at" note_dict ;;
  ret note_dict.

(** [GET /api/notes/{project_name}] (the logging of the rows found is
    left out). *)
Definition get_project_notes (project_name : string) : M NotesResponse.t :=
  try_except
    (notes <- query (select_project_notes project_name) ;;
     result_notes <- lift (mapM format_project_note notes) ;;
     ret (NotesResponse.mk result_notes))
    internal_error.

(** [GET /api/notes/{project_name}/file?path=]. *)
Definition get_file_notes (project_name path : string) : M NotesResponse.t :=
  try_except
    (notes <- query (select_file_notes project_name path) ;;
     let result_notes := notes in
     ret (NotesResponse.mk result_notes))
    internal_error.

(** [GET /api/notes/{project_name}/line?path=&line=]. *)
Definition get_line_notes (project_name path : string) (line : Z) : M NotesResponse.t :=
  try_except
    (notes <- query (select_line_notes project_name path line) ;;
     let result_notes := notes in
     ret (NotesResponse.mk result_notes))
    internal_error.

(** [GET /api/notes/note/{note_id}]. *)
Definition get_note_by_id (note_id : string) : M value :=
  try_except
    (note <- query_checked (fun d => with_uuid note_id
                                       (fun i => select_note_by_id i d)) ;;
     match note with
     | None => raise (HTTPException 404 "Note not found")
     | Some note_dict =>
         note_dict <- lift (note_dict <- isoformat_key "timestamp" note_dict ;;
                            note_dict <- isoformat_key "updated_at" note_dict ;;
                            isoformat_key "created_at" note_dict) ;;
         ret (VDict [("note", VDict note_dict)])
     end)
    (reraise_if "Note not found").

(** The INSERT of [create_note]: [id] and [created_at] take their
    defaults, [project_name] and [user_id] are not among the columns
    written. *)
Definition insert_created_note (project_id : Z) (note : ScrewNote.t)
    (timestamp updated_at : datetime) : M string :=
  u <- uuid4 ;;
  created_at <- current_timestamp ;;
  let n :=
    Notes.mk (uuid_str u) (Some project_id) None
      (Some (ScrewNote.file_path note)) (Some (ScrewNote.line_number note))
      (Some (ScrewNote.author note)) None (Some timestamp)
      (Some (ScrewNote.comment note)) (ScrewNote.description note)
      (ScrewNote.cwe note) (Some (ScrewNote.state note)) (ScrewNote.severity note)
      (Some (ScrewNote.source note))
      (match ScrewNote.import_metadata note with
       | Some kv => if truthy (VDict kv) then Some (VDict kv) else None
       | None => None
       end)
      (Some created_at) (Some updated_at) in
  execute_checked (fun d =>
    check_note_columns (Notes.line_number n) (Notes.cwe n) (Notes.severity n)
      (Notes.source n) ;;
    d' <- insert_note n d ;;
    ret (d', Notes.id n)).

(** [POST /api/notes]. *)
Definition create_note (note : ScrewNote.t) : M value :=
  try_except
    (project_row <- query (select_project_id (ScrewNote.project_name note) "/") ;;
     project_id <- match project_row with
                   | None => execute_checked
                               (insert_project (ScrewNote.project_name note) (Some "/"))
                   | Some i => ret i
                   end ;;
     timestamp <- datetime_now ;;
     updated_at <- datetime_now ;;
     created_note_id <- insert_created_note project_id note timestamp updated_at ;;
     let note := ScrewNote.set_id created_note_id note in
     ret (VDict [("note", VDict (ScrewNote.dict note))]))
    internal_error.

(** [POST /api/notes] from the request body on. *)
Definition post_note (body : dict) : M value :=
  match ScrewNote.of_body body with
  | Some note => create_note note
  | None => raise (HTTPException 422 "Unprocessable Entity")
  end.

(** The UPDATE of [update_note]. *)
Definition update_note_row (note_id : string) (note : ScrewNote.t) : M Z :=
  now <- current_timestamp ;;
  execute_checked (fun d =>
    check_note_columns (Some (ScrewNote.line_number note)) (ScrewNote.cwe note)
      (ScrewNote.severity note) (Some (ScrewNote.source note)) ;;
    with_uuid note_id
      (fun i =>
         update_notes_where_id
           (update_set (ScrewNote.file_path note) (ScrewNote.line_number note)
              (ScrewNote.author note) (ScrewNote.comment note)
              (ScrewNote.description note) (ScrewNote.cwe note)
              (ScrewNote.state note) (ScrewNote.severity note)
              (ScrewNote.source note) now)
           i d)).

(** [PUT /api/notes/{note_id}]. *)
Definition update_note (note_id : string) (note : ScrewNote.t) : M value :=
  try_except
    (rowcount <- update_note_row note_id note ;;
     if rowcount =? 0 then raise (HTTPException 404 "Note not found")
     else
       let note := ScrewNote.set_id note_id note in
       ret (VDict [("note", VDict (ScrewNote.dict note))]))
    (reraise_if "Note not found").

(** [DELETE /api/notes/{project_name}]. *)
Definition clear_project_notes (project_name : string) : M value :=
  try_except
    (rowcount <- execute (delete_notes_where_project_name project_name) ;;
     ret (VDict [("success", VBool true); ("deleted_count", VInt rowcount)]))
    internal_error.

(** [POST /api/notes/{parent_id}/replies]. *)
Definition create_reply (parent_id : string) (reply : ScrewReply.t) : M value :=
  try_except
    (parent <- query_checked (fun d => with_uuid parent_id
                                         (fun i => select_note_id i d)) ;;
     match parent with
     | None => raise (HTTPException 404 "Parent note not found")
     | Some _ =>
         reply_id <- (if falsy_opt_str (ScrewReply.id reply)
                      then u <- uuid4 ;; ret (uuid_str u)
                      else ret (match ScrewReply.id reply with
                                | Some i => i | None => EmptyString end)) ;;
         reply_timestamp <- (if falsy_opt_str (ScrewReply.timestamp reply)
                             then now <- datetime_now ;; ret (isoformat now)
                             else ret (match ScrewReply.timestamp reply with
                                       | Some t => t | None => EmptyString end)) ;;
         let reply := ScrewReply.mk (Some reply_id) (ScrewReply.parent_id reply)
                        (ScrewReply.author reply) (Some reply_timestamp)
                        (ScrewReply.comment reply) (ScrewReply.user_id reply) in
         execute_checked (fun d =>
           with_uuid parent_id
             (fun i => (insert_reply
                          (Replies.mk reply_id i (ScrewReply.author reply)
                             (ScrewReply.user_id reply) reply_timestamp
                             (ScrewReply.comment reply)) d, tt))) ;;
         ret (VDict [("reply", VDict (ScrewReply.dict reply))])
     end)
    (reraise_if "Parent note not found").

(** The INSERT of [replace_all_notes], on the eleven values it is given:
    [project_id], [severity] and [import_metadata] are not among the
    columns written, [source], [created_at] and [updated_at] take their
    defaults. *)
Definition replaced_note_row (read_timestamp : string -> option datetime)
    (note_id project_name file_path line_number author user_id
     timestamp comment description cwe state : value) (current_timestamp : datetime)
  : Result Notes.row :=
  note_id <- (i <- to_uuid note_id ;; not_null "id" i) ;;
  project_name <- to_text project_name ;;
  file_path <- to_text file_path ;;
  line_number <- to_integer line_number ;;
  author <- to_text author ;;
  user_id <- to_text user_id ;;
  timestamp <- to_timestamp read_timestamp timestamp ;;
  comment <- to_text comment ;;
  description <- to_text description ;;
  cwe <- to_text cwe ;;
  state <- to_text state ;;
  check_note_columns line_number cwe None None ;;
  ret (Notes.mk note_id None project_name file_path line_number author user_id
         timestamp comment description cwe state None (Some "native") None
         (Some current_timestamp) (Some current_timestamp)).

(** The eleven values [replace_all_notes] sends for one note, in the
    order Python computes them: the defaults of [get] are evaluated
    whether they are used or not. *)
Definition replace_parameters (project_name : string) (note_data : dict)
  : M (list value) :=
  u <- uuid4 ;;
  let note_id := dict_get_default "id" (VStr (uuid_str u)) note_data in
  file_path <- lift (dict_getitem "file_path" note_data) ;;
  line_number <- lift (dict_getitem "line_number" note_data) ;;
  author <- lift (dict_getitem "author" note_data) ;;
  default_user <- lift (dict_getitem "author" note_data) ;;
  let user_id := dict_get_default "user_id" default_user note_data in
  now <- datetime_now ;;
  let timestamp := dict_get_default "timestamp" (VStr (isoformat now)) note_data in
  comment <- lift (dict_getitem "comment" note_data) ;;
  let description := dict_get_default "description" VNone note_data in
  let cwe := dict_get_default "cwe" VNone note_data in
  let state := dict_get_default "state" (VStr "todo") note_data in
  ret [note_id; VStr project_name; file_path; line_number; author; user_id;
       timestamp; comment; description; cwe; state].

Definition insert_replaced_note (params : list value) : M unit :=
  match params with
  | [note_id; project_name; file_path; line_number; author; user_id;
     timestamp; comment; description; cwe; state] =>
      now <- current_timestamp ;;
      E <- ask ;;
      n <- lift (replaced_note_row (read_timestamp E) note_id project_name file_path
                   line_number author user_id timestamp comment description cwe state
                   now) ;;
      execute_checked (fun d => d' <- insert_note n d ;; ret (d', tt))
  | _ => raise (DatabaseError "the query has 11 placeholders")
  end.

Definition data_get_notes (data : list (string * list dict)) : list dict :=
  match find (fun kv => String.eqb "notes" (fst kv)) data with
  | Some kv => snd kv
  | None => []
  end.

(** [PUT /api/notes/{project_name}/replace]. *)
Definition replace_all_notes (project_name : string) (data : list (string * list dict))
  : M value :=
  try_except
    (execute (delete_notes_where_project_name project_name) ;;
     execute (fun d => (insert_project_do_nothing project_name d, tt)) ;;
     let notes := data_get_notes data in
     for_each notes (fun note_data =>
       params <- replace_parameters project_name note_data ;;
       insert_replaced_note params) ;;
     ret (VDict [("success", VBool true);
                 ("count", VInt (Z.of_nat (List.length notes)))]))
    internal_error.

(* ================================================================== *)
(** ** The response bodies *)




(* ================================================================== *)
(** ** Vocabulary of the statements *)

Definition replies_of (d : Database) (note_id : string) : list Replies.row :=
  filter (fun r => String.eqb note_id (Replies.parent_id r)) (replies d).

Definition note_in_project (d : Database) (project_name : string) (n : Notes.row) : bool :=
  existsb (fun p => sql_int_eq (Notes.project_id n) (Projects.id p)
                    && project_named project_name p)
          (projects d).


Definition iso_or_none (o : option datetime) : value :=
  match o with Some t => VStr (isoformat t) | None => VNone end.

(** The dictionary [get_project_notes] returns for one joined row. *)
Definition project_note_dict (d : Database) (np : Notes.row * Projects.row) : dict :=
  match format_project_note
          (dict_of_columns (Notes.columns (fst np)
                            ++ [ ("project_name", VStr (Projects.name (snd np)));
                                 replies_column reply_object d (fst np) ])) with
  | inr note_dict => note_dict
  | inl _ => []
  end.

(** The dictionary [get_note_by_id] returns for a row. *)
Definition note_by_id_dict (d : Database) (n : Notes.row) : dict :=
  match (note_dict <- isoformat_key "timestamp" (note_row_dict reply_object d n) ;;
         note_dict <- isoformat_key "updated_at" note_dict ;;
         isoformat_key "created_at" note_dict) with
  | inr note_dict => note_dict
  | inl _ => []
  end.

(** [note_id] is the key of a stored note. *)
Definition names_note (d : Database) (note_id : string) : Prop :=
  exists n, In n (notes d) /\ Notes.id n = note_id.

(** [n'] is [n] after an update from the request body [note]: the nine
    mutable columns hold the values of the body, the others those of
    [n]. *)
Definition updated_from (note : ScrewNote.t) (n n' : Notes.row) : Prop :=
  Notes.file_path n' = Some (ScrewNote.file_path note) /\
  Notes.line_number n' = Some (ScrewNote.line_number note) /\
  Notes.author n' = Some (ScrewNote.author note) /\
  Notes.comment n' = Some (ScrewNote.comment note) /\
  Notes.description n' = ScrewNote.description note /\
  Notes.cwe n' = ScrewNote.cwe note /\
  Notes.state n' = Some (ScrewNote.state note) /\
  Notes.severity n' = ScrewNote.severity note /\
  Notes.source n' = Some (ScrewNote.source note) /\
  Notes.id n' = Notes.id n /\
  Notes.created_at n' = Notes.created_at n /\
  Notes.timestamp n' = Notes.timestamp n /\
  Notes.project_id n' = Notes.project_id n /\
  Notes.project_name n' = Notes.project_name n /\
  Notes.user_id n' = Notes.user_id n /\
  Notes.import_metadata n' = Notes.import_metadata n.

(** [after] is a time, later than [before] when that is one. *)
Definition strictly_later (before after : option datetime) : Prop :=
  exists t', after = Some t' /\ forall t, before = Some t -> dt_ltb t t' = true.

(** The timestamp column holds the given value [v]: the time the store
    reads in the text, or NULL for [None]. *)
Definition timestamp_given (E : Env) (v : value) (column : option datetime) : Prop :=
  match v with
  | VStr s => exists t, read_timestamp E s = Some t /\ column = Some t
  | VDatetime t => column = Some t
  | VNone => column = None
  | _ => False
  end.

(** [row] is what [replace_all_notes] stores for the supplied
    [note_data], when [ud] UUIDs have been drawn and the clock has been
    read [cr] times before: identifier, user and state as given or
    defaulted (the identifier as the UUID the given text denotes), the
    timestamp as the store reads the given value or the clock reading,
    the project name of the request, and the other supplied columns as
    given. *)
Definition stored_as (E : Env) (project_name : string) (ud cr : nat)
    (note_data : dict) (row : Notes.row) : Prop :=
  match dict_get "id" note_data with
  | Some v => exists s, v = VStr s /\ uuid_in s = Some (Notes.id row)
  | None => Notes.id row = uuid_str (uuid_source E ud)
  end /\
  match dict_get "user_id" note_data with
  | Some v => v = of_opt_str (Notes.user_id row)
  | None => Notes.user_id row = Notes.author row
  end /\
  match dict_get "timestamp" note_data with
  | Some v => timestamp_given E v (Notes.timestamp row)
  | None => Notes.timestamp row = Some (clock E cr)
  end /\
  match dict_get "state" note_data with
  | Some v => v = of_opt_str (Notes.state row)
  | None => Notes.state row = Some "todo"
  end /\
  Notes.project_name row = Some project_name /\
  dict_get "file_path" note_data = Some (of_opt_str (Notes.file_path row)) /\
  dict_get "line_number" note_data = Some (of_opt_int (Notes.line_number row)) /\
  dict_get "author" note_data = Some (of_opt_str (Notes.author row)) /\
  dict_get "comment" note_data = Some (of_opt_str (Notes.comment row)) /\
  of_opt_value (dict_get "description" note_data) = of_opt_str (Notes.description row) /\
  of_opt_value (dict_get "cwe" note_data) = of_opt_str (Notes.cwe row).

(** [stored_as], note by note: each note takes one UUID draw and two
    clock readings (Python's and the statement's). *)
Fixpoint stored_all (E : Env) (project_name : string) (ud cr : nat)
    (notes_data : list dict) (rows : list Notes.row) : Prop :=
  match notes_data, rows with
  | [], [] => True
  | note_data :: notes_data', row :: rows' =>
      stored_as E project_name ud cr note_data row /\
      stored_all E project_name (S ud) (S (S cr)) notes_data' rows'
  | _, _ => False
  end.

(* ================================================================== *)
(** ** Scenarios *)

(** A run of the server, for the scenarios below: the clock advances by
    one second per reading, the UUID source counts up from a fixed
    version-4 UUID, and the store reads timestamps in the layout of
    [isoformat]. *)
Definition demo_env : Env :=
  mkEnv (fun k => mkDatetime 2024 3 5 10 20 (Z.of_nat k mod 60) 0)
        (fun k => 0x6f1c2b3a4d5e4f60a1b2c3d4e5f60718 + Z.of_nat k)
        timestamp_in.

Definition empty_world : World := mkWorld empty_database 0 0.

(** The body of the scenario of the specification, with the [user_id] the
    model requires. *)
Definition demo_body : dict :=
  [ ("project_name", VStr "demo"); ("file_path", VStr "a.py");
    ("line_number", VInt 10); ("author", VStr "alice");
    ("comment", VStr "check this"); ("user_id", VStr "alice") ].

Definition demo_note_data : dict :=
  [ ("file_path", VStr "a.py"); ("line_number", VInt 10);
    ("author", VStr "alice"); ("comment", VStr "check this") ].

(** The store after [POST /api/notes] of [demo_body] on an empty store. *)
Definition created_world : World :=
  Eval vm_compute in fst (post_note demo_body demo_env empty_world).

(** The store after [PUT /api/notes/demo/replace] of the one note
    [demo_note_data] on an empty store. *)
Definition replaced_world : World :=
  Eval vm_compute in
    fst (replace_all_notes "demo" [("notes", [demo_note_data])] demo_env empty_world).

Definition demo_id : string := "6f1c2b3a-4d5e-4f60-a1b2-c3d4e5f60718".

(** A second note of project ["demo"], created after the first. *)
Definition demo_body_later : dict :=
  [ ("project_name", VStr "demo"); ("file_path", VStr "a.py");
    ("line_number", VInt 11); ("author", VStr "bob");
    ("comment", VStr "and this"); ("user_id", VStr "bob") ].

Definition two_notes_world : World :=
  Eval vm_compute in fst (post_note demo_body_later demo_env created_world).

(** The body of an update of the first note. *)
Definition demo_update : ScrewNote.t :=
  ScrewNote.mk None "b.py" 12 "alice" (Some "1999-01-01T00:00:00") "checked"
    (Some "details") (Some "CWE-79") "vulnerable" (Some "high") "native" None
    "other" "carol" (Some []).

Definition demo_reply : ScrewReply.t :=
  ScrewReply.mk None demo_id "bob" None "agreed" "bob".

(** The identifier of the second note, and a UUID that names no note of
    the scenarios. *)
Definition demo_id_later : string := "6f1c2b3a-4d5e-4f60-a1b2-c3d4e5f60719".
Definition absent_id : string := "00000000-0000-4000-8000-000000000000".

(** The identifier of the first note as a client may write it as well:
    in upper case and in braces. *)
Definition demo_id_braced : string := "{6F1C2B3A-4D5E-4F60-A1B2-C3D4E5F60718}".

(** The two notes, with a reply to the first. *)
Definition replied_world : World :=
  Eval vm_compute in fst (create_reply demo_id_braced demo_reply demo_env two_notes_world).

(** The created note of project ["demo"], then [PUT
    /api/notes/demo/replace] of the one note [demo_note_data]. *)
Definition mixed_world : World :=
  Eval vm_compute in
    fst (replace_all_notes "demo" [("notes", [demo_note_data])] demo_env created_world).

(** A supplied note that brings its identifier, user, timestamp and
    state. *)
Definition demo_note_data_full : dict :=
  [ ("id", VStr "0F0E0D0C-0B0A-4908-8706-050403020100");
    ("file_path", VStr "b.py"); ("line_number", VInt 7);
    ("author", VStr "bob"); ("user_id", VStr "bob@example.org");
    ("timestamp", VStr "2023-12-31T23:59:59");
    ("comment", VStr "imported"); ("cwe", VStr "CWE-89");
    ("state", VStr "vulnerable") ].

(** A run in which the clock of the application is half a minute ahead
    of the clock of the store: the first two readings (the [timestamp]
    and [updated_at] of a created note) are the application's, the later
    ones the store's. *)
Definition skewed_env : Env :=
  mkEnv (fun k => if (k <? 2)%nat then mkDatetime 2024 3 5 10 20 30 0
                  else mkDatetime 2024 3 5 10 20 (Z.of_nat k mod 60) 0)
        (uuid_source demo_env)
        timestamp_in.

Definition skewed_world : World :=
  Eval vm_compute in fst (post_note demo_body skewed_env empty_world).

(* ================================================================== *)
(** ** Key constraints and sequences of requests *)

(** The key constraints of the schema: project keys are distinct and
    below the next value of their sequence, note keys are distinct. *)
Definition store_ok (d : Database) : Prop :=
  NoDup (map Projects.id (projects d)) /\
  Forall (fun p => Projects.id p < projects_id_seq d) (projects d) /\
  NoDup (map Notes.id (notes d)).

(** A handler body that keeps the key constraints, however it ends. *)
Definition preserves {A} (m : M A) : Prop :=
  forall E w, store_ok (db w) -> store_ok (db (fst (m E w))).

(** The requests that write. *)
Inductive request : Type :=
| CreateNote (note : ScrewNote.t)
| UpdateNote (note_id : string) (note : ScrewNote.t)
| ClearProjectNotes (project_name : string)
| CreateReply (parent_id : string) (reply : ScrewReply.t)
| ReplaceAllNotes (project_name : string) (data : list (string * list dict)).

Definition serve (r : request) : M value :=
  match r with
  | CreateNote note => create_note note
  | UpdateNote note_id note => update_note note_id note
  | ClearProjectNotes project_name => clear_project_notes project_name
  | CreateReply parent_id reply => create_reply parent_id reply
  | ReplaceAllNotes project_name data => replace_all_notes project_name data
  end.

(** The world after a sequence of requests, served one after the other. *)
Definition serve_all (E : Env) (rs : list request) (w : World) : World :=
  fold_left (fun w r => fst (serve r E w)) rs w.

(* ================================================================== *)
(** ** The remaining handlers *)

(** [DELETE FROM notes WHERE id = %s], on the UUID the parameter
    denotes; the second component is [rowcount]. *)
Definition delete_notes_where_id (note_id : string) (d : Database) : Database * Z :=
  (set_notes d (filter (fun n => negb (note_has_id note_id n)) (notes d)),
   Z.of_nat (List.length (filter (note_has_id note_id) (notes d)))).

(** [DELETE /api/notes/{note_id}]. *)
Definition delete_note (note_id : string) : M value :=
  try_except
    (rowcount <- execute_checked (fun d => with_uuid note_id
                                            (fun i => delete_notes_where_id i d)) ;;
     if rowcount =? 0 then raise (HTTPException 404 "Note not found")
     else ret (VDict [("success", VBool true)]))
    (reraise_if "Note not found").

Module StatsResponse.
Record t : Type := mk { total_notes : Z; project_name : string }.
End StatsResponse.

(** The row count [SELECT COUNT] of [notes WHERE project_name = %s], then
    [fetchone()[0]]. *)
Definition count_notes_where_project_name (project_name : string) (d : Database) : Z :=
  Z.of_nat (List.length (filter (fun n => sql_str_eq (Notes.project_name n) project_name)
                                (notes d))).

(** [GET /api/stats/{project_name}]. *)
Definition get_project_stats (project_name : string) : M StatsResponse.t :=
  try_except
    (total_notes <- query (count_notes_where_project_name project_name) ;;
     ret (StatsResponse.mk total_notes project_name))
    internal_error.

(* ================================================================== *)
(** ** Further vocabulary of the statements *)

(** The row [create_note] inserts for the request body [note] under the
    project key [project_id], when [ud] UUIDs have been drawn and the
    clock has been read [cr] times before. *)
Definition created_row (E : Env) (ud cr : nat) (project_id : Z) (note : ScrewNote.t)
  : Notes.row :=
  Notes.mk (uuid_str (uuid_source E ud)) (Some project_id) None
    (Some (ScrewNote.file_path note)) (Some (ScrewNote.line_number note))
    (Some (ScrewNote.author note)) None (Some (clock E cr))
    (Some (ScrewNote.comment note)) (ScrewNote.description note)
    (ScrewNote.cwe note) (Some (ScrewNote.state note)) (ScrewNote.severity note)
    (Some (ScrewNote.source note))
    (match ScrewNote.import_metadata note with
     | Some kv => if truthy (VDict kv) then Some (VDict kv) else None
     | None => None
     end)
    (Some (clock E (S (S cr)))) (Some (clock E (S cr))).



(** A handler body that keeps a relation between the store before and
    after, however it ends. *)
Definition keeps (R : Database -> Database -> Prop) {A} (m : M A) : Prop :=
  forall E w, R (db w) (db (fst (m E w))).

(** The project rows of [d] are still there in [d'], in place, possibly
    followed by new ones. *)
Definition projects_kept (d d' : Database) : Prop :=
  exists added, projects d' = projects d ++ added.

(** The project rows of [d'] are those of [d]. *)
Definition projects_same (d d' : Database) : Prop := projects d' = projects d.

(** A project row of that name is stored. *)
Definition names_project (d : Database) (project_name : string) : Prop :=
  exists p, In p (projects d) /\ Projects.name p = project_name.

(** The loop body of [replace_all_notes]. *)
Definition replace_one (project_name : string) (note_data : dict) : M unit :=
  params <- replace_parameters project_name note_data ;;
  insert_replaced_note params.

(** What [except Exception as e: if marker in str(e): raise e; raise
    HTTPException(500, str(e))] raises for [e]. *)
Definition reraised (marker : string) (e : exn) : exn :=
  if str_in marker (exn_str e) then e else HTTPException 500 (exn_str e).

(** The status of the response when a handler raises [e]: the one of an
    [HTTPException]; the framework answers any other exception with 500
    Internal Server Error. *)
Definition response_status (e : exn) : Z :=
  match e with
  | HTTPException status_code _ => status_code
  | _ => 500
  end.

(** The values of the request body fit the sized columns of [notes]. *)
Definition fits_columns (note : ScrewNote.t) : Prop :=
  -2147483648 <= ScrewNote.line_number note <= 2147483647 /\
  (forall s, ScrewNote.cwe note = Some s -> (utf8_length s <= 20)%nat) /\
  (forall s, ScrewNote.severity note = Some s -> (utf8_length s <= 10)%nat) /\
  (utf8_length (ScrewNote.source note) <= 20)%nat.



(** The returned dictionary [note] is the stored note [n] with its
    replies: it has the identifier of [n] and, under ["replies"], a list
    with one element per reply row of [n] (the empty list when there is
    none). *)
Definition carries_replies (d : Database) (n : Notes.row) (note : dict) : Prop :=
  dict_get "id" note = Some (VStr (Notes.id n)) /\
  (exists l, dict_get "replies" note = Some (VList l) /\
             List.length l = List.length (replies_of d (Notes.id n))) /\
  (replies_of d (Notes.id n) = [] -> dict_get "replies" note = Some (VList [])).





(* ================================================================== *)
(** ** The route table *)

(** Requests are matched against the routes as Starlette does it: in the
    order of registration, first route whose method and path both match;
    a [{name}] parameter stands for one non-empty path segment. *)
Inductive http_method : Type := GET | POST | PUT | DELETE.

(** A segment of a route's path: fixed text, or a [{name}] parameter. *)
Inductive segment : Type :=
| Literal (text : string)
| Placeholder (name : string).

(** The handler functions, as targets of the routes. *)
Inductive endpoint : Type :=
| To_health_check
| To_get_project_notes
| To_get_file_notes
| To_get_line_notes
| To_get_note_by_id
| To_create_note
| To_update_note
| To_delete_note
| To_clear_project_notes
| To_create_reply
| To_replace_all_notes
| To_get_project_stats.

(** The routes, in the order the decorators register them. *)
Definition routes : list (http_method * list segment * endpoint) :=
  [ (GET, [Literal "api"; Literal "health"], To_health_check);
    (GET, [Literal "api"; Literal "notes"; Placeholder "project_name"],
     To_get_project_notes);
    (GET, [Literal "api"; Literal "notes"; Placeholder "project_name"; Literal "file"],
     To_get_file_notes);
    (GET, [Literal "api"; Literal "notes"; Placeholder "project_name"; Literal "line"],
     To_get_line_notes);
    (GET, [Literal "api"; Literal "notes"; Literal "note"; Placeholder "note_id"],
     To_get_note_by_id);
    (POST, [Literal "api"; Literal "notes"], To_create_note);
    (PUT, [Literal "api"; Literal "notes"; Placeholder "note_id"], To_update_note);
    (DELETE, [Literal "api"; Literal "notes"; Placeholder "note_id"], To_delete_note);
    (DELETE, [Literal "api"; Literal "notes"; Placeholder "project_name"],
     To_clear_project_notes);
    (POST, [Literal "api"; Literal "notes"; Placeholder "parent_id"; Literal "replies"],
     To_create_reply);
    (PUT, [Literal "api"; Literal "notes"; Placeholder "project_name"; Literal "replace"],
     To_replace_all_notes);
    (GET, [Literal "api"; Literal "stats"; Placeholder "project_name"],
     To_get_project_stats) ].

Definition method_eqb (a b : http_method) : bool :=
  match a, b with
  | GET, GET | POST, POST | PUT, PUT | DELETE, DELETE => true
  | _, _ => false
  end.

(** A parameter takes one non-empty segment of the path. *)
Definition segment_matches (seg : segment) (s : string) : bool :=
  match seg with
  | Literal text => String.eqb text s
  | Placeholder _ => negb (String.eqb s EmptyString)
  end.

Fixpoint path_matches (pattern : list segment) (path : list string) : bool :=
  match pattern, path with
  | [], [] => true
  | seg :: pattern', s :: path' => segment_matches seg s && path_matches pattern' path'
  | _, _ => false
  end.

(** The router: the first route, in registration order, whose method and
    path both match. *)
Definition dispatch (method : http_method) (path : list string) : option endpoint :=
  match find (fun r => method_eqb (fst (fst r)) method && path_matches (snd (fst r)) path)
             routes with
  | Some r => Some (snd r)
  | None => None
  end.

(* ================================================================== *)
(** ** Start-up *)

(** The tables of the store and the columns (name and declared type) of
    each, as far as [init_database] looks at them. *)
Definition Catalog : Type := list (string * list (string * string)).

Fixpoint table_columns (table : string) (c : Catalog) : option (list (string * string)) :=
  match c with
  | [] => None
  | (t, cols) :: c' => if String.eqb table t then Some cols else table_columns table c'
  end.

Fixpoint set_table_columns (table : string) (cols : list (string * string)) (c : Catalog)
  : Catalog :=
  match c with
  | [] => []
  | (t, old) :: c' =>
      if String.eqb table t then (t, cols) :: c'
      else (t, old) :: set_table_columns table cols c'
  end.

Definition has_column (column_name : string) (cols : list (string * string)) : bool :=
  existsb (fun col => String.eqb (fst col) column_name) cols.

(** A row count [SELECT COUNT ... FROM table LIMIT 1]: refused when the
    table does not exist. *)
Definition select_count (table : string) (c : Catalog) : Result unit :=
  match table_columns table c with
  | Some _ => inr tt
  | None => inl (DatabaseError ("relation " +++ table +++ " does not exist"))
  end.

(** [ALTER TABLE table ADD COLUMN column_name column_type]: refused when
    the table has a column of that name. *)
Definition add_column (table column_name column_type : string) (c : Catalog)
  : Result Catalog :=
  match table_columns table c with
  | None => inl (DatabaseError ("relation " +++ table +++ " does not exist"))
  | Some cols =>
      if has_column column_name cols then
        inl (DatabaseError ("column " +++ column_name +++ " of relation " +++ table
                            +++ " already exists"))
      else inr (set_table_columns table (cols ++ [(column_name, column_type)]) c)
  end.

Definition lower_ascii (a : ascii) : ascii :=
  let code := N_of_ascii a in
  if ((65 <=? code) && (code <=? 90))%N then ascii_of_N (code + 32) else a.

(** [s.lower()], on ASCII letters. *)
Fixpoint lower (s : string) : string :=
  match s with
  | EmptyString => EmptyString
  | String a s' => String (lower_ascii a) (lower s')
  end.

Inductive log_level : Type := INFO | WARNING | ERROR.

(** The list [missing_columns] of [init_database]. *)
Definition missing_columns : list (string * string) :=
  [ ("description", "TEXT"); ("cwe", "VARCHAR(20)"); ("severity", "VARCHAR(10)");
    ("updated_at", "TIMESTAMP DEFAULT CURRENT_TIMESTAMP");
    ("source", "VARCHAR(20) DEFAULT 'native'") ].

(** One round of the loop of [init_database], on the catalogue and the
    log written so far (the marks that open the messages are left out). *)
Definition add_missing_column (st : Catalog * list (log_level * string))
    (col : string * string) : Catalog * list (log_level * string) :=
  match add_column "notes" (fst col) (snd col) (fst st) with
  | inr c' => (c', snd st ++ [(INFO, "Added missing column: " +++ fst col)])
  | inl e =>
      if str_in "already exists" (lower (exn_str e)) then
        (fst st, snd st ++ [(INFO, "Column " +++ fst col +++ " already exists")])
      else
        (fst st,
         snd st ++ [(WARNING, "Could not add column " +++ fst col +++ ": " +++ exn_str e)])
  end.

(** [init_database()], from the catalogue it finds to the catalogue it
    leaves and the log it writes. *)
Definition init_database (c : Catalog) : Catalog * list (log_level * string) :=
  match (select_count "projects" c ;; select_count "notes" c) with
  | inl e => (c, [(ERROR, "Database verification error: " +++ exn_str e)])
  | inr _ =>
      let verified := [(INFO, "Database connection verified, main tables exist")] in
      let checked :=
        match select_count "replies" c with
        | inr _ => [(INFO, "Replies table exists")]
        | inl e =>
            [ (WARNING, "Replies table issue: " +++ exn_str e);
              (WARNING, "Note: You may need to create the replies table manually if it doesn't exist") ]
        end in
      fold_left add_missing_column missing_columns (c, verified ++ checked)
  end.

(* ================================================================== *)
(** ** Further scenarios *)

(** The request bodies of the scenarios, as the model validates them. *)
Definition demo_note : ScrewNote.t :=
  ScrewNote.mk None "a.py" 10 "alice" None "check this" None None "todo" None "native"
    None "demo" "alice" (Some []).

Definition demo_note_later : ScrewNote.t :=
  ScrewNote.mk None "a.py" 11 "bob" None "and this" None None "todo" None "native"
    None "demo" "bob" (Some []).

(** A supplied note without [file_path]. *)
Definition demo_note_data_bad : dict :=
  [ ("line_number", VInt 3); ("author", VStr "bob"); ("comment", VStr "no file") ].

(** A catalogue from an older deployment: [notes] has [cwe] already, as
    TEXT, and lacks the other optional columns. *)
Definition demo_catalog : Catalog :=
  [ ("projects", [("id", "SERIAL"); ("name", "TEXT"); ("path", "TEXT")]);
    ("notes", [("id", "UUID"); ("project_id", "INTEGER"); ("cwe", "TEXT")]);
    ("replies", [("id", "TEXT"); ("parent_id", "UUID")]) ].


(* ================================================================== *)
(** * Properties *)

(** ** Numerals, timestamps and identifiers *)

Lemma digit_val_digit_char (d : Z) :
  0 <= d < 10 -> digit_val (digit_char d) = Some d.
Proof.
  intros Hd.
  assert (Hc : d = 0 \/ d = 1 \/ d = 2 \/ d = 3 \/ d = 4 \/
               d = 5 \/ d = 6 \/ d = 7 \/ d = 8 \/ d = 9) by lia.
  repeat (destruct Hc as [-> | Hc]; [reflexivity |]); subst; reflexivity.
Qed.

Lemma digits_cons (b : Z) (k : nat) (n : Z) :
  digits b (S k) n = String (digit_char ((n / b ^ Z.of_nat k) mod b)) (digits b k n).
Proof. reflexivity. Qed.

Lemma read_digits_digits (k : nat) :
  forall (n : Z) (rest : string) (acc : Z),
    read_digits k (digits 10 k n +++ rest) acc
    = Some (acc * 10 ^ Z.of_nat k + n mod 10 ^ Z.of_nat k, rest).
Proof.
  induction k as [| k IH]; intros n rest acc.
  - simpl. rewrite Z.mod_1_r. f_equal. f_equal. lia.
  - rewrite digits_cons. cbn [String.append read_digits].
    rewrite digit_val_digit_char by (apply Z.mod_pos_bound; lia).
    rewrite IH. f_equal. f_equal.
    rewrite Nat2Z.inj_succ, Z.pow_succ_r by lia.
    assert (Hp : 0 < 10 ^ Z.of_nat k) by (apply Z.pow_pos_nonneg; lia).
    rewrite (Z.mul_comm 10 (10 ^ Z.of_nat k)).
    rewrite (Z.rem_mul_r n (10 ^ Z.of_nat k) 10) by lia.
    ring.
Qed.

Lemma read_digits_field (k : nat) (n : Z) (rest : string) :
  0 <= n < 10 ^ Z.of_nat k ->
  read_digits k (digits 10 k n +++ rest) 0 = Some (n, rest).
Proof.
  intros Hn. rewrite read_digits_digits, Z.mod_small by exact Hn. reflexivity.
Qed.


Lemma days_in_month_le (y m : Z) : days_in_month y m <= 31.
Proof.
  unfold days_in_month.
  repeat match goal with
         | |- context [match ?x with _ => _ end] => destruct x
         end; lia.
Qed.

Lemma valid_datetime_bounds (d : datetime) :
  valid_datetime d = true ->
  0 <= year d < 10 ^ 4 /\ 0 <= month d < 10 ^ 2 /\ 0 <= day d < 10 ^ 2 /\
  0 <= hour d < 10 ^ 2 /\ 0 <= minute d < 10 ^ 2 /\ 0 <= second d < 10 ^ 2 /\
  0 <= microsecond d < 10 ^ 6.
Proof.
  unfold valid_datetime. intros H.
  repeat (apply andb_prop in H; destruct H as [H ?]).
  pose proof (days_in_month_le (year d) (month d)).
  change (10 ^ 4) with 10000. change (10 ^ 2) with 100. change (10 ^ 6) with 1000000.
  lia.
Qed.

Lemma read_upto_digits (k : nat) :
  forall (n : Z) (acc : Z) (c : nat),
    read_upto k (digits 10 k n) acc c
    = (acc * 10 ^ Z.of_nat k + n mod 10 ^ Z.of_nat k, (c + k)%nat, EmptyString).
Proof.
  induction k as [| k IH]; intros n acc c.
  - simpl. rewrite Z.mod_1_r, Nat.add_0_r. f_equal. f_equal. lia.
  - rewrite digits_cons. cbn [read_upto].
    rewrite digit_val_digit_char by (apply Z.mod_pos_bound; lia).
    rewrite IH. replace (S c + k)%nat with (c + S k)%nat by lia. do 2 f_equal.
    rewrite Nat2Z.inj_succ, Z.pow_succ_r by lia.
    assert (Hp : 0 < 10 ^ Z.of_nat k) by (apply Z.pow_pos_nonneg; lia).
    rewrite (Z.mul_comm 10 (10 ^ Z.of_nat k)).
    rewrite (Z.rem_mul_r n (10 ^ Z.of_nat k) 10) by lia.
    ring.
Qed.

(** Text written by [isoformat] is read back as the datetime it came
    from. *)
Lemma timestamp_in_isoformat (d : datetime) :
  valid_datetime d = true -> timestamp_in (isoformat d) = Some d.
Proof.
  intros Hv.
  destruct (valid_datetime_bounds d Hv) as (Hy & Hmo & Hd & Hh & Hmi & Hs & Hus).
  unfold timestamp_in, isoformat.
  rewrite (read_digits_field 4) by exact Hy. cbn [bind Monad_option].
  cbn [String.append expect Ascii.eqb Bool.eqb].
  rewrite (read_digits_field 2) by exact Hmo. cbn [bind Monad_option].
  cbn [String.append expect Ascii.eqb Bool.eqb].
  rewrite (read_digits_field 2) by exact Hd. cbn [bind Monad_option].
  cbn [String.append expect Ascii.eqb Bool.eqb].
  rewrite (read_digits_field 2) by exact Hh. cbn [bind Monad_option].
  cbn [String.append expect Ascii.eqb Bool.eqb].
  rewrite (read_digits_field 2) by exact Hmi. cbn [bind Monad_option].
  cbn [String.append expect Ascii.eqb Bool.eqb].
  rewrite (read_digits_field 2) by exact Hs. cbn [bind Monad_option].
  destruct (microsecond d =? 0) eqn:Hz.
  - apply Z.eqb_eq in Hz. cbn [read_fraction read_zone bind Monad_option].
    replace (mkDatetime (year d) (month d) (day d) (hour d) (minute d) (second d) 0)
      with d by (destruct d; simpl in *; subst; reflexivity).
    rewrite Hv. reflexivity.
  - cbn [String.append read_fraction Ascii.eqb Bool.eqb].
    rewrite read_upto_digits, Z.mod_small by exact Hus.
    cbn [Nat.add Nat.sub Z.of_nat Z.pow Z.mul Z.add read_zone bind Monad_option].
    rewrite Z.mul_1_r.
    replace (mkDatetime _ _ _ _ _ _ _) with d by (destruct d; reflexivity).
    rewrite Hv. reflexivity.
Qed.

Lemma to_timestamp_isoformat (d : datetime) :
  valid_datetime d = true -> to_timestamp timestamp_in (VStr (isoformat d)) = inr (Some d).
Proof. intros Hv. unfold to_timestamp. rewrite timestamp_in_isoformat; auto. Qed.

(** A printed UUID is never the empty string. *)
Lemma uuid_str_nonempty (u : Z) : uuid_str u <> EmptyString.
Proof. unfold uuid_str. rewrite (digits_cons 16 7). discriminate. Qed.

Lemma falsy_uuid_str (u : Z) : truthy (VStr (uuid_str u)) = true.
Proof.
  unfold truthy. destruct (String.eqb_spec (uuid_str u) EmptyString); [| reflexivity].
  exfalso. eapply uuid_str_nonempty; eauto.
Qed.

Lemma hex_lower_digit_char (d : Z) :
  0 <= d < 16 ->
  hex_lower (digit_char d) = Some (digit_char d) /\
  Ascii.eqb (digit_char d) "-" = false /\
  Ascii.eqb (digit_char d) "{" = false.
Proof.
  intros Hd.
  assert (Hc : d = 0 \/ d = 1 \/ d = 2 \/ d = 3 \/ d = 4 \/ d = 5 \/ d = 6 \/ d = 7 \/
               d = 8 \/ d = 9 \/ d = 10 \/ d = 11 \/ d = 12 \/ d = 13 \/ d = 14 \/ d = 15)
    by lia.
  repeat (destruct Hc as [-> | Hc]; [repeat split; reflexivity |]).
  subst. repeat split; reflexivity.
Qed.

(** The store reads the text Python prints for a UUID as that UUID, and
    prints it the same way. *)
Lemma uuid_in_uuid_str (u : Z) : uuid_in (uuid_str u) = Some (uuid_str u).
Proof.
  unfold uuid_str. rewrite !digits_cons. cbn [digits String.append].
  repeat match goal with
         | |- context [digit_char (?x mod 16)] =>
             let d := fresh "d" in
             let H := fresh "H" in
             assert (H : 0 <= x mod 16 < 16) by (apply Z.mod_pos_bound; lia);
             destruct (hex_lower_digit_char _ H) as (? & ? & ?);
             set (d := digit_char (x mod 16)) in *; clearbody d; clear H
         end.
  unfold uuid_in.
  repeat first
    [ match goal with
      | H : hex_lower ?d = Some ?d |- context [hex_lower ?d] => rewrite H
      | H : Ascii.eqb ?d ?c = false |- context [Ascii.eqb ?d ?c] => rewrite H
      end
    | progress cbn [read_uuid_bytes bind Monad_option Nat.odd Nat.even Nat.ltb Nat.leb
                    negb andb Ascii.eqb Bool.eqb expect] ].
  reflexivity.
Qed.

Lemma with_uuid_uuid_str {A} (u : Z) (stmt : string -> A) :
  with_uuid (uuid_str u) stmt = inr (stmt (uuid_str u)).
Proof. unfold with_uuid. rewrite uuid_in_uuid_str. reflexivity. Qed.

Lemma with_uuid_some {A} (text i : string) (stmt : string -> A) :
  uuid_in text = Some i -> with_uuid text stmt = inr (stmt i).
Proof. unfold with_uuid. intros ->. reflexivity. Qed.

Lemma with_uuid_none {A} (text : string) (stmt : string -> A) :
  uuid_in text = None -> with_uuid text stmt = inl (uuid_syntax_error text).
Proof. unfold with_uuid. intros ->. reflexivity. Qed.

Lemma with_uuid_inr {A} (text : string) (stmt : string -> A) (a : A) :
  with_uuid text stmt = inr a -> exists i, uuid_in text = Some i /\ a = stmt i.
Proof.
  unfold with_uuid. destruct (uuid_in text) as [i |]; [| discriminate].
  intros H. injection H as <-. eauto.
Qed.

(** ** Orders and ORDER BY *)



Section Orders.
Context {A : Type} (leb : A -> A -> bool).
Hypothesis leb_total : forall x y, leb x y = false -> leb y x = true.
Hypothesis leb_trans : forall x y z, leb x y = true -> leb y z = true -> leb x z = true.



Lemma insert_sorted_perm (x : A) (l : list A) :
  Permutation (x :: l) (insert_sorted leb x l).
Proof.
  induction l as [| y l IH]; simpl; [reflexivity |].
  destruct (leb x y); [reflexivity |].
  rewrite perm_swap. apply perm_skip. exact IH.
Qed.

Lemma order_by_perm (l : list A) : Permutation l (order_by leb l).
Proof.
  induction l as [| x l IH]; simpl; [constructor |].
  rewrite <- insert_sorted_perm. apply perm_skip. exact IH.
Qed.


End Orders.



(** ** The read queries *)

Lemma flat_map_some {A B} (f : A -> B) (l : list A) :
  flat_map (fun o => match o with Some r => [f r] | None => [] end) (map Some l)
  = map f l.
Proof. induction l as [| a l IH]; simpl; [| rewrite IH]; reflexivity. Qed.

Lemma replies_column_value build d n :
  replies_column build d n = ("replies", VList (map build (replies_of d (Notes.id n)))).
Proof.
  unfold replies_column, left_join_replies, replies_of.
  destruct (filter _ (replies d)) as [| r rs] eqn:Hf; [reflexivity |].
  unfold json_agg_filter. rewrite flat_map_some. reflexivity.
Qed.

Lemma mapM_map {A B C} (f : B -> Result C) (g : A -> B) (h : A -> C) (l : list A) :
  (forall a, In a l -> f (g a) = inr (h a)) ->
  mapM f (map g l) = inr (map h l).
Proof.
  induction l as [| a l IH]; intros Hf; simpl; [reflexivity |].
  rewrite Hf by (left; reflexivity). rewrite IH; [reflexivity |].
  intros b Hb. apply Hf. right. exact Hb.
Qed.

Lemma format_project_note_ok d np :
  format_project_note
    (dict_of_columns (Notes.columns (fst np)
                      ++ [ ("project_name", VStr (Projects.name (snd np)));
                           replies_column reply_object d (fst np) ]))
  = inr (project_note_dict d np).
Proof.
  unfold project_note_dict. rewrite replies_column_value.
  destruct np as [n p]; cbn [fst snd].
  destruct n as [i pi pnm fp ln au ui [ts |] co de cw st se so im ca [ua |]];
    reflexivity.
Qed.

Lemma project_note_dict_get d np :
  dict_get "id" (project_note_dict d np) = Some (VStr (Notes.id (fst np))) /\
  dict_get "timestamp" (project_note_dict d np)
  = Some (iso_or_none (Notes.timestamp (fst np))) /\
  dict_get "updated_at" (project_note_dict d np)
  = Some (iso_or_none (Notes.updated_at (fst np))) /\
  dict_get "project_name" (project_note_dict d np)
  = Some (VStr (Projects.name (snd np))) /\
  dict_get "replies" (project_note_dict d np)
  = Some (VList (map reply_object (replies_of d (Notes.id (fst np))))).
Proof.
  unfold project_note_dict. rewrite replies_column_value.
  destruct np as [n p]; cbn [fst snd].
  destruct n as [i pi pnm fp ln au ui [ts |] co de cw st se so im ca [ua |]];
    repeat split; reflexivity.
Qed.

Lemma get_project_notes_run E w project_name :
  get_project_notes project_name E w
  = (w, inr (NotesResponse.mk
               (map (project_note_dict (db w))
                    (order_by (fun a b => nulls_last_leb dt_leb (Notes.timestamp (fst b))
                                                                (Notes.timestamp (fst a)))
                              (join_projects project_name (db w)))))).
Proof.
  unfold get_project_notes, try_except, query, lift, select_project_notes.
  cbn [bind ret Monad_M].
  rewrite (mapM_map _ _ (project_note_dict (db w)));
    [reflexivity | intros; apply format_project_note_ok].
Qed.

Lemma get_file_notes_run E w project_name path :
  get_file_notes project_name path E w
  = (w, inr (NotesResponse.mk (select_file_notes project_name path (db w)))).
Proof. reflexivity. Qed.

Lemma get_line_notes_run E w project_name path line :
  get_line_notes project_name path line E w
  = (w, inr (NotesResponse.mk (select_line_notes project_name path line (db w)))).
Proof. reflexivity. Qed.

Lemma note_row_dict_get build d n :
  dict_get "id" (note_row_dict build d n) = Some (VStr (Notes.id n)) /\
  dict_get "timestamp" (note_row_dict build d n) = Some (of_opt_dt (Notes.timestamp n)) /\
  dict_get "created_at" (note_row_dict build d n) = Some (of_opt_dt (Notes.created_at n)) /\
  dict_get "updated_at" (note_row_dict build d n) = Some (of_opt_dt (Notes.updated_at n)) /\
  dict_get "replies" (note_row_dict build d n)
  = Some (VList (map build (replies_of d (Notes.id n)))).
Proof.
  unfold note_row_dict. rewrite replies_column_value. repeat split; reflexivity.
Qed.

Lemma note_by_id_format_ok d n :
  (note_dict <- isoformat_key "timestamp" (note_row_dict reply_object d n) ;;
   note_dict <- isoformat_key "updated_at" note_dict ;;
   isoformat_key "created_at" note_dict)
  = inr (note_by_id_dict d n).
Proof.
  unfold note_by_id_dict, note_row_dict. rewrite replies_column_value.
  destruct n as [i pi pnm fp ln au ui [ts |] co de cw st se so im [ca |] [ua |]];
    reflexivity.
Qed.

Lemma note_by_id_dict_get d n :
  dict_get "id" (note_by_id_dict d n) = Some (VStr (Notes.id n)) /\
  dict_get "timestamp" (note_by_id_dict d n) = Some (iso_or_none (Notes.timestamp n)) /\
  dict_get "created_at" (note_by_id_dict d n) = Some (iso_or_none (Notes.created_at n)) /\
  dict_get "updated_at" (note_by_id_dict d n) = Some (iso_or_none (Notes.updated_at n)) /\
  dict_get "replies" (note_by_id_dict d n)
  = Some (VList (map reply_object (replies_of d (Notes.id n)))).
Proof.
  unfold note_by_id_dict, note_row_dict. rewrite replies_column_value.
  destruct n as [i pi pnm fp ln au ui [ts |] co de cw st se so im [ca |] [ua |]];
    repeat split; reflexivity.
Qed.

Lemma str_in_note_not_found :
  str_in "Note not found" (exn_str (HTTPException 404 "Note not found")) = true.
Proof. reflexivity. Qed.

Lemma get_note_by_id_run E w note_id :
  get_note_by_id note_id E w
  = (w, match uuid_in note_id with
        | Some i =>
            match filter (note_has_id i) (notes (db w)) with
            | n :: _ => inr (VDict [("note", VDict (note_by_id_dict (db w) n))])
            | [] => inl (HTTPException 404 "Note not found")
            end
        | None => inl (reraised "Note not found" (uuid_syntax_error note_id))
        end).
Proof.
  unfold get_note_by_id, try_except, query_checked, with_uuid, lift, select_note_by_id.
  cbn [bind ret Monad_M].
  destruct (uuid_in note_id) as [i |].
  - destruct (filter (note_has_id i) (notes (db w))) as [| n ns].
    + reflexivity.
    + rewrite note_by_id_format_ok. reflexivity.
  - unfold reraise_if, reraised, internal_error, raise.
    destruct (str_in _ _); reflexivity.
Qed.

(** For text that is no UUID a handler that re-raises on its marker
    answers 500: with its own exception, or with the store's when the text
    happens to contain the marker. *)
Lemma reraised_status (marker : string) (text : string) :
  response_status (reraised marker (uuid_syntax_error text)) = 500.
Proof. unfold reraised. destruct (str_in _ _); reflexivity. Qed.

(** ** Notes of a project *)

Lemma existsb_filter {A} (q : A -> bool) (l : list A) :
  existsb q l = match filter q l with [] => false | _ :: _ => true end.
Proof.
  induction l as [| a l IH]; simpl; [reflexivity |].
  destruct (q a); simpl; [reflexivity | exact IH].
Qed.




Lemma Forall2_map_both {A B C} (R : B -> C -> Prop) (f : A -> B) (g : A -> C)
    (l : list A) :
  (forall a, R (f a) (g a)) -> Forall2 R (map f l) (map g l).
Proof. intros H. induction l; simpl; constructor; auto. Qed.

Lemma names_note_filter (d : Database) (note_id : string) :
  names_note d note_id <-> filter (note_has_id note_id) (notes d) <> [].
Proof.
  unfold names_note. split.
  - intros (n & Hin & Hid) Hf.
    assert (H : In n (filter (note_has_id note_id) (notes d))).
    { apply filter_In. split; [exact Hin |]. unfold note_has_id.
      apply String.eqb_eq. exact Hid. }
    rewrite Hf in H. exact H.
  - intros Hf. destruct (filter (note_has_id note_id) (notes d)) as [| n ns] eqn:E;
      [congruence |].
    assert (H : In n (filter (note_has_id note_id) (notes d))) by (rewrite E; left; reflexivity).
    apply filter_In in H. destruct H as [Hin Hid].
    exists n. split; [exact Hin |]. apply String.eqb_eq. exact Hid.
Qed.







(** ** Replies of a note without replies *)

Lemma carries_replies_of (build : Replies.row -> value) (d : Database) (n : Notes.row)
    (note : dict) :
  dict_get "id" note = Some (VStr (Notes.id n)) ->
  dict_get "replies" note = Some (VList (map build (replies_of d (Notes.id n)))) ->
  carries_replies d n note.
Proof.
  intros Hid Hr. split; [exact Hid |]. split.
  - eexists. split; [exact Hr |]. apply length_map.
  - intros Hnone. rewrite Hr, Hnone. reflexivity.
Qed.

Lemma join_projects_In (project_name : string) (d : Database) (n : Notes.row) :
  In n (map fst (join_projects project_name d))
  <-> In n (notes d) /\ note_in_project d project_name n = true.
Proof.
  unfold join_projects, note_in_project. split.
  - intros H. apply in_map_iff in H. destruct H as ([n' p] & Heq & Hin).
    cbn [fst] in Heq. subst n'.
    apply in_flat_map in Hin. destruct Hin as (n' & Hn & Hin).
    apply in_map_iff in Hin. destruct Hin as (p' & Heq & Hin).
    injection Heq as -> ->. apply filter_In in Hin. destruct Hin as [Hp Hq].
    split; [exact Hn |]. apply existsb_exists. eauto.
  - intros [Hn Hex]. apply existsb_exists in Hex. destruct Hex as (p & Hp & Hq).
    apply in_map_iff. exists (n, p). split; [reflexivity |].
    apply in_flat_map. exists n. split; [exact Hn |].
    apply in_map. apply filter_In. auto.
Qed.

(** C9: every note a read handler returns carries the key ["replies"]
    with a list, one element per reply row of the note, and so the empty
    list for a note without replies.  This holds of the project listing
    (which returns the notes linked to the project row of the name), of
    the file and line listings (which return the notes selected by their
    columns), and of the lookup by identifier (which returns the note of
    that UUID). *)
Theorem replies_never_absent E w :
  (forall project_name,
      exists ns ds,
        get_project_notes project_name E w = (w, inr (NotesResponse.mk ds)) /\
        (forall n, In n ns <-> In n (notes (db w)) /\
                               note_in_project (db w) project_name n = true) /\
        Forall2 (carries_replies (db w)) ns ds) /\
  (forall project_name path,
      exists ns ds,
        get_file_notes project_name path E w = (w, inr (NotesResponse.mk ds)) /\
        Permutation ns (filter (fun n => sql_str_eq (Notes.project_name n) project_name
                                         && sql_str_eq (Notes.file_path n) path)
                               (notes (db w))) /\
        Forall2 (carries_replies (db w)) ns ds) /\
  (forall project_name path line,
      exists ns ds,
        get_line_notes project_name path line E w = (w, inr (NotesResponse.mk ds)) /\
        Permutation ns (filter (fun n => sql_str_eq (Notes.project_name n) project_name
                                         && sql_str_eq (Notes.file_path n) path
                                         && sql_int_eq (Notes.line_number n) line)
                               (notes (db w))) /\
        Forall2 (carries_replies (db w)) ns ds) /\
  (forall note_id i,
      uuid_in note_id = Some i -> names_note (db w) i ->
      exists n d,
        In n (notes (db w)) /\ Notes.id n = i /\
        get_note_by_id note_id E w = (w, inr (VDict [("note", VDict d)])) /\
        carries_replies (db w) n d).
Proof.
  split; [| split; [| split]].
  - intros project_name.
    set (leb := fun a b : Notes.row * Projects.row =>
                  nulls_last_leb dt_leb (Notes.timestamp (fst b)) (Notes.timestamp (fst a))).
    exists (map fst (order_by leb (join_projects project_name (db w)))),
           (map (project_note_dict (db w))
                (order_by leb (join_projects project_name (db w)))).
    split; [apply get_project_notes_run |]. split.
    + intros n. rewrite <- join_projects_In. split; apply Permutation_in;
        apply Permutation_map; [symmetry |]; apply order_by_perm.
    + apply Forall2_map_both. intros np.
      destruct (project_note_dict_get (db w) np) as (H1 & _ & _ & _ & H5).
      exact (carries_replies_of _ _ _ _ H1 H5).
  - intros project_name path. eexists _, _.
    split; [apply get_file_notes_run |]. unfold select_file_notes.
    split; [symmetry; apply order_by_perm |].
    rewrite <- (map_id (order_by _ _)) at 1. apply Forall2_map_both. intros n.
    destruct (note_row_dict_get reply_object_with_user (db w) n) as (H1 & _ & _ & _ & H5).
    exact (carries_replies_of _ _ _ _ H1 H5).
  - intros project_name path line. eexists _, _.
    split; [apply get_line_notes_run |]. unfold select_line_notes.
    split; [symmetry; apply order_by_perm |].
    rewrite <- (map_id (order_by _ _)) at 1. apply Forall2_map_both. intros n.
    destruct (note_row_dict_get reply_object_with_user (db w) n) as (H1 & _ & _ & _ & H5).
    exact (carries_replies_of _ _ _ _ H1 H5).
  - intros note_id i Hi Hyes. apply names_note_filter in Hyes.
    rewrite get_note_by_id_run, Hi.
    destruct (filter (note_has_id i) (notes (db w))) as [| n ns] eqn:Ef; [congruence |].
    assert (Hin : In n (filter (note_has_id i) (notes (db w))))
      by (rewrite Ef; left; reflexivity).
    apply filter_In in Hin. destruct Hin as [Hin Hid]. apply String.eqb_eq in Hid.
    exists n, (note_by_id_dict (db w) n).
    destruct (note_by_id_dict_get (db w) n) as (H1 & _ & _ & _ & H5).
    split; [exact Hin |]. split; [exact Hid |]. split; [reflexivity |].
    exact (carries_replies_of _ _ _ _ H1 H5).
Qed.

(** ** Updating a note *)

Lemma set_notes_same (d : Database) : set_notes d (notes d) = d.
Proof. destruct d; reflexivity. Qed.

Lemma map_if_none {A} (c : A -> bool) (f : A -> A) (l : list A) :
  filter c l = [] -> map (fun a => if c a then f a else a) l = l.
Proof.
  induction l as [| a l IH]; simpl; [reflexivity |].
  destruct (c a); [discriminate |]. intros H. rewrite IH by exact H. reflexivity.
Qed.

Lemma reraised_database_error (marker msg : string) :
  response_status (reraised marker (DatabaseError msg)) = 500.
Proof. unfold reraised. destruct (str_in _ _); reflexivity. Qed.

Lemma varchar_inl (n : nat) (o : option string) (e : exn) :
  varchar n o = inl e -> exists msg, e = DatabaseError msg.
Proof.
  unfold varchar. destruct o as [s |]; [| discriminate].
  destruct (utf8_length s <=? n)%nat; [discriminate |].
  intros H. injection H as <-. eauto.
Qed.

Lemma int4_inl (o : option Z) (e : exn) :
  int4 o = inl e -> exists msg, e = DatabaseError msg.
Proof.
  unfold int4. destruct o as [z |]; [| discriminate].
  destruct (_ && _); [discriminate |]. intros H. injection H as <-. eauto.
Qed.

Lemma check_note_columns_inl (line_number : option Z) (cwe severity source : option string)
    (e : exn) :
  check_note_columns line_number cwe severity source = inl e ->
  exists msg, e = DatabaseError msg.
Proof.
  unfold check_note_columns. cbn [bind Monad_Result].
  destruct (int4 line_number) as [e1 | []] eqn:H1.
  { intros H. injection H as <-. exact (int4_inl _ _ H1). }
  destruct (varchar 20 cwe) as [e2 | []] eqn:H2.
  { intros H. injection H as <-. exact (varchar_inl _ _ _ H2). }
  destruct (varchar 10 severity) as [e3 | []] eqn:H3.
  { intros H. injection H as <-. exact (varchar_inl _ _ _ H3). }
  apply varchar_inl.
Qed.

Lemma varchar_fits (n : nat) (o : option string) :
  (forall s, o = Some s -> (utf8_length s <= n)%nat) -> varchar n o = inr tt.
Proof.
  intros H. unfold varchar. destruct o as [s |]; [| reflexivity].
  specialize (H s eq_refl). apply Nat.leb_le in H. rewrite H. reflexivity.
Qed.

Lemma check_note_columns_fits (note : ScrewNote.t) :
  fits_columns note ->
  check_note_columns (Some (ScrewNote.line_number note)) (ScrewNote.cwe note)
    (ScrewNote.severity note) (Some (ScrewNote.source note)) = inr tt.
Proof.
  intros (Hl & Hc & Hs & Hso). unfold check_note_columns, int4.
  assert (H1 : (-2147483648 <=? ScrewNote.line_number note) = true) by (apply Z.leb_le; lia).
  assert (H2 : (ScrewNote.line_number note <=? 2147483647) = true) by (apply Z.leb_le; lia).
  rewrite H1, H2. cbn [andb bind Monad_Result].
  rewrite (varchar_fits 20 _ Hc). cbn [bind Monad_Result].
  rewrite (varchar_fits 10 _ Hs). cbn [bind Monad_Result].
  apply varchar_fits. intros s H. injection H as <-. exact Hso.
Qed.

Lemma update_note_run E w note_id note :
  update_note note_id note E w
  = match check_note_columns (Some (ScrewNote.line_number note)) (ScrewNote.cwe note)
            (ScrewNote.severity note) (Some (ScrewNote.source note)),
          uuid_in note_id with
    | inl e, _ =>
        (mkWorld (db w) (S (clock_reads w)) (uuid_draws w),
         inl (reraised "Note not found" e))
    | inr _, None =>
        (mkWorld (db w) (S (clock_reads w)) (uuid_draws w),
         inl (reraised "Note not found" (uuid_syntax_error note_id)))
    | inr _, Some i =>
        (mkWorld
           (set_notes (db w)
              (map (fun n =>
                      if note_has_id i n then
                        update_set (ScrewNote.file_path note) (ScrewNote.line_number note)
                          (ScrewNote.author note) (ScrewNote.comment note)
                          (ScrewNote.description note) (ScrewNote.cwe note)
                          (ScrewNote.state note) (ScrewNote.severity note)
                          (ScrewNote.source note) (clock E (clock_reads w)) n
                      else n)
                   (notes (db w))))
           (S (clock_reads w)) (uuid_draws w),
         match filter (note_has_id i) (notes (db w)) with
         | [] => inl (HTTPException 404 "Note not found")
         | _ :: _ =>
             inr (VDict [("note", VDict (ScrewNote.dict (ScrewNote.set_id note_id note)))])
         end)
    end.
Proof.
  unfold update_note, update_note_row, try_except, current_timestamp, datetime_now,
    execute_checked, with_uuid, update_notes_where_id.
  cbn [bind ret Monad_M Monad_Result db clock_reads uuid_draws].
  destruct (check_note_columns _ _ _ _) as [e | []].
  - unfold reraise_if, reraised, internal_error, raise.
    destruct (str_in _ _); reflexivity.
  - destruct (uuid_in note_id) as [i |].
    + cbn [db clock_reads uuid_draws].
      destruct (filter (note_has_id i) (notes (db w))) as [| n ns]; reflexivity.
    + unfold reraise_if, reraised, internal_error, raise.
      destruct (str_in _ _); reflexivity.
Qed.

(** An [update_note] that does not succeed leaves the store as it was. *)
Lemma update_note_failure E w note_id note e :
  snd (update_note note_id note E w) = inl e ->
  db (fst (update_note note_id note E w)) = db w.
Proof.
  rewrite update_note_run.
  destruct (check_note_columns _ _ _ _) as [e1 | []]; [reflexivity |].
  destruct (uuid_in note_id) as [i |]; [| reflexivity].
  cbn [fst snd db].
  destruct (filter (note_has_id i) (notes (db w))) as [| n ns] eqn:Hf; [| discriminate].
  intros _. rewrite map_if_none by exact Hf. apply set_notes_same.
Qed.

(** C5, as amended: [update_note] under text that is no UUID answers 500
    and, like every [update_note] that does not succeed, leaves the store
    as it was.  Under a UUID, with values that fit the sized columns: if it
    names no note the answer is 404; if it names a stored note the answer
    is a note, every other note and the other tables are left alone, and
    in the note it names the nine mutable columns take the values of the
    body and [updated_at] the clock reading of the statement, [id],
    [created_at] and [timestamp] staying as they were.  Whether that
    reading is later than the [updated_at] it replaces is up to the
    clocks. *)
Theorem update_note_effect E w note_id note :
  (forall e, snd (update_note note_id note E w) = inl e ->
             db (fst (update_note note_id note E w)) = db w) /\
  (uuid_in note_id = None ->
   exists e, snd (update_note note_id note E w) = inl e /\ response_status e = 500) /\
  (forall i,
      uuid_in note_id = Some i -> fits_columns note ->
      (~ names_note (db w) i ->
       snd (update_note note_id note E w) = inl (HTTPException 404 "Note not found")) /\
      (names_note (db w) i ->
       (exists resp, snd (update_note note_id note E w) = inr resp) /\
       projects (db (fst (update_note note_id note E w))) = projects (db w) /\
       replies (db (fst (update_note note_id note E w))) = replies (db w) /\
       Forall2 (fun n n' =>
                  if String.eqb (Notes.id n) i
                  then updated_from note n n' /\
                       Notes.updated_at n' = Some (clock E (clock_reads w))
                  else n' = n)
               (notes (db w)) (notes (db (fst (update_note note_id note E w)))))).
Proof.
  split; [intros e; apply update_note_failure |]. split.
  - intros Hnone. rewrite update_note_run, Hnone.
    destruct (check_note_columns _ _ _ _) as [e1 | []] eqn:Hc.
    + destruct (check_note_columns_inl _ _ _ _ _ Hc) as (msg & ->).
      eexists. split; [reflexivity | apply reraised_database_error].
    + eexists. split; [reflexivity | apply reraised_status].
  - intros i Hi Hfits. rewrite update_note_run, Hi, (check_note_columns_fits note Hfits).
    cbn [fst snd db]. split.
    + intros Hno.
      destruct (filter (note_has_id i) (notes (db w))) eqn:Ef; [reflexivity |].
      exfalso. apply Hno. apply names_note_filter. rewrite Ef. discriminate.
    + intros Hyes. apply names_note_filter in Hyes.
      destruct (filter (note_has_id i) (notes (db w))) as [| n0 ns0] eqn:Ef;
        [congruence |].
      split; [eexists; reflexivity |].
      split; [reflexivity |]. split; [reflexivity |].
      cbn [notes set_notes]. clear Ef Hyes.
      induction (notes (db w)) as [| n ns IH]; simpl; constructor; [| exact IH].
      unfold note_has_id. destruct (String.eqb (Notes.id n) i) eqn:Eid; [| reflexivity].
      split; [| reflexivity].
      unfold updated_from, update_set. cbn. repeat split; reflexivity.
Qed.

Lemma dict_get_cons_ne (k k' : string) (v : value) (d : dict) :
  k <> k' -> dict_get k ((k', v) :: d) = dict_get k d.
Proof. intros H. simpl. apply String.eqb_neq in H. rewrite H. reflexivity. Qed.

(** C10: the note a successful [update_note] answers with is the request
    body under the path identifier: every key but ["id"] holds what the
    body holds, the columns the statement does not write among them, and
    there is no ["updated_at"] key. *)
Theorem update_note_echoes_body E w note_id note w' resp :
  update_note note_id note E w = (w', inr resp) ->
  exists d,
    resp = VDict [("note", VDict d)] /\
    dict_get "id" d = Some (VStr note_id) /\
    (forall k, k <> "id" -> dict_get k d = dict_get k (ScrewNote.dict note)) /\
    dict_get "timestamp" d = Some (of_opt_str (ScrewNote.timestamp note)) /\
    dict_get "user_id" d = Some (VStr (ScrewNote.user_id note)) /\
    dict_get "project_name" d = Some (VStr (ScrewNote.project_name note)) /\
    dict_get "updated_at" d = None.
Proof.
  rewrite update_note_run. intros H.
  destruct (check_note_columns _ _ _ _) as [e | []]; [discriminate |].
  destruct (uuid_in note_id) as [i |]; [| discriminate].
  injection H as _ H.
  destruct (filter (note_has_id i) (notes (db w))); [discriminate |].
  injection H as <-.
  exists (ScrewNote.dict (ScrewNote.set_id note_id note)).
  split; [reflexivity |]. split; [reflexivity |].
  split; [| repeat split; reflexivity].
  intros k Hk. unfold ScrewNote.dict at 1 2.
  rewrite !(dict_get_cons_ne k "id") by exact Hk. reflexivity.
Qed.

(** ** Appending a reply *)

Lemma select_note_id_names (d : Database) (note_id : string) :
  names_note d note_id <-> select_note_id note_id d <> None.
Proof.
  rewrite names_note_filter. unfold select_note_id.
  destruct (filter (note_has_id note_id) (notes d)); split; congruence.
Qed.

(** C6, as amended: [create_reply] under text that is no UUID answers
    500 and leaves the store as it was.  Under a UUID that names no note
    it answers 404 and leaves the store as it was.  Under the UUID of a
    stored note it appends one row to [replies], under that UUID, and
    answers with the reply; the row carries the caller's identifier and
    timestamp, or a newly drawn UUID and the clock reading where the
    caller sent none. *)
Theorem create_reply_effect E w parent_id reply :
  (uuid_in parent_id = None ->
   exists e, snd (create_reply parent_id reply E w) = inl e /\
             response_status e = 500 /\
             db (fst (create_reply parent_id reply E w)) = db w) /\
  (forall i,
      uuid_in parent_id = Some i ->
      (~ names_note (db w) i ->
       snd (create_reply parent_id reply E w)
       = inl (HTTPException 404 "Parent note not found") /\
       db (fst (create_reply parent_id reply E w)) = db w) /\
      (names_note (db w) i ->
       exists reply_id reply_timestamp,
         snd (create_reply parent_id reply E w)
         = inr (VDict [("reply",
                        VDict (ScrewReply.dict
                                 (ScrewReply.mk (Some reply_id) (ScrewReply.parent_id reply)
                                    (ScrewReply.author reply) (Some reply_timestamp)
                                    (ScrewReply.comment reply)
                                    (ScrewReply.user_id reply))))]) /\
         replies (db (fst (create_reply parent_id reply E w)))
         = replies (db w)
           ++ [Replies.mk reply_id i (ScrewReply.author reply)
                 (ScrewReply.user_id reply) reply_timestamp (ScrewReply.comment reply)] /\
         notes (db (fst (create_reply parent_id reply E w))) = notes (db w) /\
         projects (db (fst (create_reply parent_id reply E w))) = projects (db w) /\
         (ScrewReply.id reply = None ->
          reply_id = uuid_str (uuid_source E (uuid_draws w))) /\
         (forall r, ScrewReply.id reply = Some r -> r <> EmptyString -> reply_id = r) /\
         (ScrewReply.timestamp reply = None ->
          reply_timestamp = isoformat (clock E (clock_reads w))) /\
         (forall t, ScrewReply.timestamp reply = Some t -> t <> EmptyString ->
                    reply_timestamp = t))).
Proof.
  split.
  - intros Hnone.
    unfold create_reply, try_except, query_checked, with_uuid.
    cbn [bind ret Monad_M]. rewrite Hnone.
    unfold reraise_if, internal_error, raise.
    destruct (str_in _ _); eexists; repeat split; reflexivity.
  - intros i Hi. split.
    + intros Hno.
      assert (Hs : select_note_id i (db w) = None).
      { destruct (select_note_id i (db w)) eqn:Es; [| reflexivity].
        exfalso. apply Hno. apply select_note_id_names. congruence. }
      unfold create_reply, try_except, query_checked, with_uuid.
      cbn [bind ret Monad_M]. rewrite Hi, Hs.
      split; reflexivity.
    + intros Hyes. apply select_note_id_names in Hyes.
      unfold create_reply, try_except, query_checked, execute_checked, with_uuid.
      cbn [bind ret Monad_M]. rewrite Hi.
      destruct (select_note_id i (db w)) as [p |]; [| congruence]. clear Hyes.
      destruct reply as [[r |] pid au [t |] co ui];
        cbn [ScrewReply.id ScrewReply.timestamp];
        unfold falsy_opt_str, of_opt_str, truthy.
      * destruct (String.eqb_spec r EmptyString), (String.eqb_spec t EmptyString); subst;
          cbn -[uuid_str isoformat];
          do 2 eexists; repeat split; try reflexivity; try congruence.
      * destruct (String.eqb_spec r EmptyString); subst;
          cbn -[uuid_str isoformat];
          do 2 eexists; repeat split; try reflexivity; try congruence.
      * destruct (String.eqb_spec t EmptyString); subst;
          cbn -[uuid_str isoformat];
          do 2 eexists; repeat split; try reflexivity; try congruence.
      * cbn -[uuid_str isoformat];
          do 2 eexists; repeat split; try reflexivity; try congruence.
Qed.

(** ** Replacing the notes of a project *)

Lemma bind_Result_inr {A B} (m : Result A) (f : A -> Result B) (b : B) :
  bind m f = inr b -> exists a, m = inr a /\ f a = inr b.
Proof. destruct m as [e | a]; simpl; [discriminate | eauto]. Qed.

Lemma bind_M_inr {A B} (m : M A) (f : A -> M B) E w w' (b : B) :
  bind m f E w = (w', inr b) ->
  exists w1 a, m E w = (w1, inr a) /\ f a E w1 = (w', inr b).
Proof.
  cbn [bind Monad_M]. destruct (m E w) as [w1 [e | a]]; [discriminate | eauto].
Qed.

Lemma try_internal_error_inr {A} (body : M A) E w w' (a : A) :
  try_except body internal_error E w = (w', inr a) -> body E w = (w', inr a).
Proof.
  unfold try_except. destruct (body E w) as [w1 [e | a1]]; [discriminate | auto].
Qed.

Lemma to_text_inr (v : value) (o : option string) :
  to_text v = inr o -> v = of_opt_str o.
Proof. destruct v; simpl; intros H; inversion H; reflexivity. Qed.

Lemma to_integer_inr (v : value) (o : option Z) :
  to_integer v = inr o -> v = of_opt_int o.
Proof. destruct v; simpl; intros H; inversion H; reflexivity. Qed.

Lemma of_opt_str_inj (a b : option string) : of_opt_str a = of_opt_str b -> a = b.
Proof. destruct a, b; simpl; congruence. Qed.

Lemma dict_getitem_inr (k : string) (d : dict) (v : value) :
  dict_getitem k d = inr v -> dict_get k d = Some v.
Proof. unfold dict_getitem. destruct (dict_get k d); congruence. Qed.

Lemma to_timestamp_given (E : Env) (v : value) (column : option datetime) :
  to_timestamp (read_timestamp E) v = inr column -> timestamp_given E v column.
Proof.
  destruct v; simpl; intros H; try discriminate.
  - injection H as <-. reflexivity.
  - destruct (read_timestamp E s) as [t |]; [| discriminate].
    injection H as <-. eauto.
  - injection H as <-. reflexivity.
Qed.

Lemma to_uuid_inr (v : value) (i : string) :
  to_uuid v = inr (Some i) -> exists s, v = VStr s /\ uuid_in s = Some i.
Proof.
  destruct v; simpl; intros H; try discriminate.
  destruct (uuid_in s) as [j |] eqn:Hj; [| discriminate].
  injection H as <-. eauto.
Qed.

Lemma replaced_note_row_inr (conv : string -> option datetime)
    (note_id project_name file_path line_number author user_id
     timestamp comment description cwe state : value) (now : datetime) (row : Notes.row) :
  replaced_note_row conv note_id project_name file_path line_number author user_id
    timestamp comment description cwe state now = inr row ->
  (exists s, note_id = VStr s /\ uuid_in s = Some (Notes.id row)) /\
  project_name = of_opt_str (Notes.project_name row) /\
  file_path = of_opt_str (Notes.file_path row) /\
  line_number = of_opt_int (Notes.line_number row) /\
  author = of_opt_str (Notes.author row) /\
  user_id = of_opt_str (Notes.user_id row) /\
  to_timestamp conv timestamp = inr (Notes.timestamp row) /\
  comment = of_opt_str (Notes.comment row) /\
  description = of_opt_str (Notes.description row) /\
  cwe = of_opt_str (Notes.cwe row) /\
  state = of_opt_str (Notes.state row) /\
  Notes.project_id row = None.
Proof.
  unfold replaced_note_row. intros H.
  apply bind_Result_inr in H. destruct H as (i & Hi & H).
  apply bind_Result_inr in Hi. destruct Hi as (oi & Hoi & Hnn).
  destruct oi as [i' |]; [| discriminate].
  simpl in Hnn. injection Hnn as ->. apply to_uuid_inr in Hoi.
  repeat (apply bind_Result_inr in H;
          let a := fresh "a" in let Ha := fresh "Ha" in
          destruct H as (a & Ha & H)).
  injection H as <-. cbn.
  repeat match goal with
         | Ht : to_text _ = inr _ |- _ => apply to_text_inr in Ht
         | Ht : to_integer _ = inr _ |- _ => apply to_integer_inr in Ht
         end.
  repeat split; assumption.
Qed.

Lemma replace_step_inr E project_name note_data w w' :
  (forall k, read_timestamp E (isoformat (clock E k)) = Some (clock E k)) ->
  (params <- replace_parameters project_name note_data ;;
   insert_replaced_note params) E w = (w', inr tt) ->
  exists row,
    db w' = set_notes (db w) (notes (db w) ++ [row]) /\
    clock_reads w' = S (S (clock_reads w)) /\
    uuid_draws w' = S (uuid_draws w) /\
    Notes.project_id row = None /\
    stored_as E project_name (uuid_draws w) (clock_reads w) note_data row.
Proof.
  intros Hreads H.
  unfold replace_parameters, uuid4, datetime_now, lift in H.
  cbn [bind ret Monad_M db clock_reads uuid_draws] in H.
  destruct (dict_getitem "file_path" note_data) as [| file_path] eqn:Hfp; [discriminate |].
  destruct (dict_getitem "line_number" note_data) as [| line_number] eqn:Hln;
    [discriminate |].
  destruct (dict_getitem "author" note_data) as [| author] eqn:Hau; [discriminate |].
  destruct (dict_getitem "comment" note_data) as [| comment] eqn:Hco; [discriminate |].
  unfold insert_replaced_note, current_timestamp, datetime_now, ask, lift,
    execute_checked in H.
  cbn [bind ret Monad_M db clock_reads uuid_draws] in H.
  match type of H with
  | context [replaced_note_row ?c ?a ?b ?c1 ?d ?e ?f ?g ?h ?i ?j ?k ?l] =>
      destruct (replaced_note_row c a b c1 d e f g h i j k l) as [| row] eqn:Hrow;
      [discriminate |]
  end.
  cbn [bind ret Monad_M Monad_Result db clock_reads uuid_draws] in H.
  destruct (insert_note row (db w)) as [| d'] eqn:Hins; [discriminate |].
  injection H as <-.
  apply replaced_note_row_inr in Hrow.
  destruct Hrow as (Hid & Hpn & Hf & Hl & Ha & Hu & Ht & Hc & Hd & Hcw & Hs & Hpid).
  apply dict_getitem_inr in Hfp, Hln, Hau, Hco.
  exists row. cbn [db clock_reads uuid_draws].
  split.
  { unfold insert_note in Hins. rewrite Hpid in Hins.
    destruct (existsb _ (notes (db w))); [discriminate |]. congruence. }
  split; [reflexivity |]. split; [reflexivity |]. split; [exact Hpid |].
  unfold stored_as, dict_get_default in *.
  rewrite Hfp, Hln, Hau, Hco.
  repeat split.
  - destruct (dict_get "id" note_data); [exact Hid |].
    destruct Hid as (s & Hs' & Hin). injection Hs' as <-.
    rewrite uuid_in_uuid_str in Hin. congruence.
  - destruct (dict_get "user_id" note_data); [exact Hu |].
    apply of_opt_str_inj. congruence.
  - destruct (dict_get "timestamp" note_data); [apply to_timestamp_given; exact Ht |].
    unfold to_timestamp in Ht. rewrite Hreads in Ht. congruence.
  - destruct (dict_get "state" note_data); [exact Hs |].
    apply of_opt_str_inj. symmetry. exact Hs.
  - apply of_opt_str_inj. symmetry. exact Hpn.
  - congruence.
  - congruence.
  - congruence.
  - congruence.
  - destruct (dict_get "description" note_data); exact Hd.
  - destruct (dict_get "cwe" note_data); exact Hcw.
Qed.

Lemma replace_loop_inr E project_name (notes_data : list dict) :
  (forall k, read_timestamp E (isoformat (clock E k)) = Some (clock E k)) ->
  forall w w',
    for_each notes_data
      (fun note_data =>
         params <- replace_parameters project_name note_data ;;
         insert_replaced_note params) E w = (w', inr tt) ->
    exists rows,
      db w' = set_notes (db w) (notes (db w) ++ rows) /\
      Forall (fun row => Notes.project_id row = None) rows /\
      stored_all E project_name (uuid_draws w) (clock_reads w) notes_data rows.
Proof.
  intros Hreads. induction notes_data as [| note_data notes_data IH]; intros w w' H.
  - cbn in H. injection H as <-. exists []. split; [| split; [constructor | exact I]].
    rewrite app_nil_r. symmetry. apply set_notes_same.
  - cbn [for_each] in H. apply bind_M_inr in H. destruct H as (w1 & [] & Hstep & Hrest).
    apply (replace_step_inr E project_name note_data w w1 Hreads) in Hstep.
    destruct Hstep as (row & Hdb & Hcr & Hud & Hpid & Hrow).
    apply IH in Hrest. destruct Hrest as (rows & Hdb' & Hpids & Hrows).
    exists (row :: rows). split; [| split].
    + rewrite Hdb', Hdb. unfold set_notes. cbn [notes projects replies projects_id_seq].
      rewrite <- app_assoc. reflexivity.
    + constructor; assumption.
    + cbn [stored_all]. split; [exact Hrow |]. rewrite <- Hud, <- Hcr. exact Hrows.
Qed.

Lemma insert_project_do_nothing_notes (name : string) (d : Database) :
  notes (insert_project_do_nothing name d) = notes d.
Proof.
  unfold insert_project_do_nothing, insert_project.
  destruct (existsb _ _); reflexivity.
Qed.

Lemma insert_project_do_nothing_replies (name : string) (d : Database) :
  replies (insert_project_do_nothing name d) = replies d.
Proof.
  unfold insert_project_do_nothing, insert_project.
  destruct (existsb _ _); reflexivity.
Qed.

Lemma replace_all_notes_inr E w project_name data w' resp :
  (forall k, read_timestamp E (isoformat (clock E k)) = Some (clock E k)) ->
  replace_all_notes project_name data E w = (w', inr resp) ->
  exists rows,
    notes (db w')
    = filter (fun n => negb (sql_str_eq (Notes.project_name n) project_name))
             (notes (db w)) ++ rows /\
    projects (db w') = projects (insert_project_do_nothing project_name (db w)) /\
    Forall (fun row => Notes.project_id row = None) rows /\
    stored_all E project_name (uuid_draws w) (clock_reads w) (data_get_notes data) rows.
Proof.
  intros Hreads H. unfold replace_all_notes in H.
  apply try_internal_error_inr in H.
  apply bind_M_inr in H. destruct H as (w1 & rowcount & Hdel & H).
  apply bind_M_inr in H. destruct H as (w2 & [] & Hins & H).
  cbv zeta in H.
  apply bind_M_inr in H. destruct H as (w3 & [] & Hloop & H).
  cbn [ret Monad_M] in H. injection H as <- _.
  apply (replace_loop_inr E project_name _ Hreads) in Hloop.
  destruct Hloop as (rows & Hdb & Hpids & Hrows).
  unfold execute, delete_notes_where_project_name in Hdel. injection Hdel as <- _.
  unfold execute in Hins. injection Hins as <-.
  cbn [db clock_reads uuid_draws] in *.
  exists rows. rewrite Hdb. cbn [db notes projects set_notes].
  rewrite insert_project_do_nothing_notes.
  unfold insert_project_do_nothing, insert_project.
  destruct (existsb _ _); repeat split; auto.
Qed.

(** C7: when [replace_all_notes] succeeds on a request body with the
    notes [notes_data], the notes of the store are the notes that were not
    of the project, followed by one row per supplied note, in order; each
    row holds the supplied identifier (the UUID the text denotes), user
    and timestamp (as the store reads it) where the input has them, and
    otherwise a newly drawn UUID, the author and the clock reading, with
    state ["todo"] where the input has none.  The store is taken to read
    the text [isoformat] writes of a clock reading as that reading. *)
Theorem replace_all_notes_stores E w project_name notes_data w' resp :
  (forall k, read_timestamp E (isoformat (clock E k)) = Some (clock E k)) ->
  replace_all_notes project_name [("notes", notes_data)] E w = (w', inr resp) ->
  exists rows,
    notes (db w')
    = filter (fun n => negb (sql_str_eq (Notes.project_name n) project_name))
             (notes (db w)) ++ rows /\
    stored_all E project_name (uuid_draws w) (clock_reads w) notes_data rows.
Proof.
  intros Hreads H.
  destruct (replace_all_notes_inr E w project_name _ w' resp Hreads H)
    as (rows & Hnotes & _ & _ & Hrows).
  exists rows. split; assumption.
Qed.

(** ** Creating a note *)

Lemma select_project_id_some (name path : string) (d : Database) (i : Z) :
  select_project_id name path d = Some i ->
  exists p, In p (projects d) /\ Projects.id p = i /\ Projects.name p = name.
Proof.
  unfold select_project_id.
  destruct (filter _ (projects d)) as [| p ps] eqn:Hf; [discriminate |].
  intros H. injection H as <-.
  assert (Hin : In p (filter (fun p => project_named name p
                                        && sql_str_eq (Projects.path p) path)
                             (projects d))) by (rewrite Hf; left; reflexivity).
  apply filter_In in Hin. destruct Hin as [Hin Hq].
  apply andb_prop in Hq. destruct Hq as [Hq _].
  exists p. repeat split; [exact Hin |]. apply String.eqb_eq. exact Hq.
Qed.

Lemma insert_project_inr (name : string) (path : option string) (d d' : Database) (i : Z) :
  insert_project name path d = inr (d', i) ->
  projects d' = projects d ++ [Projects.mk i name path] /\
  notes d' = notes d /\ replies d' = replies d.
Proof.
  unfold insert_project. destruct (existsb _ _); [discriminate |].
  intros H. injection H as <- <-. repeat split.
Qed.

(** A note [create_note] stores refers, by [project_id], to a project row
    that bears the name of the request; its [project_name] column is
    NULL. *)
Lemma create_note_inr E w note w' resp :
  create_note note E w = (w', inr resp) ->
  exists n p,
    notes (db w') = notes (db w) ++ [n] /\
    In p (projects (db w')) /\
    Notes.project_id n = Some (Projects.id p) /\
    Projects.name p = ScrewNote.project_name note /\
    Notes.project_name n = None /\
    Notes.id n = uuid_str (uuid_source E (uuid_draws w)) /\
    resp = VDict [("note", VDict (ScrewNote.dict (ScrewNote.set_id (Notes.id n) note)))].
Proof.
  intros H. unfold create_note in H. apply try_internal_error_inr in H.
  apply bind_M_inr in H. destruct H as (w1 & project_row & Hsel & H).
  unfold query in Hsel. injection Hsel as <- <-.
  apply bind_M_inr in H. destruct H as (w2 & project_id & Hproj & H).
  assert (Hp : exists p, In p (projects (db w2)) /\ Projects.id p = project_id /\
                         Projects.name p = ScrewNote.project_name note /\
                         notes (db w2) = notes (db w) /\
                         uuid_draws w2 = uuid_draws w).
  { destruct (select_project_id (ScrewNote.project_name note) "/" (db w)) as [i |] eqn:Hs.
    - cbn [ret Monad_M] in Hproj. injection Hproj as <- <-.
      apply select_project_id_some in Hs. destruct Hs as (p & Hin & Hid & Hname).
      exists p. auto.
    - unfold execute_checked in Hproj.
      destruct (insert_project _ _ (db w)) as [e | [d' i]] eqn:Hins; [discriminate |].
      injection Hproj as <- <-.
      apply insert_project_inr in Hins. destruct Hins as (Hps & Hns & _).
      exists (Projects.mk i (ScrewNote.project_name note) (Some "/")).
      cbn [db uuid_draws]. rewrite Hps. repeat split; auto.
      apply in_or_app. right. left. reflexivity. }
  destruct Hp as (p & Hin & Hid & Hname & Hnotes & Hdraws).
  unfold datetime_now in H. cbn [bind ret Monad_M db clock_reads uuid_draws] in H.
  unfold insert_created_note, uuid4, current_timestamp, datetime_now, execute_checked in H.
  cbn [bind ret Monad_M db clock_reads uuid_draws] in H.
  cbn [bind ret Monad_Result] in H.
  match type of H with
  | context [check_note_columns ?a ?b ?c ?d] =>
      destruct (check_note_columns a b c d) as [e0 | []]; [discriminate |]
  end.
  match type of H with
  | context [insert_note ?n (db w2)] =>
      destruct (insert_note n (db w2)) as [e | d'] eqn:Hins; [discriminate |];
      exists n, p
  end.
  cbn [bind ret Monad_Result] in H. injection H as <- <-.
  unfold insert_note in Hins. cbn [Notes.id Notes.project_id] in Hins.
  destruct (existsb (note_has_id _) (notes (db w2))); [discriminate |].
  destruct (existsb (fun p => Projects.id p =? project_id) (projects (db w2)));
    [| discriminate].
  injection Hins as <-.
  cbn [db notes projects set_notes Notes.id Notes.project_id Notes.project_name].
  rewrite Hnotes, Hdraws, Hid. repeat split; auto.
Qed.

(** ** Notes without a project reference *)

Lemma filter_none {A} (q : A -> bool) (l : list A) :
  (forall a, q a = false) -> filter q l = [].
Proof. intros H. induction l as [| a l IH]; simpl; [| rewrite H]; auto. Qed.

Lemma join_projects_unlinked (project_name : string) (d : Database) :
  Forall (fun n => Notes.project_id n = None) (notes d) ->
  join_projects project_name d = [].
Proof.
  unfold join_projects. induction 1 as [| n ns Hn _ IH]; simpl; [reflexivity |].
  rewrite IH, app_nil_r, filter_none; [reflexivity |].
  intros p. rewrite Hn. reflexivity.
Qed.

(** ** The scenarios *)

Lemma demo_clock_valid (k : nat) : valid_datetime (clock demo_env k) = true.
Proof.
  unfold valid_datetime.
  cbn [clock demo_env year month day hour minute second microsecond].
  pose proof (Z.mod_pos_bound (Z.of_nat k) 60 ltac:(lia)) as Hb.
  assert (H1 : (0 <=? Z.of_nat k mod 60) = true) by (apply Z.leb_le; lia).
  assert (H2 : (Z.of_nat k mod 60 <=? 59) = true) by (apply Z.leb_le; lia).
  rewrite H1, H2. reflexivity.
Qed.

(** C1: on an empty store, replacing the notes of ["demo"] by one note
    succeeds with count 1 and stores one row, and the listing of project
    ["demo"] that follows is empty. *)
Theorem replace_then_project_query :
  replace_all_notes "demo" [("notes", [demo_note_data])] demo_env empty_world
  = (replaced_world, inr (VDict [("success", VBool true); ("count", VInt 1)])) /\
  List.length (notes (db replaced_world)) = 1%nat /\
  get_project_notes "demo" demo_env replaced_world
  = (replaced_world, inr (NotesResponse.mk [])).
Proof. repeat split; vm_compute; reflexivity. Qed.

(** C2: the row [replace_all_notes] stores has a NULL [project_id], next
    to a project row of the name it was stored for; the row [create_note]
    stores refers to its project row. *)
Theorem replaced_note_has_no_project :
  (exists n p,
      notes (db replaced_world) = [n] /\ projects (db replaced_world) = [p] /\
      Projects.name p = "demo" /\ Notes.project_name n = Some "demo" /\
      Notes.project_id n = None) /\
  (exists n p,
      notes (db created_world) = [n] /\ projects (db created_world) = [p] /\
      Projects.name p = "demo" /\ Notes.project_id n = Some (Projects.id p)).
Proof. split; do 2 eexists; repeat split. Qed.

(** C3: creating the note of the scenario answers with identifier
    [demo_id], state ["todo"] and source ["native"]; the line query for
    (["demo"], ["a.py"], 10) that follows returns no note, while the
    project query returns the note. *)
Theorem create_then_line_query :
  (exists note_dict,
      post_note demo_body demo_env empty_world
      = (created_world, inr (VDict [("note", VDict note_dict)])) /\
      dict_get "id" note_dict = Some (VStr demo_id) /\
      dict_get "state" note_dict = Some (VStr "todo") /\
      dict_get "source" note_dict = Some (VStr "native")) /\
  get_line_notes "demo" "a.py" 10 demo_env created_world
  = (created_world, inr (NotesResponse.mk [])) /\
  (exists d,
      get_project_notes "demo" demo_env created_world
      = (created_world, inr (NotesResponse.mk [d])) /\
      dict_get "id" d = Some (VStr demo_id)).
Proof.
  split; [| split].
  - eexists. split; [vm_compute; reflexivity |]. repeat split.
  - vm_compute. reflexivity.
  - eexists. split; [vm_compute; reflexivity |]. reflexivity.
Qed.

(** C8: in a store that holds a note created for project ["demo"] and a
    note [replace_all_notes] stored for project ["demo"], the project
    listing returns the first and not the second, while the count of the
    project and the file query show the second. *)
Theorem project_listing_misses_replaced_notes :
  (exists n1 n2,
      notes (db mixed_world) = [n1; n2] /\
      Notes.id n1 = demo_id /\ Notes.project_name n1 = None /\
      Notes.id n2 = demo_id_later /\ Notes.project_name n2 = Some "demo") /\
  (exists d,
      get_project_notes "demo" demo_env mixed_world
      = (mixed_world, inr (NotesResponse.mk [d])) /\
      dict_get "id" d = Some (VStr demo_id)) /\
  get_project_stats "demo" demo_env mixed_world
  = (mixed_world, inr (StatsResponse.mk 1 "demo")) /\
  (exists d,
      get_file_notes "demo" "a.py" demo_env mixed_world
      = (mixed_world, inr (NotesResponse.mk [d])) /\
      dict_get "id" d = Some (VStr demo_id_later)).
Proof.
  split; [| split; [| split]].
  - do 2 eexists. repeat split.
  - eexists. split; [vm_compute; reflexivity | reflexivity].
  - vm_compute. reflexivity.
  - eexists. split; [vm_compute; reflexivity | reflexivity].
Qed.

(** ** The theorems at work on the scenarios *)

Lemma demo_env_reads_clock (k : nat) :
  read_timestamp demo_env (isoformat (clock demo_env k)) = Some (clock demo_env k).
Proof. apply timestamp_in_isoformat. apply demo_clock_valid. Defined.

Lemma created_world_names_demo_id : names_note (db created_world) demo_id.
Proof. eexists. split; [left; reflexivity | reflexivity]. Defined.

Lemma created_world_lacks_absent_id : ~ names_note (db created_world) absent_id.
Proof. intros (n & [<- | []] & H). discriminate H. Defined.

Lemma demo_update_fits : fits_columns demo_update.
Proof.
  split; [cbn; lia |]. split; [| split].
  - intros s H. injection H as <-. vm_compute. lia.
  - intros s H. injection H as <-. vm_compute. lia.
  - vm_compute. lia.
Defined.

(** C5, the claim as it stands: text that is no UUID names no note, and
    [update_note] answers it with 500, not 404; and with the application's
    clock ahead of the store's, the update of a note just created puts an
    earlier time under [updated_at], not a later one. *)
Lemma update_note_not_always_forward :
  snd (update_note "missing" demo_update demo_env created_world)
  = inl (HTTPException 500 ("invalid input syntax for type uuid: "
                            +++ dquote +++ "missing" +++ dquote)) /\
  exists n n' t t',
    notes (db skewed_world) = [n] /\
    snd (update_note demo_id demo_update skewed_env skewed_world)
    = inr (VDict [("note", VDict (ScrewNote.dict (ScrewNote.set_id demo_id demo_update)))]) /\
    notes (db (fst (update_note demo_id demo_update skewed_env skewed_world))) = [n'] /\
    Notes.id n = demo_id /\ Notes.id n' = demo_id /\
    Notes.updated_at n = Some t /\ Notes.updated_at n' = Some t' /\
    dt_ltb t t' = false /\ dt_ltb t' t = true.
Proof.
  split; [vm_compute; reflexivity |].
  do 4 eexists. repeat split.
Qed.

Lemma update_note_effect_witness :
  uuid_in "missing" = None /\
  uuid_in absent_id = Some absent_id /\
  uuid_in demo_id_braced = Some demo_id /\
  fits_columns demo_update /\
  (exists e, snd (update_note "missing" demo_update demo_env created_world) = inl e /\
             response_status e = 500) /\
  (snd (update_note absent_id demo_update demo_env created_world)
   = inl (HTTPException 404 "Note not found") /\
   db (fst (update_note absent_id demo_update demo_env created_world)) = db created_world) /\
  ((exists resp,
       snd (update_note demo_id_braced demo_update demo_env created_world) = inr resp) /\
   projects (db (fst (update_note demo_id_braced demo_update demo_env created_world)))
   = projects (db created_world) /\
   replies (db (fst (update_note demo_id_braced demo_update demo_env created_world)))
   = replies (db created_world) /\
   Forall2 (fun n n' =>
              if String.eqb (Notes.id n) demo_id
              then updated_from demo_update n n' /\
                   Notes.updated_at n'
                   = Some (clock demo_env (clock_reads created_world))
              else n' = n)
           (notes (db created_world))
           (notes (db (fst (update_note demo_id_braced demo_update demo_env
                              created_world))))).
Proof.
  split; [reflexivity |]. split; [reflexivity |]. split; [reflexivity |].
  split; [exact demo_update_fits |].
  split; [| split].
  - apply (proj1 (proj2 (update_note_effect demo_env created_world "missing" demo_update))).
    reflexivity.
  - pose proof (proj1 (proj2 (proj2 (update_note_effect demo_env created_world absent_id
                                       demo_update))
                          absent_id eq_refl demo_update_fits)
                  created_world_lacks_absent_id) as H404.
    split; [exact H404 |].
    exact (proj1 (update_note_effect demo_env created_world absent_id demo_update)
             _ H404).
  - apply (proj2 (proj2 (proj2 (update_note_effect demo_env created_world demo_id_braced
                                  demo_update))
                     demo_id eq_refl demo_update_fits)).
    exact created_world_names_demo_id.
Defined.

Lemma update_note_echoes_body_witness :
  exists d,
    VDict [("note", VDict (ScrewNote.dict (ScrewNote.set_id demo_id demo_update)))]
    = VDict [("note", VDict d)] /\
    dict_get "id" d = Some (VStr demo_id) /\
    (forall k, k <> "id" -> dict_get k d = dict_get k (ScrewNote.dict demo_update)) /\
    dict_get "timestamp" d = Some (of_opt_str (ScrewNote.timestamp demo_update)) /\
    dict_get "user_id" d = Some (VStr (ScrewNote.user_id demo_update)) /\
    dict_get "project_name" d = Some (VStr (ScrewNote.project_name demo_update)) /\
    dict_get "updated_at" d = None.
Proof.
  apply (update_note_echoes_body demo_env created_world demo_id demo_update
           (fst (update_note demo_id demo_update demo_env created_world))).
  reflexivity.
Defined.

(** C6, the claim as it stands: text that is no UUID names no note, and
    [create_reply] answers it with 500, not 404. *)
Lemma create_reply_missing_is_500 :
  ~ names_note (db created_world) "missing" /\
  create_reply "missing" demo_reply demo_env created_world
  = (created_world,
     inl (HTTPException 500 ("invalid input syntax for type uuid: "
                             +++ dquote +++ "missing" +++ dquote))).
Proof.
  split; [| vm_compute; reflexivity].
  intros (n & [<- | []] & H). discriminate H.
Qed.

Lemma create_reply_effect_witness :
  uuid_in "missing" = None /\
  uuid_in absent_id = Some absent_id /\
  uuid_in demo_id_braced = Some demo_id /\
  (exists e, snd (create_reply "missing" demo_reply demo_env created_world) = inl e /\
             response_status e = 500 /\
             db (fst (create_reply "missing" demo_reply demo_env created_world))
             = db created_world) /\
  (snd (create_reply absent_id demo_reply demo_env created_world)
   = inl (HTTPException 404 "Parent note not found") /\
   db (fst (create_reply absent_id demo_reply demo_env created_world))
   = db created_world) /\
  (exists reply_id reply_timestamp,
     snd (create_reply demo_id_braced demo_reply demo_env created_world)
     = inr (VDict [("reply",
                    VDict (ScrewReply.dict
                             (ScrewReply.mk (Some reply_id) (ScrewReply.parent_id demo_reply)
                                (ScrewReply.author demo_reply) (Some reply_timestamp)
                                (ScrewReply.comment demo_reply)
                                (ScrewReply.user_id demo_reply))))]) /\
     replies (db (fst (create_reply demo_id_braced demo_reply demo_env created_world)))
     = replies (db created_world)
       ++ [Replies.mk reply_id demo_id (ScrewReply.author demo_reply)
             (ScrewReply.user_id demo_reply) reply_timestamp
             (ScrewReply.comment demo_reply)] /\
     notes (db (fst (create_reply demo_id_braced demo_reply demo_env created_world)))
     = notes (db created_world) /\
     projects (db (fst (create_reply demo_id_braced demo_reply demo_env created_world)))
     = projects (db created_world) /\
     (ScrewReply.id demo_reply = None ->
      reply_id = uuid_str (uuid_source demo_env (uuid_draws created_world))) /\
     (forall r, ScrewReply.id demo_reply = Some r -> r <> EmptyString -> reply_id = r) /\
     (ScrewReply.timestamp demo_reply = None ->
      reply_timestamp = isoformat (clock demo_env (clock_reads created_world))) /\
     (forall t, ScrewReply.timestamp demo_reply = Some t -> t <> EmptyString ->
                reply_timestamp = t)).
Proof.
  split; [reflexivity |]. split; [reflexivity |]. split; [reflexivity |].
  split; [| split].
  - apply (proj1 (create_reply_effect demo_env created_world "missing" demo_reply)).
    reflexivity.
  - apply (proj1 (proj2 (create_reply_effect demo_env created_world absent_id demo_reply)
                    absent_id eq_refl)).
    exact created_world_lacks_absent_id.
  - apply (proj2 (proj2 (create_reply_effect demo_env created_world demo_id_braced
                           demo_reply)
                    demo_id eq_refl)).
    exact created_world_names_demo_id.
Defined.

(** The rows stored for a note that brings its own identifier (in upper
    case), user, timestamp and state, and for a note that brings none. *)
Lemma demo_rows_stored (ud cr : nat) (rows : list Notes.row) :
  stored_all demo_env "demo" ud cr [demo_note_data_full; demo_note_data] rows ->
  exists row1 row2,
    rows = [row1; row2] /\
    Notes.id row1 = "0f0e0d0c-0b0a-4908-8706-050403020100" /\
    Notes.user_id row1 = Some "bob@example.org" /\
    Notes.timestamp row1 = Some (mkDatetime 2023 12 31 23 59 59 0) /\
    Notes.state row1 = Some "vulnerable" /\
    Notes.file_path row1 = Some "b.py" /\
    Notes.id row2 = uuid_str (uuid_source demo_env (S ud)) /\
    Notes.user_id row2 = Some "alice" /\
    Notes.timestamp row2 = Some (clock demo_env (S (S cr))) /\
    Notes.state row2 = Some "todo" /\
    Notes.file_path row2 = Some "a.py".
Proof.
  intros Hall.
  destruct rows as [| row1 rows]; [contradiction |].
  destruct rows as [| row2 rows]; [destruct Hall as [_ []] |].
  destruct rows as [| row3 rows]; [| destruct Hall as (_ & _ & [])].
  destruct Hall as (H1 & H2 & _).
  exists row1, row2. split; [reflexivity |].
  destruct H1 as (Hid1 & Hu1 & Ht1 & Hs1 & _ & Hf1 & _).
  destruct H2 as (Hid2 & Hu2 & Ht2 & Hs2 & _ & Hf2 & _ & Hau2 & _).
  change (exists s, VStr "0F0E0D0C-0B0A-4908-8706-050403020100" = VStr s /\
                    uuid_in s = Some (Notes.id row1)) in Hid1.
  change (VStr "bob@example.org" = of_opt_str (Notes.user_id row1)) in Hu1.
  change (exists t, timestamp_in "2023-12-31T23:59:59" = Some t /\
                    Notes.timestamp row1 = Some t) in Ht1.
  change (VStr "vulnerable" = of_opt_str (Notes.state row1)) in Hs1.
  change (Some (VStr "b.py") = Some (of_opt_str (Notes.file_path row1))) in Hf1.
  change (Notes.id row2 = uuid_str (uuid_source demo_env (S ud))) in Hid2.
  change (Notes.user_id row2 = Notes.author row2) in Hu2.
  change (Notes.timestamp row2 = Some (clock demo_env (S (S cr)))) in Ht2.
  change (Notes.state row2 = Some "todo") in Hs2.
  change (Some (VStr "a.py") = Some (of_opt_str (Notes.file_path row2))) in Hf2.
  change (Some (VStr "alice") = Some (of_opt_str (Notes.author row2))) in Hau2.
  destruct Hid1 as (s & Hs & Hin). injection Hs as <-.
  destruct Ht1 as (t & Hread & Ht1).
  change (Some "0f0e0d0c-0b0a-4908-8706-050403020100" = Some (Notes.id row1)) in Hin.
  change (Some (mkDatetime 2023 12 31 23 59 59 0) = Some t) in Hread.
  injection Hf1 as Hf1. injection Hf2 as Hf2. injection Hau2 as Hau2.
  repeat split.
  - congruence.
  - apply of_opt_str_inj. symmetry. exact Hu1.
  - congruence.
  - apply of_opt_str_inj. symmetry. exact Hs1.
  - apply of_opt_str_inj. symmetry. exact Hf1.
  - exact Hid2.
  - rewrite Hu2. apply of_opt_str_inj. symmetry. exact Hau2.
  - exact Ht2.
  - exact Hs2.
  - apply of_opt_str_inj. symmetry. exact Hf2.
Defined.

(** The replacement of the notes of ["demo"], on the store with the
    created note, by these two notes. *)
Lemma replace_all_notes_stores_witness :
  exists row1 row2,
    notes (db (fst (replace_all_notes "demo"
                      [("notes", [demo_note_data_full; demo_note_data])]
                      demo_env created_world)))
    = notes (db created_world) ++ [row1; row2] /\
    Notes.id row1 = "0f0e0d0c-0b0a-4908-8706-050403020100" /\
    Notes.user_id row1 = Some "bob@example.org" /\
    Notes.timestamp row1 = Some (mkDatetime 2023 12 31 23 59 59 0) /\
    Notes.state row1 = Some "vulnerable" /\
    Notes.id row2 = uuid_str (uuid_source demo_env (S (uuid_draws created_world))) /\
    Notes.user_id row2 = Some "alice" /\
    Notes.timestamp row2
    = Some (clock demo_env (S (S (clock_reads created_world)))) /\
    Notes.state row2 = Some "todo".
Proof.
  destruct (replace_all_notes_stores demo_env created_world "demo"
              [demo_note_data_full; demo_note_data]
              (fst (replace_all_notes "demo"
                      [("notes", [demo_note_data_full; demo_note_data])]
                      demo_env created_world))
              (VDict [("success", VBool true); ("count", VInt 2)])
              demo_env_reads_clock ltac:(vm_compute; reflexivity))
    as (rows & Hnotes & Hall).
  destruct (demo_rows_stored _ _ _ Hall)
    as (row1 & row2 & -> & Hi1 & Hu1 & Ht1 & Hs1 & _ & Hi2 & Hu2 & Ht2 & Hs2 & _).
  exists row1, row2. split; [exact Hnotes |]. repeat split; assumption.
Defined.

(** Two notes of project ["demo"], the first with a reply: the listing
    returns the second note with an empty list of replies and the first
    with a list of one, and the lookup of the second note returns it with
    an empty list; the file and line listings of the replaced note return
    it with an empty list. *)
Lemma replies_never_absent_witness :
  (exists d2 d1 r,
      get_project_notes "demo" demo_env replied_world
      = (replied_world, inr (NotesResponse.mk [d2; d1])) /\
      dict_get "id" d2 = Some (VStr demo_id_later) /\
      dict_get "replies" d2 = Some (VList []) /\
      dict_get "id" d1 = Some (VStr demo_id) /\
      dict_get "replies" d1 = Some (VList [r])) /\
  (exists d,
      get_file_notes "demo" "a.py" demo_env replaced_world
      = (replaced_world, inr (NotesResponse.mk [d])) /\
      dict_get "replies" d = Some (VList [])) /\
  (exists d,
      get_line_notes "demo" "a.py" 10 demo_env replaced_world
      = (replaced_world, inr (NotesResponse.mk [d])) /\
      dict_get "replies" d = Some (VList [])) /\
  (exists d,
      get_note_by_id demo_id_later demo_env replied_world
      = (replied_world, inr (VDict [("note", VDict d)])) /\
      dict_get "replies" d = Some (VList [])).
Proof.
  split; [| split; [| split]].
  - destruct (proj1 (replies_never_absent demo_env replied_world) "demo")
      as (ns & ds & Hrun & _ & Hall).
    assert (Hds : exists d2 d1, ds = [d2; d1] /\
                                dict_get "id" d2 = Some (VStr demo_id_later) /\
                                dict_get "id" d1 = Some (VStr demo_id)).
    { vm_compute in Hrun. injection Hrun as <-. do 2 eexists. repeat split. }
    destruct Hds as (d2 & d1 & -> & Hid2 & Hid1).
    inversion Hall as [| n2 ? ns1 ? H2 Hall1]; subst.
    inversion Hall1 as [| n1 ? ns0 ? H1 Hall0]; subst.
    destruct H2 as (Hn2 & _ & Hempty). destruct H1 as (Hn1 & (l & Hl & Hlen) & _).
    rewrite Hid2 in Hn2. injection Hn2 as Hn2.
    rewrite Hid1 in Hn1. injection Hn1 as Hn1.
    rewrite <- Hn2 in Hempty. rewrite <- Hn1 in Hlen.
    destruct l as [| r [| r' l]]; try discriminate Hlen.
    exists d2, d1, r. split; [exact Hrun |].
    repeat split; auto.
  - destruct (proj1 (proj2 (replies_never_absent demo_env replaced_world)) "demo" "a.py")
      as (ns & ds & Hrun & _ & Hall).
    assert (Hds : exists d, ds = [d] /\ dict_get "id" d = Some (VStr demo_id)).
    { vm_compute in Hrun. injection Hrun as <-. eexists. repeat split. }
    destruct Hds as (d & -> & Hid).
    inversion Hall as [| n ? ns0 ? H Hall0]; subst.
    destruct H as (Hn & _ & Hempty).
    rewrite Hid in Hn. injection Hn as Hn. rewrite <- Hn in Hempty.
    exists d. split; [exact Hrun | auto].
  - destruct (proj1 (proj2 (proj2 (replies_never_absent demo_env replaced_world)))
                "demo" "a.py" 10)
      as (ns & ds & Hrun & _ & Hall).
    assert (Hds : exists d, ds = [d] /\ dict_get "id" d = Some (VStr demo_id)).
    { vm_compute in Hrun. injection Hrun as <-. eexists. repeat split. }
    destruct Hds as (d & -> & Hid).
    inversion Hall as [| n ? ns0 ? H Hall0]; subst.
    destruct H as (Hn & _ & Hempty).
    rewrite Hid in Hn. injection Hn as Hn. rewrite <- Hn in Hempty.
    exists d. split; [exact Hrun | auto].
  - destruct (proj2 (proj2 (proj2 (replies_never_absent demo_env replied_world)))
                demo_id_later demo_id_later eq_refl)
      as (n & d & _ & Hid & Hrun & _ & _ & Hempty).
    { eexists. split; [right; left; reflexivity | reflexivity]. }
    exists d. split; [exact Hrun |]. apply Hempty. rewrite Hid. reflexivity.
Defined.

(** ** The key constraints hold throughout *)

Lemma preserves_ret {A} (a : A) : preserves (ret a).
Proof. intros E w H. exact H. Qed.

Lemma preserves_raise {A} (e : exn) : preserves (@raise A e).
Proof. intros E w H. exact H. Qed.

Lemma preserves_lift {A} (r : Result A) : preserves (lift r).
Proof. intros E w H. exact H. Qed.

Lemma preserves_query {A} (q : Database -> A) : preserves (query q).
Proof. intros E w H. exact H. Qed.

Lemma preserves_query_checked {A} (q : Database -> Result A) :
  preserves (query_checked q).
Proof. intros E w H. exact H. Qed.

Lemma preserves_ask : preserves ask.
Proof. intros E w H. exact H. Qed.

Lemma preserves_datetime_now : preserves datetime_now.
Proof. intros E w H. exact H. Qed.

Lemma preserves_uuid4 : preserves uuid4.
Proof. intros E w H. exact H. Qed.

Lemma preserves_bind {A B} (m : M A) (f : A -> M B) :
  preserves m -> (forall a, preserves (f a)) -> preserves (bind m f).
Proof.
  intros Hm Hf E w H. specialize (Hm E w H). cbn [bind Monad_M].
  destruct (m E w) as [w1 [e | a]]; [exact Hm |]. apply Hf. exact Hm.
Qed.

Lemma preserves_try_except {A} (body : M A) (handler : exn -> M A) :
  preserves body -> (forall e, preserves (handler e)) ->
  preserves (try_except body handler).
Proof.
  intros Hb Hh E w H. specialize (Hb E w H). unfold try_except.
  destruct (body E w) as [w1 [e | a]]; [| exact Hb]. apply Hh. exact Hb.
Qed.

Lemma preserves_execute {A} (stmt : Database -> Database * A) :
  (forall d, store_ok d -> store_ok (fst (stmt d))) -> preserves (execute stmt).
Proof.
  intros Hs E w H. specialize (Hs (db w) H). unfold execute.
  destruct (stmt (db w)) as [d a]. exact Hs.
Qed.

Lemma preserves_execute_checked {A} (stmt : Database -> Result (Database * A)) :
  (forall d d' a, store_ok d -> stmt d = inr (d', a) -> store_ok d') ->
  preserves (execute_checked stmt).
Proof.
  intros Hs E w H. unfold execute_checked.
  destruct (stmt (db w)) as [e | [d a]] eqn:Hstmt; [exact H |].
  exact (Hs _ _ _ H Hstmt).
Qed.

Lemma preserves_for_each {A} (l : list A) (body : A -> M unit) :
  (forall a, preserves (body a)) -> preserves (for_each l body).
Proof.
  intros Hb. induction l as [| a l IH]; cbn [for_each].
  - apply preserves_ret.
  - apply preserves_bind; [apply Hb | intros _; exact IH].
Qed.

Lemma preserves_internal_error {A} (e : exn) : preserves (@internal_error A e).
Proof. apply preserves_raise. Qed.

Lemma preserves_reraise_if {A} (marker : string) (e : exn) :
  preserves (@reraise_if A marker e).
Proof. unfold reraise_if. destruct (str_in _ _); apply preserves_raise. Qed.

Lemma insert_project_ok (name : string) (path : option string) (d d' : Database) (i : Z) :
  store_ok d -> insert_project name path d = inr (d', i) -> store_ok d'.
Proof.
  intros (Hnd & Hlt & Hn) H. unfold insert_project in H.
  destruct (existsb _ _); [discriminate |]. injection H as <- <-.
  unfold store_ok. cbn [projects notes projects_id_seq]. repeat split.
  - rewrite map_app. cbn [map Projects.id].
    apply NoDup_app; [exact Hnd | repeat constructor; intros [] |].
    intros x Hx [<- | []]. apply in_map_iff in Hx. destruct Hx as (p & Hp & Hin).
    rewrite Forall_forall in Hlt. specialize (Hlt p Hin). lia.
  - apply Forall_app. split.
    + eapply Forall_impl; [| exact Hlt]. cbn. intros p Hp. lia.
    + repeat constructor. cbn. lia.
  - exact Hn.
Qed.

Lemma insert_project_do_nothing_ok (name : string) (d : Database) :
  store_ok d -> store_ok (insert_project_do_nothing name d).
Proof.
  intros H. unfold insert_project_do_nothing.
  destruct (insert_project name None d) as [e | [d' i]] eqn:Hins.
  - destruct H as (Hnd & Hlt & Hn). unfold store_ok. cbn [projects notes projects_id_seq].
    repeat split; auto.
    eapply Forall_impl; [| exact Hlt]. cbn. intros p Hp. lia.
  - exact (insert_project_ok _ _ _ _ _ H Hins).
Qed.

Lemma existsb_note_has_id (i : string) (ns : list Notes.row) :
  existsb (note_has_id i) ns = false -> ~ In i (map Notes.id ns).
Proof.
  intros H Hin. apply in_map_iff in Hin. destruct Hin as (n & Hid & Hin).
  assert (Ht : existsb (note_has_id i) ns = true).
  { apply existsb_exists. exists n. split; [exact Hin |].
    apply String.eqb_eq. exact Hid. }
  congruence.
Qed.

Lemma insert_note_ok (n : Notes.row) (d d' : Database) :
  store_ok d -> insert_note n d = inr d' -> store_ok d'.
Proof.
  intros (Hnd & Hlt & Hn) H. unfold insert_note in H.
  destruct (existsb (note_has_id (Notes.id n)) (notes d)) eqn:He; [discriminate |].
  assert (Hd' : d' = set_notes d (notes d ++ [n])).
  { destruct (Notes.project_id n); [destruct (existsb _ (projects d)) |]; congruence. }
  subst d'. unfold store_ok. cbn [set_notes projects notes projects_id_seq].
  repeat split; auto.
  rewrite map_app. cbn [map].
  apply NoDup_app; [exact Hn | repeat constructor; intros [] |].
  intros x Hx [<- | []]. exact (existsb_note_has_id _ _ He Hx).
Qed.

Lemma NoDup_map_filter {A B} (f : A -> B) (q : A -> bool) (l : list A) :
  NoDup (map f l) -> NoDup (map f (filter q l)).
Proof.
  induction l as [| a l IH]; simpl; intros H; [constructor |].
  apply NoDup_cons_iff in H. destruct H as [Hnotin H].
  destruct (q a); simpl; [| auto].
  constructor; [| auto]. intros Hin. apply Hnotin.
  apply in_map_iff in Hin. destruct Hin as (x & Hx & Hin).
  apply filter_In in Hin. apply in_map_iff. exists x. tauto.
Qed.

Lemma delete_notes_ok (project_name : string) (d : Database) :
  store_ok d -> store_ok (fst (delete_notes_where_project_name project_name d)).
Proof.
  intros (Hnd & Hlt & Hn). unfold store_ok, delete_notes_where_project_name.
  cbn [fst set_notes projects notes projects_id_seq]. repeat split; auto.
  apply NoDup_map_filter. exact Hn.
Qed.

Lemma update_notes_ok (set : Notes.row -> Notes.row) (note_id : string) (d : Database) :
  (forall n, Notes.id (set n) = Notes.id n) ->
  store_ok d -> store_ok (fst (update_notes_where_id set note_id d)).
Proof.
  intros Hset (Hnd & Hlt & Hn). unfold store_ok, update_notes_where_id.
  cbn [fst set_notes projects notes projects_id_seq]. repeat split; auto.
  rewrite map_map.
  erewrite map_ext; [exact Hn |].
  intros n. cbn. destruct (note_has_id note_id n); [apply Hset | reflexivity].
Qed.

Lemma insert_reply_ok (r : Replies.row) (d : Database) :
  store_ok d -> store_ok (insert_reply r d).
Proof. intros H. exact H. Qed.

Lemma preserves_create_note (note : ScrewNote.t) : preserves (create_note note).
Proof.
  unfold create_note.
  apply preserves_try_except; [| intros; apply preserves_internal_error].
  apply preserves_bind; [apply preserves_query | intros project_row].
  apply preserves_bind.
  { destruct project_row; [apply preserves_ret |].
    apply preserves_execute_checked. intros d d' a. apply insert_project_ok. }
  intros project_id.
  apply preserves_bind; [apply preserves_datetime_now | intros timestamp].
  apply preserves_bind; [apply preserves_datetime_now | intros updated_at].
  apply preserves_bind; [| intros; apply preserves_ret].
  unfold insert_created_note.
  apply preserves_bind; [apply preserves_uuid4 | intros u].
  apply preserves_bind; [apply preserves_datetime_now | intros created_at].
  apply preserves_execute_checked. intros d d' a Hok H.
  cbn [bind ret Monad_Result] in H.
  match type of H with
  | context [check_note_columns ?a ?b ?c ?d] =>
      destruct (check_note_columns a b c d) as [e0 | []]; [discriminate |]
  end.
  match type of H with
  | context [insert_note ?n d] =>
      destruct (insert_note n d) as [e | d1] eqn:Hins; [discriminate |]
  end.
  injection H as <- _. exact (insert_note_ok _ _ _ Hok Hins).
Qed.

Lemma preserves_update_note (note_id : string) (note : ScrewNote.t) :
  preserves (update_note note_id note).
Proof.
  unfold update_note.
  apply preserves_try_except; [| intros; apply preserves_reraise_if].
  apply preserves_bind.
  - unfold update_note_row.
    apply preserves_bind; [apply preserves_datetime_now | intros now].
    apply preserves_execute_checked. intros d d' a Hok H.
    cbn [bind Monad_Result] in H.
    destruct (check_note_columns _ _ _ _) as [e | []]; [discriminate |].
    apply with_uuid_inr in H. destruct H as (i & _ & H).
    pose proof (update_notes_ok
                  (update_set (ScrewNote.file_path note) (ScrewNote.line_number note)
                     (ScrewNote.author note) (ScrewNote.comment note)
                     (ScrewNote.description note) (ScrewNote.cwe note)
                     (ScrewNote.state note) (ScrewNote.severity note)
                     (ScrewNote.source note) now)
                  i d (fun n => eq_refl) Hok) as Hd.
    rewrite <- H in Hd. exact Hd.
  - intros rowcount. destruct (rowcount =? 0); [apply preserves_raise | apply preserves_ret].
Qed.

Lemma preserves_clear_project_notes (project_name : string) :
  preserves (clear_project_notes project_name).
Proof.
  unfold clear_project_notes.
  apply preserves_try_except; [| intros; apply preserves_internal_error].
  apply preserves_bind; [| intros; apply preserves_ret].
  apply preserves_execute. intros d. apply delete_notes_ok.
Qed.

Lemma preserves_create_reply (parent_id : string) (reply : ScrewReply.t) :
  preserves (create_reply parent_id reply).
Proof.
  unfold create_reply.
  apply preserves_try_except; [| intros; apply preserves_reraise_if].
  apply preserves_bind; [apply preserves_query_checked | intros [p |]];
    [| apply preserves_raise].
  apply preserves_bind.
  { destruct (falsy_opt_str _); [| apply preserves_ret].
    apply preserves_bind; [apply preserves_uuid4 | intros; apply preserves_ret]. }
  intros reply_id.
  apply preserves_bind.
  { destruct (falsy_opt_str _); [| apply preserves_ret].
    apply preserves_bind; [apply preserves_datetime_now | intros; apply preserves_ret]. }
  intros reply_timestamp. cbv zeta.
  apply preserves_bind; [| intros; apply preserves_ret].
  apply preserves_execute_checked. intros d d' a Hok H.
  apply with_uuid_inr in H. destruct H as (i & _ & H). injection H as -> _.
  apply insert_reply_ok. exact Hok.
Qed.

Lemma preserves_replace_all_notes (project_name : string) (data : list (string * list dict)) :
  preserves (replace_all_notes project_name data).
Proof.
  unfold replace_all_notes.
  apply preserves_try_except; [| intros; apply preserves_internal_error].
  apply preserves_bind; [apply preserves_execute; intros d; apply delete_notes_ok |].
  intros _.
  apply preserves_bind;
    [apply preserves_execute; intros d; apply insert_project_do_nothing_ok |].
  intros _. cbv zeta.
  apply preserves_bind; [| intros; apply preserves_ret].
  apply preserves_for_each. intros note_data.
  apply preserves_bind.
  - unfold replace_parameters.
    repeat (apply preserves_bind;
            [first [apply preserves_uuid4 | apply preserves_datetime_now
                   | apply preserves_lift] | intros ?]).
    apply preserves_ret.
  - intros params. unfold insert_replaced_note.
    do 12 (destruct params as [| ? params]; try apply preserves_raise).
    apply preserves_bind; [apply preserves_datetime_now | intros now].
    apply preserves_bind; [apply preserves_ask | intros E'].
    apply preserves_bind; [apply preserves_lift | intros n].
    apply preserves_execute_checked. intros d d' a Hok H.
    cbn [bind ret Monad_Result] in H.
    destruct (insert_note n d) as [e | d1] eqn:Hins; [discriminate |].
    injection H as <- _. exact (insert_note_ok _ _ _ Hok Hins).
Qed.

Lemma preserves_serve (r : request) : preserves (serve r).
Proof.
  destruct r; cbn [serve].
  - apply preserves_create_note.
  - apply preserves_update_note.
  - apply preserves_clear_project_notes.
  - apply preserves_create_reply.
  - apply preserves_replace_all_notes.
Qed.

Lemma empty_database_ok : store_ok empty_database.
Proof. repeat split; constructor. Qed.

(** Whatever requests are served from the empty store on, the key
    constraints hold; project keys in particular are distinct. *)
Lemma serve_all_ok (E : Env) (rs : list request) :
  store_ok (db (serve_all E rs empty_world)).
Proof.
  unfold serve_all.
  assert (H : store_ok (db empty_world)) by exact empty_database_ok.
  revert H. generalize empty_world.
  induction rs as [| r rs IH]; intros w H; cbn [fold_left]; [exact H |].
  apply IH. apply preserves_serve. exact H.
Qed.

(** ** Deleting notes *)

Lemma delete_note_run E w note_id :
  delete_note note_id E w
  = match uuid_in note_id with
    | Some i =>
        (mkWorld (set_notes (db w) (filter (fun n => negb (note_has_id i n))
                                           (notes (db w))))
                 (clock_reads w) (uuid_draws w),
         match filter (note_has_id i) (notes (db w)) with
         | [] => inl (HTTPException 404 "Note not found")
         | _ :: _ => inr (VDict [("success", VBool true)])
         end)
    | None => (w, inl (reraised "Note not found" (uuid_syntax_error note_id)))
    end.
Proof.
  unfold delete_note, try_except, execute_checked, with_uuid, delete_notes_where_id.
  cbn [bind ret Monad_M db clock_reads uuid_draws].
  destruct (uuid_in note_id) as [i |].
  - cbn [db clock_reads uuid_draws].
    destruct (filter (note_has_id i) (notes (db w))); reflexivity.
  - unfold reraise_if, reraised, internal_error, raise.
    destruct (str_in _ _); reflexivity.
Qed.

Lemma filter_negb_none {A} (q : A -> bool) (l : list A) :
  filter q l = [] -> filter (fun a => negb (q a)) l = l.
Proof.
  induction l as [| a l IH]; simpl; [reflexivity |].
  destruct (q a); [discriminate |]. intros H. simpl. rewrite IH by exact H. reflexivity.
Qed.

Lemma filter_filter_negb {A} (q : A -> bool) (l : list A) :
  filter q (filter (fun a => negb (q a)) l) = [].
Proof.
  induction l as [| a l IH]; simpl; [reflexivity |].
  destruct (q a) eqn:Hq; simpl; [exact IH |]. rewrite Hq. exact IH.
Qed.

(** X1: [delete_note] under text that is no UUID answers 500 and leaves
    the store as it was.  Under a UUID that names no note it answers 404
    and leaves the store as it was; under the UUID of a stored note it
    answers success, removes the notes of that identifier and no other,
    and leaves the projects alone. *)
Theorem delete_note_effect E w note_id :
  (uuid_in note_id = None ->
   exists e, snd (delete_note note_id E w) = inl e /\ response_status e = 500 /\
             db (fst (delete_note note_id E w)) = db w) /\
  (forall i,
      uuid_in note_id = Some i ->
      (~ names_note (db w) i ->
       snd (delete_note note_id E w) = inl (HTTPException 404 "Note not found") /\
       db (fst (delete_note note_id E w)) = db w) /\
      (names_note (db w) i ->
       snd (delete_note note_id E w) = inr (VDict [("success", VBool true)]) /\
       notes (db (fst (delete_note note_id E w)))
       = filter (fun n => negb (String.eqb (Notes.id n) i)) (notes (db w)) /\
       projects (db (fst (delete_note note_id E w))) = projects (db w) /\
       ~ names_note (db (fst (delete_note note_id E w))) i)).
Proof.
  rewrite delete_note_run. split.
  - intros ->. eexists. split; [reflexivity |]. split; [apply reraised_status | reflexivity].
  - intros i ->. cbn [fst snd db]. split.
    + intros Hno.
      assert (Hf : filter (note_has_id i) (notes (db w)) = []).
      { destruct (filter (note_has_id i) (notes (db w))) eqn:Ef; [reflexivity |].
        exfalso. apply Hno. apply names_note_filter. rewrite Ef. discriminate. }
      rewrite Hf. split; [reflexivity |].
      rewrite filter_negb_none by exact Hf. apply set_notes_same.
    + intros Hyes. apply names_note_filter in Hyes.
      destruct (filter (note_has_id i) (notes (db w))) as [| n0 ns0] eqn:Ef;
        [congruence |].
      repeat split.
      intros Hstill. apply names_note_filter in Hstill. apply Hstill.
      cbn [notes set_notes]. apply filter_filter_negb.
Qed.

(** X2: once [delete_note] has run on a UUID, whatever it answered, a
    second [delete_note] and a [get_note_by_id] on it both answer 404;
    on text that is no UUID the three of them answer 500. *)
Theorem delete_note_then_not_found E w note_id :
  (forall i,
      uuid_in note_id = Some i ->
      snd (delete_note note_id E (fst (delete_note note_id E w)))
      = inl (HTTPException 404 "Note not found") /\
      snd (get_note_by_id note_id E (fst (delete_note note_id E w)))
      = inl (HTTPException 404 "Note not found")) /\
  (uuid_in note_id = None ->
   exists e1 e2 e3,
     snd (delete_note note_id E w) = inl e1 /\ response_status e1 = 500 /\
     snd (delete_note note_id E (fst (delete_note note_id E w))) = inl e2 /\
     response_status e2 = 500 /\
     snd (get_note_by_id note_id E (fst (delete_note note_id E w))) = inl e3 /\
     response_status e3 = 500).
Proof.
  rewrite get_note_by_id_run, !delete_note_run. split.
  - intros i ->. cbn [fst snd db notes set_notes].
    rewrite filter_filter_negb. split; reflexivity.
  - intros ->. cbn [fst snd]. do 3 eexists.
    repeat split; try reflexivity; apply reraised_status.
Qed.

(** ** Counting and clearing the notes of a project *)

Lemma get_project_stats_run E w project_name :
  get_project_stats project_name E w
  = (w, inr (StatsResponse.mk (count_notes_where_project_name project_name (db w))
                              project_name)).
Proof. reflexivity. Qed.

Lemma clear_project_notes_run E w project_name :
  clear_project_notes project_name E w
  = (mkWorld (set_notes (db w)
                (filter (fun n => negb (sql_str_eq (Notes.project_name n) project_name))
                        (notes (db w))))
             (clock_reads w) (uuid_draws w),
     inr (VDict [("success", VBool true);
                 ("deleted_count",
                  VInt (count_notes_where_project_name project_name (db w)))])).
Proof. reflexivity. Qed.

Lemma order_by_nil {A} (leb : A -> A -> bool) : order_by leb [] = [].
Proof. reflexivity. Qed.

Lemma sql_str_eq_true (col : option string) (param : string) :
  sql_str_eq col param = true -> col = Some param.
Proof.
  unfold sql_str_eq, opt_eqb. destruct col as [s |]; [| discriminate].
  intros H. apply String.eqb_eq in H. congruence.
Qed.

Lemma filter_other_project {A} (name : A -> option string) (p q : string) (keep : A -> bool)
    (l : list A) :
  p <> q ->
  (forall a, keep a = true -> sql_str_eq (name a) q = true) ->
  filter keep (filter (fun a => negb (sql_str_eq (name a) p)) l) = filter keep l.
Proof.
  intros Hpq Hkeep. induction l as [| a l IH]; simpl; [reflexivity |].
  destruct (sql_str_eq (name a) p) eqn:Hp; simpl.
  - destruct (keep a) eqn:Hk; [| exact IH].
    exfalso. apply Hkeep in Hk. apply sql_str_eq_true in Hk, Hp. congruence.
  - rewrite IH. reflexivity.
Qed.

(** X3: [clear_project_notes] always succeeds, and the [deleted_count] it
    answers is the [total_notes] that [get_project_stats] answered for the
    project just before; 0 for a project without notes. *)
Theorem clear_project_notes_count E w project_name :
  exists total,
    snd (get_project_stats project_name E w)
    = inr (StatsResponse.mk total project_name) /\
    snd (clear_project_notes project_name E w)
    = inr (VDict [("success", VBool true); ("deleted_count", VInt total)]) /\
    0 <= total /\
    (total = 0 -> db (fst (clear_project_notes project_name E w)) = db w).
Proof.
  exists (count_notes_where_project_name project_name (db w)).
  rewrite get_project_stats_run, clear_project_notes_run. cbn [fst snd db].
  repeat split.
  - unfold count_notes_where_project_name. lia.
  - unfold count_notes_where_project_name. intros H.
    assert (Hf : filter (fun n => sql_str_eq (Notes.project_name n) project_name)
                        (notes (db w)) = []).
    { destruct (filter _ (notes (db w))); [reflexivity | simpl in H; lia]. }
    rewrite (filter_negb_none _ _ Hf). apply set_notes_same.
Qed.

(** X4: after [clear_project_notes] the project has no note left for the
    handlers that go by [project_name]: the count is 0 and the file and
    line queries are empty. *)
Theorem clear_project_notes_empties E w project_name :
  let w' := fst (clear_project_notes project_name E w) in
  snd (get_project_stats project_name E w') = inr (StatsResponse.mk 0 project_name) /\
  (forall path,
      snd (get_file_notes project_name path E w') = inr (NotesResponse.mk [])) /\
  (forall path line,
      snd (get_line_notes project_name path line E w') = inr (NotesResponse.mk [])).
Proof.
  cbv zeta. rewrite clear_project_notes_run. cbn [fst].
  assert (Hnone : forall keep : Notes.row -> bool,
             (forall n, keep n = true ->
                        sql_str_eq (Notes.project_name n) project_name = true) ->
             filter keep
               (filter (fun n => negb (sql_str_eq (Notes.project_name n) project_name))
                       (notes (db w))) = []).
  { intros keep Hkeep. induction (notes (db w)) as [| n ns IH]; simpl; [reflexivity |].
    destruct (sql_str_eq (Notes.project_name n) project_name) eqn:Hp; simpl; [exact IH |].
    destruct (keep n) eqn:Hk; [| exact IH]. apply Hkeep in Hk. congruence. }
  repeat split.
  - rewrite get_project_stats_run. cbn [snd db].
    unfold count_notes_where_project_name. cbn [notes set_notes].
    rewrite Hnone by auto. reflexivity.
  - intros path. rewrite get_file_notes_run. cbn [snd db].
    unfold select_file_notes. cbn [notes set_notes].
    rewrite Hnone; [reflexivity |].
    intros n H. apply andb_prop in H. tauto.
  - intros path line. rewrite get_line_notes_run. cbn [snd db].
    unfold select_line_notes. cbn [notes set_notes].
    rewrite Hnone; [reflexivity |].
    intros n H. apply andb_prop in H. destruct H as [H _]. apply andb_prop in H. tauto.
Qed.

(** X5: [clear_project_notes] of one project changes nothing for another:
    its count, its file queries and its line queries answer as before. *)
Theorem clear_project_notes_spares_others E w project_name other :
  project_name <> other ->
  let w' := fst (clear_project_notes project_name E w) in
  snd (get_project_stats other E w') = snd (get_project_stats other E w) /\
  (forall path,
      snd (get_file_notes other path E w') = snd (get_file_notes other path E w)) /\
  (forall path line,
      snd (get_line_notes other path line E w')
      = snd (get_line_notes other path line E w)).
Proof.
  intros Hne. cbv zeta. rewrite clear_project_notes_run. cbn [fst].
  repeat split.
  - rewrite !get_project_stats_run. cbn [snd db].
    unfold count_notes_where_project_name. cbn [notes set_notes].
    rewrite (filter_other_project Notes.project_name project_name other); auto.
  - intros path. rewrite !get_file_notes_run. cbn [snd db].
    unfold select_file_notes, note_row_dict, replies_column, left_join_replies.
    cbn [notes replies set_notes].
    rewrite (filter_other_project Notes.project_name project_name other);
      [reflexivity | exact Hne |].
    intros n H. apply andb_prop in H. tauto.
  - intros path line. rewrite !get_line_notes_run. cbn [snd db].
    unfold select_line_notes, note_row_dict, replies_column, left_join_replies.
    cbn [notes replies set_notes].
    rewrite (filter_other_project Notes.project_name project_name other);
      [reflexivity | exact Hne |].
    intros n H. apply andb_prop in H. destruct H as [H _]. apply andb_prop in H. tauto.
Qed.

(** ** The file and line queries *)





(** ** Looking a note up by its identifier *)


(** ** Writing, then reading back *)

Lemma existsb_filter_nil {A} (q : A -> bool) (l : list A) :
  existsb q l = false -> filter q l = [].
Proof. rewrite existsb_filter. destruct (filter q l); [reflexivity | discriminate]. Qed.

Lemma create_note_row E w note w' resp :
  create_note note E w = (w', inr resp) ->
  exists project_id p,
    notes (db w')
    = notes (db w) ++ [created_row E (uuid_draws w) (clock_reads w) project_id note] /\
    replies (db w') = replies (db w) /\
    In p (projects (db w')) /\ Projects.id p = project_id /\
    Projects.name p = ScrewNote.project_name note /\
    filter (note_has_id (uuid_str (uuid_source E (uuid_draws w)))) (notes (db w)) = [] /\
    resp = VDict [("note",
                   VDict (ScrewNote.dict
                            (ScrewNote.set_id (uuid_str (uuid_source E (uuid_draws w)))
                               note)))].
Proof.
  intros H. unfold create_note in H. apply try_internal_error_inr in H.
  apply bind_M_inr in H. destruct H as (w1 & project_row & Hsel & H).
  unfold query in Hsel. injection Hsel as <- <-.
  apply bind_M_inr in H. destruct H as (w2 & project_id & Hproj & H).
  assert (Hp : exists p, In p (projects (db w2)) /\ Projects.id p = project_id /\
                         Projects.name p = ScrewNote.project_name note /\
                         notes (db w2) = notes (db w) /\
                         replies (db w2) = replies (db w) /\
                         uuid_draws w2 = uuid_draws w /\
                         clock_reads w2 = clock_reads w).
  { destruct (select_project_id (ScrewNote.project_name note) "/" (db w)) as [i |] eqn:Hs.
    - cbn [ret Monad_M] in Hproj. injection Hproj as <- <-.
      apply select_project_id_some in Hs. destruct Hs as (p & Hin & Hid & Hname).
      exists p. auto 10.
    - unfold execute_checked in Hproj.
      destruct (insert_project _ _ (db w)) as [e | [d' i]] eqn:Hins; [discriminate |].
      injection Hproj as <- <-.
      apply insert_project_inr in Hins. destruct Hins as (Hps & Hns & Hrs).
      exists (Projects.mk i (ScrewNote.project_name note) (Some "/")).
      cbn [db uuid_draws clock_reads]. rewrite Hps. repeat split; auto.
      apply in_or_app. right. left. reflexivity. }
  destruct Hp as (p & Hin & Hid & Hname & Hnotes & Hreplies & Hdraws & Hreads).
  unfold datetime_now in H. cbn [bind ret Monad_M db clock_reads uuid_draws] in H.
  unfold insert_created_note, uuid4, current_timestamp, datetime_now, execute_checked in H.
  cbn [bind ret Monad_M db clock_reads uuid_draws] in H.
  cbn [bind ret Monad_Result] in H.
  match type of H with
  | context [check_note_columns ?a ?b ?c ?d] =>
      destruct (check_note_columns a b c d) as [e0 | []]; [discriminate |]
  end.
  match type of H with
  | context [insert_note ?n (db w2)] =>
      destruct (insert_note n (db w2)) as [e | d'] eqn:Hins; [discriminate |]
  end.
  cbn [bind ret Monad_Result] in H. injection H as <- <-.
  unfold insert_note in Hins. cbn [Notes.id Notes.project_id] in Hins.
  destruct (existsb (note_has_id _) (notes (db w2))) eqn:Hfresh; [discriminate |].
  destruct (existsb (fun p => Projects.id p =? project_id) (projects (db w2)));
    [| discriminate].
  injection Hins as <-.
  exists project_id, p.
  cbn [db notes projects replies set_notes Notes.id].
  rewrite Hnotes, Hdraws, Hreads in *. unfold created_row.
  repeat split; auto.
  apply existsb_filter_nil. exact Hfresh.
Qed.

(** X9: a note [create_note] has stored is what [get_note_by_id] answers
    under the identifier of the response: the columns of the request
    body, the three clock readings of the creation as text, and NULL for
    [project_name] and [user_id], which the INSERT does not write. *)
Theorem create_note_then_get_by_id E w note w' resp :
  create_note note E w = (w', inr resp) ->
  exists new_id d,
    resp = VDict [("note", VDict (ScrewNote.dict (ScrewNote.set_id new_id note)))] /\
    new_id = uuid_str (uuid_source E (uuid_draws w)) /\
    get_note_by_id new_id E w' = (w', inr (VDict [("note", VDict d)])) /\
    dict_get "id" d = Some (VStr new_id) /\
    dict_get "file_path" d = Some (VStr (ScrewNote.file_path note)) /\
    dict_get "line_number" d = Some (VInt (ScrewNote.line_number note)) /\
    dict_get "author" d = Some (VStr (ScrewNote.author note)) /\
    dict_get "comment" d = Some (VStr (ScrewNote.comment note)) /\
    dict_get "description" d = Some (of_opt_str (ScrewNote.description note)) /\
    dict_get "cwe" d = Some (of_opt_str (ScrewNote.cwe note)) /\
    dict_get "state" d = Some (VStr (ScrewNote.state note)) /\
    dict_get "severity" d = Some (of_opt_str (ScrewNote.severity note)) /\
    dict_get "source" d = Some (VStr (ScrewNote.source note)) /\
    dict_get "timestamp" d = Some (VStr (isoformat (clock E (clock_reads w)))) /\
    dict_get "updated_at" d = Some (VStr (isoformat (clock E (S (clock_reads w))))) /\
    dict_get "project_name" d = Some VNone /\
    dict_get "user_id" d = Some VNone.
Proof.
  intros H. apply create_note_row in H.
  destruct H as (project_id & p & Hnotes & Hreplies & _ & _ & _ & Hfresh & Hresp).
  exists (uuid_str (uuid_source E (uuid_draws w))),
         (note_by_id_dict (db w')
            (created_row E (uuid_draws w) (clock_reads w) project_id note)).
  split; [exact Hresp |]. split; [reflexivity |].
  split.
  - rewrite get_note_by_id_run, uuid_in_uuid_str, Hnotes, filter_app, Hfresh.
    cbn [app filter].
    unfold note_has_id at 1, created_row at 1. cbn [Notes.id].
    rewrite String.eqb_refl. reflexivity.
  - unfold note_by_id_dict, note_row_dict. rewrite replies_column_value.
    repeat split; reflexivity.
Qed.

(** X10: a note [create_note] has stored is in what [get_project_notes]
    answers for the project of the request, under the identifier of the
    response and with the project's name. *)
Theorem create_note_then_listed E w note w' resp :
  create_note note E w = (w', inr resp) ->
  exists new_id ds d,
    resp = VDict [("note", VDict (ScrewNote.dict (ScrewNote.set_id new_id note)))] /\
    get_project_notes (ScrewNote.project_name note) E w'
    = (w', inr (NotesResponse.mk ds)) /\
    In d ds /\
    dict_get "id" d = Some (VStr new_id) /\
    dict_get "project_name" d = Some (VStr (ScrewNote.project_name note)).
Proof.
  intros H. apply create_note_row in H.
  destruct H as (project_id & p & Hnotes & _ & Hp & Hid & Hname & _ & Hresp).
  set (n := created_row E (uuid_draws w) (clock_reads w) project_id note) in *.
  eexists _, _, (project_note_dict (db w') (n, p)).
  split; [exact Hresp |].
  split; [apply get_project_notes_run |].
  destruct (project_note_dict_get (db w') (n, p)) as (H1 & _ & _ & H4 & _).
  cbn [fst snd] in H1, H4. rewrite Hname in H4.
  split; [| split; [exact H1 | exact H4]].
  apply in_map.
  eapply Permutation_in; [apply order_by_perm |].
  unfold join_projects. apply in_flat_map. exists n. split.
  - rewrite Hnotes. apply in_or_app. right. left. reflexivity.
  - apply in_map. apply filter_In. split; [exact Hp |].
    unfold n, created_row, sql_int_eq, opt_eqb, project_named. cbn [Notes.project_id].
    rewrite Hid, Z.eqb_refl, Hname, String.eqb_refl. reflexivity.
Qed.


Lemma filter_first_match {A} (q : A -> bool) (f : A -> A) (l : list A) (a : A)
    (rest : list A) :
  (forall x, q (f x) = q x) ->
  filter q l = a :: rest ->
  exists rest', filter q (map (fun x => if q x then f x else x) l) = f a :: rest'.
Proof.
  intros Hq. induction l as [| x l IH]; simpl; [discriminate |].
  destruct (q x) eqn:Hx.
  - intros H. injection H as -> _. rewrite Hq, Hx. eauto.
  - rewrite Hx. exact IH.
Qed.


(** X12: after a successful [update_note], [get_note_by_id] of the same
    identifier shows the note under its UUID as the store prints it, with
    the nine columns of the request body and, under [updated_at], the
    clock reading of the update. *)
Theorem update_note_then_get_by_id E w note_id note w' resp :
  update_note note_id note E w = (w', inr resp) ->
  exists i d,
    uuid_in note_id = Some i /\
    get_note_by_id note_id E w' = (w', inr (VDict [("note", VDict d)])) /\
    dict_get "id" d = Some (VStr i) /\
    dict_get "file_path" d = Some (VStr (ScrewNote.file_path note)) /\
    dict_get "line_number" d = Some (VInt (ScrewNote.line_number note)) /\
    dict_get "author" d = Some (VStr (ScrewNote.author note)) /\
    dict_get "comment" d = Some (VStr (ScrewNote.comment note)) /\
    dict_get "description" d = Some (of_opt_str (ScrewNote.description note)) /\
    dict_get "cwe" d = Some (of_opt_str (ScrewNote.cwe note)) /\
    dict_get "state" d = Some (VStr (ScrewNote.state note)) /\
    dict_get "severity" d = Some (of_opt_str (ScrewNote.severity note)) /\
    dict_get "source" d = Some (VStr (ScrewNote.source note)) /\
    dict_get "updated_at" d = Some (VStr (isoformat (clock E (clock_reads w)))).
Proof.
  rewrite update_note_run. intros H.
  destruct (check_note_columns _ _ _ _) as [e | []]; [discriminate |].
  destruct (uuid_in note_id) as [i |] eqn:Hi; [| discriminate].
  destruct (filter (note_has_id i) (notes (db w))) as [| n ns] eqn:Ef;
    [discriminate |].
  injection H as <- _.
  assert (Hid : Notes.id n = i).
  { assert (Hin : In n (filter (note_has_id i) (notes (db w))))
      by (rewrite Ef; left; reflexivity).
    apply filter_In in Hin. apply String.eqb_eq. tauto. }
  exists i. rewrite get_note_by_id_run, Hi. cbn [db notes set_notes].
  match goal with
  | |- context [map (fun n0 => if note_has_id i n0 then ?f n0 else n0)] =>
      destruct (filter_first_match (note_has_id i) f (notes (db w)) n ns
                  ltac:(reflexivity) Ef) as (rest & ->)
  end.
  eexists. split; [reflexivity |]. split; [reflexivity |].
  unfold note_by_id_dict, note_row_dict, update_set. rewrite replies_column_value.
  cbn [Notes.id Notes.timestamp Notes.created_at]. rewrite Hid.
  destruct (Notes.timestamp n), (Notes.created_at n); repeat split; reflexivity.
Qed.

(** ** What a request does to the other tables *)

Section Keeps.
Variable R : Database -> Database -> Prop.
Hypothesis R_refl : forall d, R d d.
Hypothesis R_trans : forall d1 d2 d3, R d1 d2 -> R d2 d3 -> R d1 d3.

Lemma keeps_pure {A} (m : M A) : (forall E w, db (fst (m E w)) = db w) -> keeps R m.
Proof. intros H E w. rewrite H. apply R_refl. Qed.

Lemma keeps_bind {A B} (m : M A) (f : A -> M B) :
  keeps R m -> (forall a, keeps R (f a)) -> keeps R (bind m f).
Proof.
  intros Hm Hf E w. specialize (Hm E w). cbn [bind Monad_M].
  destruct (m E w) as [w1 [e | a]]; [exact Hm |].
  eapply R_trans; [exact Hm | apply Hf].
Qed.

Lemma keeps_try_except {A} (body : M A) (handler : exn -> M A) :
  keeps R body -> (forall e, keeps R (handler e)) -> keeps R (try_except body handler).
Proof.
  intros Hb Hh E w. specialize (Hb E w). unfold try_except.
  destruct (body E w) as [w1 [e | a]]; [| exact Hb].
  eapply R_trans; [exact Hb | apply Hh].
Qed.

Lemma keeps_execute {A} (stmt : Database -> Database * A) :
  (forall d, R d (fst (stmt d))) -> keeps R (execute stmt).
Proof.
  intros Hs E w. specialize (Hs (db w)). unfold execute.
  destruct (stmt (db w)) as [d a]. exact Hs.
Qed.

Lemma keeps_execute_checked {A} (stmt : Database -> Result (Database * A)) :
  (forall d d' a, stmt d = inr (d', a) -> R d d') -> keeps R (execute_checked stmt).
Proof.
  intros Hs E w. unfold execute_checked.
  destruct (stmt (db w)) as [e | [d a]] eqn:Hstmt; [apply R_refl |].
  exact (Hs _ _ _ Hstmt).
Qed.

Lemma keeps_for_each {A} (l : list A) (body : A -> M unit) :
  (forall a, keeps R (body a)) -> keeps R (for_each l body).
Proof.
  intros Hb. induction l as [| a l IH]; cbn [for_each].
  - apply keeps_pure. reflexivity.
  - apply keeps_bind; [apply Hb | intros _; exact IH].
Qed.

Lemma keeps_reraise_if {A} (marker : string) (e : exn) : keeps R (@reraise_if A marker e).
Proof. unfold reraise_if. destruct (str_in _ _); apply keeps_pure; reflexivity. Qed.

Lemma keeps_replace_parameters (project_name : string) (note_data : dict) :
  keeps R (replace_parameters project_name note_data).
Proof.
  unfold replace_parameters.
  repeat (apply keeps_bind; [apply keeps_pure; reflexivity | intros ?]).
  apply keeps_pure. reflexivity.
Qed.

Lemma keeps_insert_replaced_note (params : list value) :
  (forall n d d', insert_note n d = inr d' -> R d d') ->
  keeps R (insert_replaced_note params).
Proof.
  intros Hins. unfold insert_replaced_note.
  do 12 (destruct params as [| ? params]; try (apply keeps_pure; reflexivity)).
  apply keeps_bind; [apply keeps_pure; reflexivity | intros now].
  apply keeps_bind; [apply keeps_pure; reflexivity | intros E'].
  apply keeps_bind; [apply keeps_pure; reflexivity | intros n].
  apply keeps_execute_checked. intros d d' a H.
  cbn [bind ret Monad_Result] in H.
  destruct (insert_note n d) as [e | d1] eqn:Hi; [discriminate |].
  injection H as <- _. exact (Hins _ _ _ Hi).
Qed.
End Keeps.

Lemma projects_kept_refl (d : Database) : projects_kept d d.
Proof. exists []. symmetry. apply app_nil_r. Qed.

Lemma projects_kept_same (d d' : Database) :
  projects d' = projects d -> projects_kept d d'.
Proof. intros H. exists []. rewrite app_nil_r. exact H. Qed.

Lemma projects_kept_trans (d1 d2 d3 : Database) :
  projects_kept d1 d2 -> projects_kept d2 d3 -> projects_kept d1 d3.
Proof.
  intros (a & Ha) (b & Hb). exists (a ++ b). rewrite Hb, Ha, app_assoc. reflexivity.
Qed.

Lemma projects_same_trans (d1 d2 d3 : Database) :
  projects_same d1 d2 -> projects_same d2 d3 -> projects_same d1 d3.
Proof. unfold projects_same. congruence. Qed.

Lemma insert_note_projects (n : Notes.row) (d d' : Database) :
  insert_note n d = inr d' -> projects d' = projects d.
Proof.
  unfold insert_note. destruct (existsb _ (notes d)); [discriminate |].
  destruct (Notes.project_id n); [destruct (existsb _ (projects d)) |];
    intros H; inversion H; reflexivity.
Qed.

Lemma insert_project_do_nothing_kept (name : string) (d : Database) :
  projects_kept d (insert_project_do_nothing name d).
Proof.
  unfold insert_project_do_nothing, insert_project.
  destruct (existsb _ _); [apply projects_kept_same; reflexivity |].
  eexists. reflexivity.
Qed.

(** X13: no request removes or changes a project row: after
    [create_note], [update_note], [delete_note], [clear_project_notes],
    [create_reply] or [replace_all_notes], whatever the outcome, the
    project rows of before are still there, in place. *)
Theorem projects_are_never_removed E w :
  (forall note, projects_kept (db w) (db (fst (create_note note E w)))) /\
  (forall note_id note, projects_kept (db w) (db (fst (update_note note_id note E w)))) /\
  (forall note_id, projects_kept (db w) (db (fst (delete_note note_id E w)))) /\
  (forall project_name,
      projects_kept (db w) (db (fst (clear_project_notes project_name E w)))) /\
  (forall parent_id reply,
      projects_kept (db w) (db (fst (create_reply parent_id reply E w)))) /\
  (forall project_name data,
      projects_kept (db w) (db (fst (replace_all_notes project_name data E w)))).
Proof.
  repeat split.
  - intros note. revert E w. change (keeps projects_kept (create_note note)).
    unfold create_note.
    apply (keeps_try_except _ projects_kept_trans); [| intros; apply (keeps_pure _ projects_kept_refl); reflexivity].
    apply (keeps_bind _ projects_kept_trans); [apply (keeps_pure _ projects_kept_refl); reflexivity | intros row].
    apply (keeps_bind _ projects_kept_trans).
    { destruct row; [apply (keeps_pure _ projects_kept_refl); reflexivity |].
      apply (keeps_execute_checked _ projects_kept_refl). intros d d' a H.
      apply insert_project_inr in H. destruct H as (H & _). eexists. exact H. }
    intros project_id.
    apply (keeps_bind _ projects_kept_trans); [apply (keeps_pure _ projects_kept_refl); reflexivity | intros t1].
    apply (keeps_bind _ projects_kept_trans); [apply (keeps_pure _ projects_kept_refl); reflexivity | intros t2].
    apply (keeps_bind _ projects_kept_trans); [| intros; apply (keeps_pure _ projects_kept_refl); reflexivity].
    unfold insert_created_note.
    apply (keeps_bind _ projects_kept_trans); [apply (keeps_pure _ projects_kept_refl); reflexivity | intros u].
    apply (keeps_bind _ projects_kept_trans); [apply (keeps_pure _ projects_kept_refl); reflexivity | intros t3].
    apply (keeps_execute_checked _ projects_kept_refl). intros d d' a H.
    cbn [bind ret Monad_Result] in H.
    match type of H with
    | context [check_note_columns ?a ?b ?c ?d] =>
        destruct (check_note_columns a b c d) as [e0 | []]; [discriminate |]
    end.
    match type of H with
    | context [insert_note ?n d] =>
        destruct (insert_note n d) as [e | d1] eqn:Hins; [discriminate |]
    end.
    injection H as <- _. exists []. rewrite app_nil_r.
    exact (insert_note_projects _ _ _ Hins).
  - intros note_id note. rewrite update_note_run. apply projects_kept_same.
    destruct (check_note_columns _ _ _ _) as [e | []]; [reflexivity |].
    destruct (uuid_in note_id); reflexivity.
  - intros note_id. rewrite delete_note_run. apply projects_kept_same.
    destruct (uuid_in note_id); reflexivity.
  - intros project_name. rewrite clear_project_notes_run. apply projects_kept_same. reflexivity.
  - intros parent_id reply. revert E w. change (keeps projects_kept (create_reply parent_id reply)).
    unfold create_reply.
    apply (keeps_try_except _ projects_kept_trans); [| intros; apply (keeps_reraise_if _ projects_kept_refl)].
    apply (keeps_bind _ projects_kept_trans); [apply (keeps_pure _ projects_kept_refl); reflexivity | intros [p |]];
      [| apply (keeps_pure _ projects_kept_refl); reflexivity].
    apply (keeps_bind _ projects_kept_trans).
    { destruct (falsy_opt_str _); apply (keeps_pure _ projects_kept_refl); reflexivity. }
    intros reply_id.
    apply (keeps_bind _ projects_kept_trans).
    { destruct (falsy_opt_str _); apply (keeps_pure _ projects_kept_refl); reflexivity. }
    intros reply_timestamp. cbv zeta.
    apply (keeps_bind _ projects_kept_trans); [| intros; apply (keeps_pure _ projects_kept_refl); reflexivity].
    apply (keeps_execute_checked _ projects_kept_refl). intros d d' a H.
    apply with_uuid_inr in H. destruct H as (i & _ & H). injection H as -> _.
    apply projects_kept_same. reflexivity.
  - intros project_name data. revert E w.
    change (keeps projects_kept (replace_all_notes project_name data)).
    unfold replace_all_notes.
    apply (keeps_try_except _ projects_kept_trans); [| intros; apply (keeps_pure _ projects_kept_refl); reflexivity].
    apply (keeps_bind _ projects_kept_trans);
      [apply keeps_execute; intros d; apply projects_kept_same; reflexivity
      | intros _].
    apply (keeps_bind _ projects_kept_trans);
      [apply keeps_execute; intros d; apply insert_project_do_nothing_kept |].
    intros _. cbv zeta.
    apply (keeps_bind _ projects_kept_trans); [| intros; apply (keeps_pure _ projects_kept_refl); reflexivity].
    apply (keeps_for_each _ projects_kept_refl projects_kept_trans). intros note_data.
    apply (keeps_bind _ projects_kept_trans);
      [apply (keeps_replace_parameters _ projects_kept_refl projects_kept_trans) |].
    intros params.
    apply (keeps_insert_replaced_note _ projects_kept_refl projects_kept_trans).
    intros n d d' H. apply projects_kept_same. exact (insert_note_projects _ _ _ H).
Qed.

(** ** More on replacing the notes of a project *)

Lemma bind_M_run {A B} (m : M A) (f : A -> M B) E w :
  bind m f E w
  = match m E w with
    | (w', inr a) => f a E w'
    | (w', inl e) => (w', inl e)
    end.
Proof. reflexivity. Qed.

Lemma replace_all_notes_run E w project_name data :
  replace_all_notes project_name data E w
  = match for_each (data_get_notes data) (replace_one project_name) E
            (mkWorld (insert_project_do_nothing project_name
                        (fst (delete_notes_where_project_name project_name (db w))))
                     (clock_reads w) (uuid_draws w)) with
    | (w', inr _) =>
        (w', inr (VDict [("success", VBool true);
                         ("count", VInt (Z.of_nat (List.length (data_get_notes data))))]))
    | (w', inl e) => (w', inl (HTTPException 500 (exn_str e)))
    end.
Proof.
  unfold replace_all_notes, try_except. rewrite bind_M_run.
  unfold execute at 1, delete_notes_where_project_name. cbv beta iota.
  rewrite bind_M_run. unfold execute at 1. cbv beta iota zeta.
  rewrite bind_M_run. cbn [db clock_reads uuid_draws fst].
  change (fun note_data : dict =>
            params <- replace_parameters project_name note_data ;;
            insert_replaced_note params)
    with (replace_one project_name).
  destruct (for_each (data_get_notes data) (replace_one project_name) E _)
    as [w' [e | []]]; reflexivity.
Qed.

Lemma for_each_app {A} (l1 l2 : list A) (body : A -> M unit) E w :
  for_each (l1 ++ l2) body E w
  = match for_each l1 body E w with
    | (w1, inr _) => for_each l2 body E w1
    | (w1, inl e) => (w1, inl e)
    end.
Proof.
  revert w. induction l1 as [| a l1 IH]; intros w; cbn [app for_each].
  - reflexivity.
  - rewrite !bind_M_run. destruct (body a E w) as [w1 [e | []]]; [reflexivity |].
    apply IH.
Qed.

Lemma replace_one_missing_file_path E w project_name note_data :
  dict_get "file_path" note_data = None ->
  replace_one project_name note_data E w
  = (mkWorld (db w) (clock_reads w) (S (uuid_draws w)), inl (KeyError "file_path")).
Proof.
  intros H. unfold replace_one, replace_parameters, uuid4, lift, dict_getitem.
  rewrite H. reflexivity.
Qed.

(** X14: [replace_all_notes] is not all-or-nothing.  When the supplied
    notes up to some point can be stored and the next one has no
    [file_path] key, the answer is 500 with the quoted key as detail,
    and the store is left as the replacement by the good notes alone
    leaves it: the former notes of the project deleted, the good notes
    stored. *)
Theorem replace_all_notes_not_atomic E w project_name good bad rest w1 resp :
  replace_all_notes project_name [("notes", good)] E w = (w1, inr resp) ->
  dict_get "file_path" bad = None ->
  exists w2,
    replace_all_notes project_name [("notes", good ++ bad :: rest)] E w
    = (w2, inl (HTTPException 500 "'file_path'")) /\
    db w2 = db w1.
Proof.
  rewrite !replace_all_notes_run. cbn [data_get_notes find fst snd String.eqb Ascii.eqb Bool.eqb].
  intros Hgood Hbad. rewrite for_each_app.
  destruct (for_each good (replace_one project_name) E _) as [w' [e | []]];
    [discriminate |].
  injection Hgood as <- _.
  cbn [for_each]. rewrite bind_M_run, (replace_one_missing_file_path _ _ _ _ Hbad).
  eexists. split; reflexivity.
Qed.

Lemma replace_one_db E w project_name note_data w' :
  replace_one project_name note_data E w = (w', inr tt) ->
  exists row,
    db w' = set_notes (db w) (notes (db w) ++ [row]) /\
    Notes.project_name row = Some project_name /\
    Notes.project_id row = None.
Proof.
  intros H. unfold replace_one in H.
  unfold replace_parameters, uuid4, datetime_now, lift in H.
  cbn [bind ret Monad_M db clock_reads uuid_draws] in H.
  destruct (dict_getitem "file_path" note_data) as [| file_path]; [discriminate |].
  destruct (dict_getitem "line_number" note_data) as [| line_number]; [discriminate |].
  destruct (dict_getitem "author" note_data) as [| author]; [discriminate |].
  destruct (dict_getitem "comment" note_data) as [| comment]; [discriminate |].
  unfold insert_replaced_note, current_timestamp, datetime_now, ask, lift,
    execute_checked in H.
  cbn [bind ret Monad_M db clock_reads uuid_draws] in H.
  match type of H with
  | context [replaced_note_row ?c ?a ?b ?c1 ?d ?e ?f ?g ?h ?i ?j ?k ?l] =>
      destruct (replaced_note_row c a b c1 d e f g h i j k l) as [| row] eqn:Hrow;
      [discriminate |]
  end.
  cbn [bind ret Monad_M Monad_Result db clock_reads uuid_draws] in H.
  destruct (insert_note row (db w)) as [| d'] eqn:Hins; [discriminate |].
  injection H as <-.
  apply replaced_note_row_inr in Hrow.
  destruct Hrow as (_ & Hpn & _ & _ & _ & _ & _ & _ & _ & _ & _ & Hpid).
  exists row. cbn [db]. split; [| split; [| exact Hpid]].
  - unfold insert_note in Hins. rewrite Hpid in Hins.
    destruct (existsb _ (notes (db w))); [discriminate |]. congruence.
  - apply of_opt_str_inj. symmetry. exact Hpn.
Qed.

Lemma replace_loop_db E project_name (notes_data : list dict) :
  forall w w',
    for_each notes_data (replace_one project_name) E w = (w', inr tt) ->
    exists rows,
      db w' = set_notes (db w) (notes (db w) ++ rows) /\
      List.length rows = List.length notes_data /\
      Forall (fun row => Notes.project_name row = Some project_name /\
                         Notes.project_id row = None) rows.
Proof.
  induction notes_data as [| note_data notes_data IH]; intros w w' H.
  - cbn in H. injection H as <-. exists []. rewrite app_nil_r, set_notes_same. auto.
  - cbn [for_each] in H. rewrite bind_M_run in H.
    destruct (replace_one project_name note_data E w) as [w1 [e | []]] eqn:Hone;
      [discriminate |].
    apply replace_one_db in Hone. destruct Hone as (row & Hdb & Hpn & Hpid).
    apply IH in H. destruct H as (rows & Hdb' & Hlen & Hall).
    exists (row :: rows). split; [| split].
    + rewrite Hdb', Hdb. unfold set_notes. cbn [notes projects replies projects_id_seq].
      rewrite <- app_assoc. reflexivity.
    + cbn [List.length]. rewrite Hlen. reflexivity.
    + constructor; [split |]; assumption.
Qed.

(** What [replace_all_notes] leaves in the store when it succeeds: the
    notes that were not of the project, then one row per supplied note,
    each under the project's name and without a project reference. *)
Lemma replace_all_notes_rows E w project_name data w' resp :
  replace_all_notes project_name data E w = (w', inr resp) ->
  exists rows,
    notes (db w')
    = filter (fun n => negb (sql_str_eq (Notes.project_name n) project_name))
             (notes (db w)) ++ rows /\
    List.length rows = List.length (data_get_notes data) /\
    Forall (fun row => Notes.project_name row = Some project_name /\
                       Notes.project_id row = None) rows.
Proof.
  rewrite replace_all_notes_run.
  destruct (for_each (data_get_notes data) (replace_one project_name) E _)
    as [w2 [e | []]] eqn:Hloop; [discriminate |].
  intros H. injection H as <- _.
  apply replace_loop_db in Hloop. destruct Hloop as (rows & Hdb & Hlen & Hall).
  exists rows. rewrite Hdb. cbn [db notes set_notes].
  rewrite insert_project_do_nothing_notes. repeat split; assumption.
Qed.

(** Whatever [replace_all_notes] stores is out of reach of
    [get_project_notes]: on a store whose notes carry no project
    reference, the listing that follows a successful replacement is
    empty. *)
Lemma replace_then_list_is_empty E w project_name data w' resp :
  Forall (fun n => Notes.project_id n = None) (notes (db w)) ->
  replace_all_notes project_name data E w = (w', inr resp) ->
  get_project_notes project_name E w' = (w', inr (NotesResponse.mk [])).
Proof.
  intros Hnull H.
  destruct (replace_all_notes_rows E w project_name data w' resp H)
    as (rows & Hnotes & _ & Hrows).
  rewrite get_project_notes_run, join_projects_unlinked; [reflexivity |].
  rewrite Hnotes. apply Forall_app. split.
  - apply Forall_forall. intros n Hin. apply filter_In in Hin.
    rewrite Forall_forall in Hnull. apply Hnull. tauto.
  - eapply Forall_impl; [| exact Hrows]. cbn. tauto.
Qed.

Lemma filter_all {A} (q : A -> bool) (l : list A) :
  Forall (fun a => q a = true) l -> filter q l = l.
Proof.
  induction 1 as [| a l Ha _ IH]; simpl; [reflexivity |]. rewrite Ha, IH. reflexivity.
Qed.

(** X15: after a successful [replace_all_notes] the answer's [count] is
    the number of supplied notes, and it is also the [total_notes] that
    [get_project_stats] answers for the project: what was there before is
    gone, what was supplied is counted. *)
Theorem replace_all_notes_then_stats E w project_name data w' resp :
  replace_all_notes project_name data E w = (w', inr resp) ->
  resp = VDict [("success", VBool true);
                ("count", VInt (Z.of_nat (List.length (data_get_notes data))))] /\
  get_project_stats project_name E w'
  = (w', inr (StatsResponse.mk (Z.of_nat (List.length (data_get_notes data)))
                               project_name)).
Proof.
  rewrite replace_all_notes_run.
  destruct (for_each (data_get_notes data) (replace_one project_name) E _)
    as [w2 [e | []]] eqn:Hloop; [discriminate |].
  intros H. injection H as <- <-. split; [reflexivity |].
  apply replace_loop_db in Hloop. destruct Hloop as (rows & Hdb & Hlen & Hall).
  rewrite get_project_stats_run. do 3 f_equal.
  unfold count_notes_where_project_name. rewrite Hdb.
  cbn [db notes set_notes insert_project_do_nothing].
  assert (Hnotes : notes (insert_project_do_nothing project_name
                            (fst (delete_notes_where_project_name project_name (db w))))
                   = filter (fun n => negb (sql_str_eq (Notes.project_name n) project_name))
                            (notes (db w))).
  { unfold insert_project_do_nothing, insert_project.
    destruct (existsb _ _); reflexivity. }
  rewrite Hnotes, filter_app, filter_filter_negb, app_nil_l, filter_all, Hlen;
    [reflexivity |].
  eapply Forall_impl; [| exact Hall]. cbn. intros row [Hrow _].
  rewrite Hrow. unfold sql_str_eq, opt_eqb. apply String.eqb_refl.
Qed.

Lemma replace_one_projects (project_name : string) (note_data : dict) :
  keeps projects_same (replace_one project_name note_data).
Proof.
  unfold replace_one. apply (keeps_bind _ projects_same_trans).
  - apply (keeps_replace_parameters _ (fun d => eq_refl) projects_same_trans).
  - intros params.
    apply (keeps_insert_replaced_note _ (fun d => eq_refl) projects_same_trans).
    intros n d d' H. exact (insert_note_projects _ _ _ H).
Qed.

Lemma replace_all_notes_projects E w project_name data :
  projects (db (fst (replace_all_notes project_name data E w)))
  = projects (insert_project_do_nothing project_name (db w)).
Proof.
  rewrite replace_all_notes_run.
  match goal with
  | |- context [for_each _ _ E ?w2] =>
      pose proof (keeps_for_each projects_same (fun d => eq_refl) projects_same_trans
                    (data_get_notes data) (replace_one project_name)
                    (replace_one_projects project_name) E w2) as Hk;
      destruct (for_each (data_get_notes data) (replace_one project_name) E w2)
        as [w3 [e | []]]
  end; cbn [fst db] in *; rewrite Hk; unfold insert_project_do_nothing, insert_project;
    cbn [fst delete_notes_where_project_name set_notes projects];
    destruct (existsb _ _); reflexivity.
Qed.

(** X16: whatever [replace_all_notes] answers, a project row of the
    requested name is stored afterwards; it is the row that was there, or
    one new row after the rows that were there when there was none. *)
Theorem replace_all_notes_ensures_project E w project_name data :
  names_project (db (fst (replace_all_notes project_name data E w))) project_name /\
  (names_project (db w) project_name ->
   projects (db (fst (replace_all_notes project_name data E w))) = projects (db w)) /\
  (~ names_project (db w) project_name ->
   exists p, Projects.name p = project_name /\
             projects (db (fst (replace_all_notes project_name data E w)))
             = projects (db w) ++ [p]).
Proof.
  unfold names_project at 1. rewrite !replace_all_notes_projects.
  unfold insert_project_do_nothing, insert_project.
  destruct (existsb (project_named project_name) (projects (db w))) eqn:Hex; cbn [projects].
  - apply existsb_exists in Hex. destruct Hex as (p & Hin & Hname).
    apply String.eqb_eq in Hname.
    assert (Hn : names_project (db w) project_name) by (exists p; auto).
    split; [exists p; auto |]. split; [reflexivity |]. intros Hno. contradiction.
  - assert (Hno : ~ names_project (db w) project_name).
    { intros (p & Hin & Hname).
      assert (Ht : existsb (project_named project_name) (projects (db w)) = true).
      { apply existsb_exists. exists p. split; [exact Hin |].
        apply String.eqb_eq. exact Hname. }
      congruence. }
    split; [| split].
    + eexists. split; [apply in_or_app; right; left; reflexivity | reflexivity].
    + intros Hn. contradiction.
    + intros _. eexists. split; [| reflexivity]. reflexivity.
Qed.

(** ** The project of a created note *)

Lemma create_note_project E w note w' resp :
  create_note note E w = (w', inr resp) ->
  exists project_id,
    notes (db w')
    = notes (db w) ++ [created_row E (uuid_draws w) (clock_reads w) project_id note] /\
    match select_project_id (ScrewNote.project_name note) "/" (db w) with
    | Some i => project_id = i /\ projects (db w') = projects (db w)
    | None =>
        project_id = projects_id_seq (db w) /\
        projects (db w')
        = projects (db w)
          ++ [Projects.mk project_id (ScrewNote.project_name note) (Some "/")]
    end.
Proof.
  intros H. unfold create_note in H. apply try_internal_error_inr in H.
  apply bind_M_inr in H. destruct H as (w1 & project_row & Hsel & H).
  unfold query in Hsel. injection Hsel as <- <-.
  apply bind_M_inr in H. destruct H as (w2 & project_id & Hproj & H).
  assert (Hp : notes (db w2) = notes (db w) /\ uuid_draws w2 = uuid_draws w /\
               clock_reads w2 = clock_reads w /\
               match select_project_id (ScrewNote.project_name note) "/" (db w) with
               | Some i => project_id = i /\ projects (db w2) = projects (db w)
               | None =>
                   project_id = projects_id_seq (db w) /\
                   projects (db w2)
                   = projects (db w)
                     ++ [Projects.mk project_id (ScrewNote.project_name note) (Some "/")]
               end).
  { destruct (select_project_id (ScrewNote.project_name note) "/" (db w)) as [i |] eqn:Hs.
    - cbn [ret Monad_M] in Hproj. injection Hproj as <- <-. auto.
    - unfold execute_checked, insert_project in Hproj.
      destruct (existsb _ (projects (db w))); [discriminate |].
      injection Hproj as <- <-. cbn [db projects notes uuid_draws clock_reads]. auto. }
  destruct Hp as (Hnotes & Hdraws & Hreads & Hprojects).
  unfold datetime_now in H. cbn [bind ret Monad_M db clock_reads uuid_draws] in H.
  unfold insert_created_note, uuid4, current_timestamp, datetime_now, execute_checked in H.
  cbn [bind ret Monad_M db clock_reads uuid_draws] in H.
  cbn [bind ret Monad_Result] in H.
  match type of H with
  | context [check_note_columns ?a ?b ?c ?d] =>
      destruct (check_note_columns a b c d) as [e0 | []]; [discriminate |]
  end.
  match type of H with
  | context [insert_note ?n (db w2)] =>
      destruct (insert_note n (db w2)) as [e | d'] eqn:Hins; [discriminate |]
  end.
  cbn [bind ret Monad_Result] in H. injection H as <- _.
  unfold insert_note in Hins. cbn [Notes.id Notes.project_id] in Hins.
  destruct (existsb (note_has_id _) (notes (db w2))); [discriminate |].
  destruct (existsb (fun p => Projects.id p =? project_id) (projects (db w2)));
    [| discriminate].
  injection Hins as <-.
  exists project_id. cbn [db notes projects set_notes].
  rewrite Hnotes, Hdraws, Hreads. split; [reflexivity | exact Hprojects].
Qed.

(** X17: [create_note] looks the project up by name and path ["/"]
    before it inserts one, so a second note created for the same project
    name adds no project row and carries the same [project_id] as the
    first. *)
Theorem create_note_reuses_project E w note1 note2 w1 r1 w2 r2 :
  create_note note1 E w = (w1, inr r1) ->
  create_note note2 E w1 = (w2, inr r2) ->
  ScrewNote.project_name note1 = ScrewNote.project_name note2 ->
  projects (db w2) = projects (db w1) /\
  exists i n1 n2,
    notes (db w2) = notes (db w) ++ [n1; n2] /\
    Notes.project_id n1 = Some i /\ Notes.project_id n2 = Some i.
Proof.
  intros H1 H2 Hname.
  apply create_note_project in H1. destruct H1 as (i1 & Hnotes1 & Hp1).
  apply create_note_project in H2. destruct H2 as (i2 & Hnotes2 & Hp2).
  rewrite <- Hname in Hp2.
  assert (Hsel : select_project_id (ScrewNote.project_name note1) "/" (db w1) = Some i1).
  { unfold select_project_id in *.
    destruct (filter _ (projects (db w))) as [| p ps] eqn:Hf.
    - destruct Hp1 as [-> Hps]. rewrite Hps, filter_app, Hf. cbn [app filter].
      unfold project_named, sql_str_eq, opt_eqb. cbn [Projects.name Projects.path].
      rewrite !String.eqb_refl. reflexivity.
    - destruct Hp1 as [-> Hps]. rewrite Hps, Hf. reflexivity. }
  rewrite Hsel in Hp2. destruct Hp2 as [-> Hps2].
  split; [exact Hps2 |].
  exists i1, (created_row E (uuid_draws w) (clock_reads w) i1 note1),
         (created_row E (uuid_draws w1) (clock_reads w1) i1 note2).
  split; [| split; reflexivity].
  rewrite Hnotes2, Hnotes1, <- app_assoc. reflexivity.
Qed.

(** ** Replacing, then querying by file *)

Lemma stored_all_project_name E project_name :
  forall notes_data rows ud cr,
    stored_all E project_name ud cr notes_data rows ->
    Forall (fun row => Notes.project_name row = Some project_name) rows.
Proof.
  induction notes_data as [| nd nds IH]; intros [| row rows] ud cr H; cbn in H;
    try contradiction; constructor.
  - destruct H as [(_ & _ & _ & _ & Hpn & _) _]. exact Hpn.
  - destruct H as [_ H]. exact (IH _ _ _ H).
Qed.

(** X18: after a successful [replace_all_notes] on a request body with
    the notes [notes_data], [get_file_notes] for the project and a path
    answers with exactly the rows stored for the supplied notes whose
    [file_path] is that path (each once, and no note from before the
    replacement). *)
Theorem replace_all_notes_then_file_query E w project_name notes_data w' resp path :
  (forall k, read_timestamp E (isoformat (clock E k)) = Some (clock E k)) ->
  replace_all_notes project_name [("notes", notes_data)] E w = (w', inr resp) ->
  exists rows ns ds,
    stored_all E project_name (uuid_draws w) (clock_reads w) notes_data rows /\
    get_file_notes project_name path E w' = (w', inr (NotesResponse.mk ds)) /\
    Permutation ns (filter (fun row => sql_str_eq (Notes.file_path row) path) rows) /\
    Forall2 (fun n d => dict_get "id" d = Some (VStr (Notes.id n)) /\
                        dict_get "file_path" d = Some (VStr path))
            ns ds.
Proof.
  intros Hreads H.
  destruct (replace_all_notes_inr E w project_name _ w' resp Hreads H)
    as (rows & Hnotes & _ & _ & Hrows).
  change (data_get_notes [("notes", notes_data)]) with notes_data in Hrows.
  pose proof (stored_all_project_name _ _ _ _ _ _ Hrows) as Hpn.
  set (leb := fun a b : Notes.row =>
                nulls_last_leb Z.leb (Notes.line_number a) (Notes.line_number b)).
  set (sel := filter (fun row => sql_str_eq (Notes.file_path row) path) rows).
  exists rows, (order_by leb sel),
         (map (note_row_dict reply_object_with_user (db w')) (order_by leb sel)).
  split; [exact Hrows |].
  assert (Hsel : filter (fun n => sql_str_eq (Notes.project_name n) project_name
                                  && sql_str_eq (Notes.file_path n) path)
                        (notes (db w')) = sel).
  { rewrite Hnotes, filter_app.
    assert (Hold : forall l,
               filter (fun n => sql_str_eq (Notes.project_name n) project_name
                                && sql_str_eq (Notes.file_path n) path)
                      (filter (fun n => negb (sql_str_eq (Notes.project_name n)
                                                         project_name)) l) = []).
    { induction l as [| n l IH]; simpl; [reflexivity |].
      destruct (sql_str_eq (Notes.project_name n) project_name) eqn:Hp; simpl;
        [exact IH |]. rewrite Hp. exact IH. }
    rewrite Hold, app_nil_l. unfold sel. clear - Hpn.
    induction Hpn as [| row rows Hrow _ IH]; simpl; [reflexivity |].
    rewrite Hrow. unfold sql_str_eq at 1, opt_eqb. rewrite String.eqb_refl.
    cbn [andb]. rewrite IH. reflexivity. }
  split.
  { rewrite get_file_notes_run. unfold select_file_notes. rewrite Hsel. reflexivity. }
  split; [symmetry; apply order_by_perm |].
  assert (Hall : Forall (fun n => Notes.file_path n = Some path) (order_by leb sel)).
  { eapply Permutation_Forall; [apply order_by_perm |].
    unfold sel. apply Forall_forall. intros n Hin. apply filter_In in Hin.
    apply sql_str_eq_true. tauto. }
  induction Hall as [| n ns Hn _ IH]; cbn [map]; constructor; [| exact IH].
  destruct (note_row_dict_get reply_object_with_user (db w') n) as (H1 & _).
  split; [exact H1 |].
  unfold note_row_dict. rewrite replies_column_value.
  destruct n; cbn in Hn; subst; reflexivity.
Qed.

(** ** Routing *)

(** X19: [DELETE /api/notes/{note_id}] is registered before
    [DELETE /api/notes/{project_name}] and matches the same requests, so
    every [DELETE /api/notes/x] is routed to [delete_note] and no request
    at all is routed to [clear_project_notes]. *)
Theorem clear_project_notes_is_shadowed :
  (forall method path, dispatch method path <> Some To_clear_project_notes) /\
  (forall x, x <> EmptyString ->
             dispatch DELETE ["api"; "notes"; x] = Some To_delete_note).
Proof.
  split.
  - intros method path. unfold dispatch, routes.
    destruct method; destruct path as [| a [| b [| c [| d [| e path]]]]];
      cbn [find method_eqb fst snd andb path_matches segment_matches];
      try discriminate;
      repeat match goal with
             | |- context [String.eqb ?x ?y] => destruct (String.eqb x y)
             end;
      cbn [negb andb snd]; discriminate.
  - intros x Hx. unfold dispatch, routes.
    cbn [find method_eqb fst snd andb path_matches segment_matches].
    rewrite !String.eqb_refl. apply String.eqb_neq in Hx. rewrite Hx. reflexivity.
Qed.

(** ** Start-up: the optional columns *)

Lemma table_columns_set_same (table : string) (cols old : list (string * string))
    (c : Catalog) :
  table_columns table c = Some old ->
  table_columns table (set_table_columns table cols c) = Some cols.
Proof.
  induction c as [| [t o] c IH]; simpl; [discriminate |].
  destruct (String.eqb table t) eqn:Ht; simpl; rewrite Ht; auto.
Qed.

Lemma table_columns_set_other (table other : string) (cols : list (string * string))
    (c : Catalog) :
  other <> table ->
  table_columns other (set_table_columns table cols c) = table_columns other c.
Proof.
  intros Hne. induction c as [| [t o] c IH]; simpl; [reflexivity |].
  destruct (String.eqb table t) eqn:Ht; simpl.
  - apply String.eqb_eq in Ht. subst t.
    apply String.eqb_neq in Hne. rewrite Hne. reflexivity.
  - rewrite IH. reflexivity.
Qed.

Lemma has_column_app (name : string) (a b : list (string * string)) :
  has_column name (a ++ b) = has_column name a || has_column name b.
Proof. apply existsb_app. Qed.

(** The loop of [init_database] over any list of columns: the columns
    [notes] had stay in place, those of the list it lacked follow, and
    no other table changes. *)
Lemma add_missing_columns_spec (l : list (string * string)) :
  forall c log cols,
    table_columns "notes" c = Some cols ->
    exists added,
      table_columns "notes" (fst (fold_left add_missing_column l (c, log)))
      = Some (cols ++ added) /\
      (forall col, In col l -> has_column (fst col) (cols ++ added) = true) /\
      (forall col, In col added -> In col l /\ has_column (fst col) cols = false) /\
      (forall t, t <> "notes" ->
                 table_columns t (fst (fold_left add_missing_column l (c, log)))
                 = table_columns t c).
Proof.
  induction l as [| [name ty] l IH]; intros c log cols Hc; cbn [fold_left].
  - exists []. rewrite app_nil_r.
    split; [exact Hc |]. split; [intros col [] |]. split; [intros col [] | reflexivity].
  - destruct (add_missing_column (c, log) (name, ty)) as [c1 lg] eqn:Hstep.
    unfold add_missing_column, add_column in Hstep. cbn [fst snd] in Hstep.
    rewrite Hc in Hstep.
    destruct (has_column name cols) eqn:Hhas.
    + assert (Hc1 : c1 = c).
      { match type of Hstep with
        | context [if ?b then _ else _] => destruct b
        end; congruence. }
      subst c1.
      destruct (IH c lg cols Hc) as (added & H1 & H2 & H3 & H4).
      exists added. split; [exact H1 |]. split; [| split; [| exact H4]].
      * intros col [<- | Hin]; [| auto].
        cbn [fst]. rewrite has_column_app, Hhas. reflexivity.
      * intros col Hin. destruct (H3 col Hin) as [Hl Hno]. split; [right |]; assumption.
    + injection Hstep as <- <-.
      match goal with
      | |- context [fold_left _ l (?c1, ?lg)] =>
          destruct (IH c1 lg (cols ++ [(name, ty)])
                      (table_columns_set_same "notes" _ _ c Hc))
            as (added & H1 & H2 & H3 & H4)
      end.
      exists ((name, ty) :: added).
      rewrite <- app_assoc in H1, H2. cbn [app] in H1, H2.
      split; [exact H1 |]. split; [| split].
      * intros col [<- | Hin]; [| auto].
        cbn [fst]. rewrite has_column_app. cbn [has_column existsb fst].
        rewrite String.eqb_refl. cbn. apply orb_true_r.
      * intros col [<- | Hin]; [split; [left; reflexivity | exact Hhas] |].
        destruct (H3 col Hin) as [Hl Hno]. split; [right; exact Hl |].
        rewrite has_column_app in Hno. apply orb_false_elim in Hno. tauto.
      * intros t Ht. rewrite H4 by exact Ht.
        apply table_columns_set_other. exact Ht.
Qed.

Lemma init_database_columns (c : Catalog) (cols pcols : list (string * string)) :
  table_columns "projects" c = Some pcols ->
  table_columns "notes" c = Some cols ->
  exists added,
    table_columns "notes" (fst (init_database c)) = Some (cols ++ added) /\
    (forall col, In col missing_columns -> has_column (fst col) (cols ++ added) = true) /\
    (forall col, In col added ->
                 In col missing_columns /\ has_column (fst col) cols = false) /\
    (forall t, t <> "notes" ->
               table_columns t (fst (init_database c)) = table_columns t c).
Proof.
  intros Hp Hn. unfold init_database, select_count. cbn [bind Monad_Result].
  rewrite Hp, Hn. apply add_missing_columns_spec. exact Hn.
Qed.

(** X20: when the tables [projects] and [notes] exist, [init_database]
    leaves [notes] with the columns it had, in place and with the types
    they had, followed by those of the five optional columns it lacked;
    afterwards each of the five is a column of [notes], and no other
    table has changed. *)
Theorem init_database_adds_missing_columns (c : Catalog) (cols : list (string * string)) :
  table_columns "projects" c <> None ->
  table_columns "notes" c = Some cols ->
  exists added,
    table_columns "notes" (fst (init_database c)) = Some (cols ++ added) /\
    (forall col, In col missing_columns -> has_column (fst col) (cols ++ added) = true) /\
    (forall col, In col added ->
                 In col missing_columns /\ has_column (fst col) cols = false) /\
    (forall t, t <> "notes" ->
               table_columns t (fst (init_database c)) = table_columns t c).
Proof.
  intros Hp Hn. destruct (table_columns "projects" c) as [pcols |] eqn:Hpc;
    [| congruence].
  exact (init_database_columns c cols pcols Hpc Hn).
Qed.

Lemma add_missing_columns_present (l : list (string * string)) :
  forall c log cols,
    table_columns "notes" c = Some cols ->
    (forall col, In col l -> has_column (fst col) cols = true) ->
    fst (fold_left add_missing_column l (c, log)) = c.
Proof.
  induction l as [| col l IH]; intros c log cols Hc Hall; cbn [fold_left];
    [reflexivity |].
  unfold add_missing_column at 2, add_column. cbn [fst snd]. rewrite Hc.
  rewrite (Hall col) by (left; reflexivity).
  match goal with
  | |- context [if ?b then _ else _] => destruct b
  end; (eapply IH; [exact Hc | intros; apply Hall; right; assumption]).
Qed.

(** X21: [init_database] can run at every start: on the catalogue a first
    run has left, a second run changes nothing.  When [projects] or
    [notes] does not exist it changes nothing either, and logs one
    error. *)
Theorem init_database_idempotent (c : Catalog) :
  fst (init_database (fst (init_database c))) = fst (init_database c) /\
  (table_columns "projects" c = None \/ table_columns "notes" c = None ->
   fst (init_database c) = c /\
   exists msg, snd (init_database c) = [(ERROR, msg)]).
Proof.
  split.
  - destruct (table_columns "projects" c) as [pcols |] eqn:Hp;
      [destruct (table_columns "notes" c) as [cols |] eqn:Hn |].
    + destruct (init_database_columns c cols pcols Hp Hn)
        as (added & H1 & H2 & _ & H4).
      set (c1 := fst (init_database c)) in *.
      unfold init_database at 1, select_count. cbn [bind Monad_Result].
      rewrite H4, Hp, H1 by discriminate.
      eapply add_missing_columns_present; [exact H1 | exact H2].
    + unfold init_database at 2, select_count. cbn [bind Monad_Result].
      rewrite Hp, Hn. cbn [fst].
      unfold init_database, select_count. cbn [bind Monad_Result].
      rewrite Hp, Hn. reflexivity.
    + unfold init_database at 2, select_count. cbn [bind Monad_Result].
      rewrite Hp. cbn [fst].
      unfold init_database, select_count. cbn [bind Monad_Result].
      rewrite Hp. reflexivity.
  - intros [Hp | Hn]; unfold init_database, select_count; cbn [bind Monad_Result].
    + rewrite Hp. split; [reflexivity | eexists; reflexivity].
    + rewrite Hn. destruct (table_columns "projects" c);
        (split; [reflexivity | eexists; reflexivity]).
Qed.

(** ** The further theorems at work on the scenarios *)

Lemma delete_note_effect_witness :
  uuid_in "missing" = None /\
  uuid_in absent_id = Some absent_id /\
  uuid_in demo_id_braced = Some demo_id /\
  (exists e, snd (delete_note "missing" demo_env created_world) = inl e /\
             response_status e = 500 /\
             db (fst (delete_note "missing" demo_env created_world)) = db created_world) /\
  (snd (delete_note absent_id demo_env created_world)
   = inl (HTTPException 404 "Note not found") /\
   db (fst (delete_note absent_id demo_env created_world)) = db created_world) /\
  (snd (delete_note demo_id_braced demo_env created_world)
   = inr (VDict [("success", VBool true)]) /\
   notes (db (fst (delete_note demo_id_braced demo_env created_world)))
   = filter (fun n => negb (String.eqb (Notes.id n) demo_id)) (notes (db created_world)) /\
   projects (db (fst (delete_note demo_id_braced demo_env created_world)))
   = projects (db created_world) /\
   ~ names_note (db (fst (delete_note demo_id_braced demo_env created_world))) demo_id).
Proof.
  split; [reflexivity |]. split; [reflexivity |]. split; [reflexivity |].
  split; [| split].
  - apply (proj1 (delete_note_effect demo_env created_world "missing")). reflexivity.
  - apply (proj1 (proj2 (delete_note_effect demo_env created_world absent_id)
                    absent_id eq_refl)).
    exact created_world_lacks_absent_id.
  - apply (proj2 (proj2 (delete_note_effect demo_env created_world demo_id_braced)
                    demo_id eq_refl)).
    exact created_world_names_demo_id.
Defined.

Lemma delete_note_then_not_found_witness :
  uuid_in demo_id_braced = Some demo_id /\
  snd (delete_note demo_id_braced demo_env created_world)
  = inr (VDict [("success", VBool true)]) /\
  snd (delete_note demo_id_braced demo_env
         (fst (delete_note demo_id_braced demo_env created_world)))
  = inl (HTTPException 404 "Note not found") /\
  snd (get_note_by_id demo_id_braced demo_env
         (fst (delete_note demo_id_braced demo_env created_world)))
  = inl (HTTPException 404 "Note not found").
Proof.
  split; [reflexivity |]. split; [reflexivity |].
  exact (proj1 (delete_note_then_not_found demo_env created_world demo_id_braced)
           demo_id eq_refl).
Defined.

Lemma clear_project_notes_count_witness :
  db (fst (clear_project_notes "demo" demo_env empty_world)) = db empty_world.
Proof.
  destruct (clear_project_notes_count demo_env empty_world "demo")
    as (total & Hstats & _ & _ & Hzero).
  apply Hzero. injection Hstats as <-. reflexivity.
Defined.

Lemma clear_project_notes_spares_others_witness :
  "demo" <> "other" /\
  snd (get_project_stats "other" demo_env
         (fst (clear_project_notes "demo" demo_env replaced_world)))
  = snd (get_project_stats "other" demo_env replaced_world).
Proof.
  split; [discriminate |].
  apply (clear_project_notes_spares_others demo_env replaced_world "demo" "other").
  discriminate.
Defined.


Lemma demo_note_created :
  create_note demo_note demo_env empty_world
  = (created_world,
     inr (VDict [("note", VDict (ScrewNote.dict (ScrewNote.set_id demo_id demo_note)))])).
Proof. vm_compute. reflexivity. Defined.

Lemma demo_note_later_created :
  create_note demo_note_later demo_env created_world
  = (two_notes_world,
     inr (VDict [("note",
                  VDict (ScrewNote.dict
                           (ScrewNote.set_id "6f1c2b3a-4d5e-4f60-a1b2-c3d4e5f60719"
                              demo_note_later)))])).
Proof. vm_compute. reflexivity. Defined.

Lemma create_note_then_get_by_id_witness :
  exists new_id d,
    VDict [("note", VDict (ScrewNote.dict (ScrewNote.set_id demo_id demo_note)))]
    = VDict [("note", VDict (ScrewNote.dict (ScrewNote.set_id new_id demo_note)))] /\
    new_id = uuid_str (uuid_source demo_env (uuid_draws empty_world)) /\
    get_note_by_id new_id demo_env created_world
    = (created_world, inr (VDict [("note", VDict d)])) /\
    dict_get "id" d = Some (VStr new_id) /\
    dict_get "file_path" d = Some (VStr (ScrewNote.file_path demo_note)) /\
    dict_get "line_number" d = Some (VInt (ScrewNote.line_number demo_note)) /\
    dict_get "author" d = Some (VStr (ScrewNote.author demo_note)) /\
    dict_get "comment" d = Some (VStr (ScrewNote.comment demo_note)) /\
    dict_get "description" d = Some (of_opt_str (ScrewNote.description demo_note)) /\
    dict_get "cwe" d = Some (of_opt_str (ScrewNote.cwe demo_note)) /\
    dict_get "state" d = Some (VStr (ScrewNote.state demo_note)) /\
    dict_get "severity" d = Some (of_opt_str (ScrewNote.severity demo_note)) /\
    dict_get "source" d = Some (VStr (ScrewNote.source demo_note)) /\
    dict_get "timestamp" d
    = Some (VStr (isoformat (clock demo_env (clock_reads empty_world)))) /\
    dict_get "updated_at" d
    = Some (VStr (isoformat (clock demo_env (S (clock_reads empty_world))))) /\
    dict_get "project_name" d = Some VNone /\
    dict_get "user_id" d = Some VNone.
Proof.
  exact (create_note_then_get_by_id demo_env empty_world demo_note created_world _
           demo_note_created).
Defined.

Lemma create_note_then_listed_witness :
  exists new_id ds d,
    VDict [("note", VDict (ScrewNote.dict (ScrewNote.set_id demo_id demo_note)))]
    = VDict [("note", VDict (ScrewNote.dict (ScrewNote.set_id new_id demo_note)))] /\
    get_project_notes (ScrewNote.project_name demo_note) demo_env created_world
    = (created_world, inr (NotesResponse.mk ds)) /\
    In d ds /\
    dict_get "id" d = Some (VStr new_id) /\
    dict_get "project_name" d = Some (VStr (ScrewNote.project_name demo_note)).
Proof.
  exact (create_note_then_listed demo_env empty_world demo_note created_world _
           demo_note_created).
Defined.


Lemma update_note_then_get_by_id_witness :
  exists i d,
    uuid_in demo_id_braced = Some i /\
    get_note_by_id demo_id_braced demo_env
      (fst (update_note demo_id_braced demo_update demo_env created_world))
    = (fst (update_note demo_id_braced demo_update demo_env created_world),
       inr (VDict [("note", VDict d)])) /\
    dict_get "id" d = Some (VStr i) /\
    dict_get "file_path" d = Some (VStr (ScrewNote.file_path demo_update)) /\
    dict_get "line_number" d = Some (VInt (ScrewNote.line_number demo_update)) /\
    dict_get "author" d = Some (VStr (ScrewNote.author demo_update)) /\
    dict_get "comment" d = Some (VStr (ScrewNote.comment demo_update)) /\
    dict_get "description" d = Some (of_opt_str (ScrewNote.description demo_update)) /\
    dict_get "cwe" d = Some (of_opt_str (ScrewNote.cwe demo_update)) /\
    dict_get "state" d = Some (VStr (ScrewNote.state demo_update)) /\
    dict_get "severity" d = Some (of_opt_str (ScrewNote.severity demo_update)) /\
    dict_get "source" d = Some (VStr (ScrewNote.source demo_update)) /\
    dict_get "updated_at" d
    = Some (VStr (isoformat (clock demo_env (clock_reads created_world)))).
Proof.
  apply (update_note_then_get_by_id demo_env created_world demo_id_braced demo_update _
           (VDict [("note",
                    VDict (ScrewNote.dict (ScrewNote.set_id demo_id_braced demo_update)))])).
  reflexivity.
Defined.

Lemma replace_all_notes_not_atomic_witness :
  exists w2,
    replace_all_notes "demo" [("notes", [demo_note_data] ++ demo_note_data_bad :: [])]
      demo_env empty_world
    = (w2, inl (HTTPException 500 "'file_path'")) /\
    db w2 = db replaced_world.
Proof.
  apply (replace_all_notes_not_atomic demo_env empty_world "demo" [demo_note_data]
           demo_note_data_bad [] replaced_world
           (VDict [("success", VBool true); ("count", VInt 1)])).
  - vm_compute. reflexivity.
  - reflexivity.
Defined.

Lemma replace_all_notes_then_stats_witness :
  VDict [("success", VBool true); ("count", VInt 1)]
  = VDict [("success", VBool true);
           ("count",
            VInt (Z.of_nat (List.length (data_get_notes [("notes", [demo_note_data])]))))] /\
  get_project_stats "demo" demo_env replaced_world
  = (replaced_world,
     inr (StatsResponse.mk
            (Z.of_nat (List.length (data_get_notes [("notes", [demo_note_data])])))
            "demo")).
Proof.
  apply (replace_all_notes_then_stats demo_env empty_world "demo"
           [("notes", [demo_note_data])] replaced_world).
  vm_compute. reflexivity.
Defined.

Lemma replace_all_notes_ensures_project_witness :
  ~ names_project (db empty_world) "demo" /\
  names_project (db replaced_world) "demo" /\
  projects (db (fst (replace_all_notes "demo" [] demo_env replaced_world)))
  = projects (db replaced_world).
Proof.
  assert (Hno : ~ names_project (db empty_world) "demo") by (intros (p & [] & _)).
  assert (Hyes : names_project (db replaced_world) "demo").
  { eexists. split; [left; reflexivity | reflexivity]. }
  split; [exact Hno |]. split; [exact Hyes |].
  apply (proj1 (proj2 (replace_all_notes_ensures_project demo_env replaced_world "demo" []))).
  exact Hyes.
Defined.

Lemma create_note_reuses_project_witness :
  projects (db two_notes_world) = projects (db created_world) /\
  exists i n1 n2,
    notes (db two_notes_world) = notes (db empty_world) ++ [n1; n2] /\
    Notes.project_id n1 = Some i /\ Notes.project_id n2 = Some i.
Proof.
  exact (create_note_reuses_project demo_env empty_world demo_note demo_note_later
           created_world _ two_notes_world _ demo_note_created demo_note_later_created
           eq_refl).
Defined.

Lemma replace_all_notes_then_file_query_witness :
  exists d,
    get_file_notes "demo" "b.py" demo_env
      (fst (replace_all_notes "demo" [("notes", [demo_note_data_full; demo_note_data])]
              demo_env created_world))
    = (fst (replace_all_notes "demo" [("notes", [demo_note_data_full; demo_note_data])]
              demo_env created_world),
       inr (NotesResponse.mk [d])) /\
    dict_get "id" d = Some (VStr "0f0e0d0c-0b0a-4908-8706-050403020100") /\
    dict_get "file_path" d = Some (VStr "b.py").
Proof.
  destruct (replace_all_notes_then_file_query demo_env created_world "demo"
              [demo_note_data_full; demo_note_data]
              (fst (replace_all_notes "demo"
                      [("notes", [demo_note_data_full; demo_note_data])]
                      demo_env created_world))
              (VDict [("success", VBool true); ("count", VInt 2)]) "b.py"
              demo_env_reads_clock ltac:(vm_compute; reflexivity))
    as (rows & ns & ds & Hrows & Hrun & Hperm & Hall).
  destruct (demo_rows_stored _ _ _ Hrows)
    as (row1 & row2 & -> & Hi1 & _ & _ & _ & Hf1 & _ & _ & _ & _ & Hf2).
  cbn [filter] in Hperm. rewrite Hf1, Hf2 in Hperm.
  change (Permutation ns [row1]) in Hperm.
  apply Permutation_sym, Permutation_length_1_inv in Hperm. subst ns.
  inversion Hall as [| n d ns0 ds0 Hd Hall0]; subst.
  inversion Hall0; subst.
  exists d. split; [exact Hrun |]. rewrite <- Hi1. exact Hd.
Defined.


Lemma clear_project_notes_is_shadowed_witness :
  dispatch DELETE ["api"; "notes"; "demo"] = Some To_delete_note.
Proof.
  apply (proj2 clear_project_notes_is_shadowed). discriminate.
Defined.

Lemma init_database_adds_missing_columns_witness :
  exists added,
    table_columns "notes" (fst (init_database demo_catalog))
    = Some ([("id", "UUID"); ("project_id", "INTEGER"); ("cwe", "TEXT")] ++ added) /\
    (forall col, In col missing_columns ->
                 has_column (fst col)
                   ([("id", "UUID"); ("project_id", "INTEGER"); ("cwe", "TEXT")] ++ added)
                 = true) /\
    (forall col, In col added ->
                 In col missing_columns /\
                 has_column (fst col)
                   [("id", "UUID"); ("project_id", "INTEGER"); ("cwe", "TEXT")] = false) /\
    (forall t, t <> "notes" ->
               table_columns t (fst (init_database demo_catalog))
               = table_columns t demo_catalog).
Proof.
  apply (init_database_adds_missing_columns demo_catalog).
  - discriminate.
  - reflexivity.
Defined.

Lemma init_database_idempotent_witness :
  fst (init_database [("projects", [("id", "SERIAL")])]) = [("projects", [("id", "SERIAL")])] /\
  exists msg, snd (init_database [("projects", [("id", "SERIAL")])]) = [(ERROR, msg)].
Proof.
  apply (proj2 (init_database_idempotent [("projects", [("id", "SERIAL")])])).
  right. reflexivity.
Defined.

(** ** The response bodies *)












